(** * Name normalisation and audio-file resolution of the flash-card program

    The development embeds the text normaliser ([sanitize_filename],
    [norm_base]) and the file resolvers ([find_audio_path], [play_audio],
    [find_latest_user_recording]) of [gui_flash_cards.py], together with the
    copy of [sanitize_filename] kept in [generate_audio.py].

    A Python [str] is a sequence of Unicode code points and is modelled as a
    list of [N].  The library calls the program makes are modelled below the
    program: [unicodedata.normalize('NFD', _)], [unicodedata.category],
    [str.lower], [str.isspace] / the [\s] class, and [posixpath] ([splitext],
    [join]); the program is written for macOS, where [os.path] is
    [posixpath].  The character tables are those of Unicode 14.0.0, the
    version shipped with CPython 3.11.  The file system the program probes is
    a record of observations ([isdir], [exists], [listdir], [getmtime]). *)

From Stdlib Require Import NArith ZArith QArith Bool List String Ascii Lia Permutation.
From Stdlib Require Import FMapPositive.
Import ListNotations.

Open Scope N_scope.

(** ** Code points and strings *)

Definition codepoint := N.
Definition ustr := list codepoint.

Fixpoint ustr_eqb (a b : ustr) : bool :=
  match a, b with
  | [], [] => true
  | x :: a', y :: b' => (x =? y) && ustr_eqb a' b'
  | _, _ => false
  end.

(** String literals of this file are UTF-8 byte strings; [u8] reads one as the
    sequence of code points it encodes (well-formed input only, which is all
    the literals below). *)
Definition cont (b : N) : N := N.land b 0x3F.

Fixpoint utf8_decode (bs : list N) : ustr :=
  match bs with
  | [] => []
  | b1 :: r1 =>
      if b1 <? 0x80 then b1 :: utf8_decode r1
      else match r1 with
      | [] => [b1]
      | b2 :: r2 =>
          if b1 <? 0xE0 then
            (N.shiftl (N.land b1 0x1F) 6 + cont b2) :: utf8_decode r2
          else match r2 with
          | [] => [b1; b2]
          | b3 :: r3 =>
              if b1 <? 0xF0 then
                (N.shiftl (N.land b1 0x0F) 12 + N.shiftl (cont b2) 6 + cont b3)
                  :: utf8_decode r3
              else match r3 with
              | [] => [b1; b2; b3]
              | b4 :: r4 =>
                  (N.shiftl (N.land b1 0x07) 18 + N.shiftl (cont b2) 12
                   + N.shiftl (cont b3) 6 + cont b4) :: utf8_decode r4
              end
          end
      end
  end.

Definition u8 (s : string) : ustr :=
  utf8_decode (map N_of_ascii (list_ascii_of_string s)).

(** ** The Unicode Character Database (Unicode 14.0.0) *)

Module UCD.

(** General_Category = Mn (Nonspacing_Mark): inclusive code point ranges. *)
Definition Mn_ranges : list (N * N) := [
  (0x300, 0x36F); (0x483, 0x487); (0x591, 0x5BD); (0x5BF, 0x5BF); (0x5C1, 0x5C2); (0x5C4, 0x5C5);
  (0x5C7, 0x5C7); (0x610, 0x61A); (0x64B, 0x65F); (0x670, 0x670); (0x6D6, 0x6DC); (0x6DF, 0x6E4);
  (0x6E7, 0x6E8); (0x6EA, 0x6ED); (0x711, 0x711); (0x730, 0x74A); (0x7A6, 0x7B0); (0x7EB, 0x7F3);
  (0x7FD, 0x7FD); (0x816, 0x819); (0x81B, 0x823); (0x825, 0x827); (0x829, 0x82D); (0x859, 0x85B);
  (0x898, 0x89F); (0x8CA, 0x8E1); (0x8E3, 0x902); (0x93A, 0x93A); (0x93C, 0x93C); (0x941, 0x948);
  (0x94D, 0x94D); (0x951, 0x957); (0x962, 0x963); (0x981, 0x981); (0x9BC, 0x9BC); (0x9C1, 0x9C4);
  (0x9CD, 0x9CD); (0x9E2, 0x9E3); (0x9FE, 0x9FE); (0xA01, 0xA02); (0xA3C, 0xA3C); (0xA41, 0xA42);
  (0xA47, 0xA48); (0xA4B, 0xA4D); (0xA51, 0xA51); (0xA70, 0xA71); (0xA75, 0xA75); (0xA81, 0xA82);
  (0xABC, 0xABC); (0xAC1, 0xAC5); (0xAC7, 0xAC8); (0xACD, 0xACD); (0xAE2, 0xAE3); (0xAFA, 0xAFF);
  (0xB01, 0xB01); (0xB3C, 0xB3C); (0xB3F, 0xB3F); (0xB41, 0xB44); (0xB4D, 0xB4D); (0xB55, 0xB56);
  (0xB62, 0xB63); (0xB82, 0xB82); (0xBC0, 0xBC0); (0xBCD, 0xBCD); (0xC00, 0xC00); (0xC04, 0xC04);
  (0xC3C, 0xC3C); (0xC3E, 0xC40); (0xC46, 0xC48); (0xC4A, 0xC4D); (0xC55, 0xC56); (0xC62, 0xC63);
  (0xC81, 0xC81); (0xCBC, 0xCBC); (0xCBF, 0xCBF); (0xCC6, 0xCC6); (0xCCC, 0xCCD); (0xCE2, 0xCE3);
  (0xD00, 0xD01); (0xD3B, 0xD3C); (0xD41, 0xD44); (0xD4D, 0xD4D); (0xD62, 0xD63); (0xD81, 0xD81);
  (0xDCA, 0xDCA); (0xDD2, 0xDD4); (0xDD6, 0xDD6); (0xE31, 0xE31); (0xE34, 0xE3A); (0xE47, 0xE4E);
  (0xEB1, 0xEB1); (0xEB4, 0xEBC); (0xEC8, 0xECD); (0xF18, 0xF19); (0xF35, 0xF35); (0xF37, 0xF37);
  (0xF39, 0xF39); (0xF71, 0xF7E); (0xF80, 0xF84); (0xF86, 0xF87); (0xF8D, 0xF97); (0xF99, 0xFBC);
  (0xFC6, 0xFC6); (0x102D, 0x1030); (0x1032, 0x1037); (0x1039, 0x103A); (0x103D, 0x103E);
  (0x1058, 0x1059); (0x105E, 0x1060); (0x1071, 0x1074); (0x1082, 0x1082); (0x1085, 0x1086);
  (0x108D, 0x108D); (0x109D, 0x109D); (0x135D, 0x135F); (0x1712, 0x1714); (0x1732, 0x1733);
  (0x1752, 0x1753); (0x1772, 0x1773); (0x17B4, 0x17B5); (0x17B7, 0x17BD); (0x17C6, 0x17C6);
  (0x17C9, 0x17D3); (0x17DD, 0x17DD); (0x180B, 0x180D); (0x180F, 0x180F); (0x1885, 0x1886);
  (0x18A9, 0x18A9); (0x1920, 0x1922); (0x1927, 0x1928); (0x1932, 0x1932); (0x1939, 0x193B);
  (0x1A17, 0x1A18); (0x1A1B, 0x1A1B); (0x1A56, 0x1A56); (0x1A58, 0x1A5E); (0x1A60, 0x1A60);
  (0x1A62, 0x1A62); (0x1A65, 0x1A6C); (0x1A73, 0x1A7C); (0x1A7F, 0x1A7F); (0x1AB0, 0x1ABD);
  (0x1ABF, 0x1ACE); (0x1B00, 0x1B03); (0x1B34, 0x1B34); (0x1B36, 0x1B3A); (0x1B3C, 0x1B3C);
  (0x1B42, 0x1B42); (0x1B6B, 0x1B73); (0x1B80, 0x1B81); (0x1BA2, 0x1BA5); (0x1BA8, 0x1BA9);
  (0x1BAB, 0x1BAD); (0x1BE6, 0x1BE6); (0x1BE8, 0x1BE9); (0x1BED, 0x1BED); (0x1BEF, 0x1BF1);
  (0x1C2C, 0x1C33); (0x1C36, 0x1C37); (0x1CD0, 0x1CD2); (0x1CD4, 0x1CE0); (0x1CE2, 0x1CE8);
  (0x1CED, 0x1CED); (0x1CF4, 0x1CF4); (0x1CF8, 0x1CF9); (0x1DC0, 0x1DFF); (0x20D0, 0x20DC);
  (0x20E1, 0x20E1); (0x20E5, 0x20F0); (0x2CEF, 0x2CF1); (0x2D7F, 0x2D7F); (0x2DE0, 0x2DFF);
  (0x302A, 0x302D); (0x3099, 0x309A); (0xA66F, 0xA66F); (0xA674, 0xA67D); (0xA69E, 0xA69F);
  (0xA6F0, 0xA6F1); (0xA802, 0xA802); (0xA806, 0xA806); (0xA80B, 0xA80B); (0xA825, 0xA826);
  (0xA82C, 0xA82C); (0xA8C4, 0xA8C5); (0xA8E0, 0xA8F1); (0xA8FF, 0xA8FF); (0xA926, 0xA92D);
  (0xA947, 0xA951); (0xA980, 0xA982); (0xA9B3, 0xA9B3); (0xA9B6, 0xA9B9); (0xA9BC, 0xA9BD);
  (0xA9E5, 0xA9E5); (0xAA29, 0xAA2E); (0xAA31, 0xAA32); (0xAA35, 0xAA36); (0xAA43, 0xAA43);
  (0xAA4C, 0xAA4C); (0xAA7C, 0xAA7C); (0xAAB0, 0xAAB0); (0xAAB2, 0xAAB4); (0xAAB7, 0xAAB8);
  (0xAABE, 0xAABF); (0xAAC1, 0xAAC1); (0xAAEC, 0xAAED); (0xAAF6, 0xAAF6); (0xABE5, 0xABE5);
  (0xABE8, 0xABE8); (0xABED, 0xABED); (0xFB1E, 0xFB1E); (0xFE00, 0xFE0F); (0xFE20, 0xFE2F);
  (0x101FD, 0x101FD); (0x102E0, 0x102E0); (0x10376, 0x1037A); (0x10A01, 0x10A03);
  (0x10A05, 0x10A06); (0x10A0C, 0x10A0F); (0x10A38, 0x10A3A); (0x10A3F, 0x10A3F);
  (0x10AE5, 0x10AE6); (0x10D24, 0x10D27); (0x10EAB, 0x10EAC); (0x10F46, 0x10F50);
  (0x10F82, 0x10F85); (0x11001, 0x11001); (0x11038, 0x11046); (0x11070, 0x11070);
  (0x11073, 0x11074); (0x1107F, 0x11081); (0x110B3, 0x110B6); (0x110B9, 0x110BA);
  (0x110C2, 0x110C2); (0x11100, 0x11102); (0x11127, 0x1112B); (0x1112D, 0x11134);
  (0x11173, 0x11173); (0x11180, 0x11181); (0x111B6, 0x111BE); (0x111C9, 0x111CC);
  (0x111CF, 0x111CF); (0x1122F, 0x11231); (0x11234, 0x11234); (0x11236, 0x11237);
  (0x1123E, 0x1123E); (0x112DF, 0x112DF); (0x112E3, 0x112EA); (0x11300, 0x11301);
  (0x1133B, 0x1133C); (0x11340, 0x11340); (0x11366, 0x1136C); (0x11370, 0x11374);
  (0x11438, 0x1143F); (0x11442, 0x11444); (0x11446, 0x11446); (0x1145E, 0x1145E);
  (0x114B3, 0x114B8); (0x114BA, 0x114BA); (0x114BF, 0x114C0); (0x114C2, 0x114C3);
  (0x115B2, 0x115B5); (0x115BC, 0x115BD); (0x115BF, 0x115C0); (0x115DC, 0x115DD);
  (0x11633, 0x1163A); (0x1163D, 0x1163D); (0x1163F, 0x11640); (0x116AB, 0x116AB);
  (0x116AD, 0x116AD); (0x116B0, 0x116B5); (0x116B7, 0x116B7); (0x1171D, 0x1171F);
  (0x11722, 0x11725); (0x11727, 0x1172B); (0x1182F, 0x11837); (0x11839, 0x1183A);
  (0x1193B, 0x1193C); (0x1193E, 0x1193E); (0x11943, 0x11943); (0x119D4, 0x119D7);
  (0x119DA, 0x119DB); (0x119E0, 0x119E0); (0x11A01, 0x11A0A); (0x11A33, 0x11A38);
  (0x11A3B, 0x11A3E); (0x11A47, 0x11A47); (0x11A51, 0x11A56); (0x11A59, 0x11A5B);
  (0x11A8A, 0x11A96); (0x11A98, 0x11A99); (0x11C30, 0x11C36); (0x11C38, 0x11C3D);
  (0x11C3F, 0x11C3F); (0x11C92, 0x11CA7); (0x11CAA, 0x11CB0); (0x11CB2, 0x11CB3);
  (0x11CB5, 0x11CB6); (0x11D31, 0x11D36); (0x11D3A, 0x11D3A); (0x11D3C, 0x11D3D);
  (0x11D3F, 0x11D45); (0x11D47, 0x11D47); (0x11D90, 0x11D91); (0x11D95, 0x11D95);
  (0x11D97, 0x11D97); (0x11EF3, 0x11EF4); (0x16AF0, 0x16AF4); (0x16B30, 0x16B36);
  (0x16F4F, 0x16F4F); (0x16F8F, 0x16F92); (0x16FE4, 0x16FE4); (0x1BC9D, 0x1BC9E);
  (0x1CF00, 0x1CF2D); (0x1CF30, 0x1CF46); (0x1D167, 0x1D169); (0x1D17B, 0x1D182);
  (0x1D185, 0x1D18B); (0x1D1AA, 0x1D1AD); (0x1D242, 0x1D244); (0x1DA00, 0x1DA36);
  (0x1DA3B, 0x1DA6C); (0x1DA75, 0x1DA75); (0x1DA84, 0x1DA84); (0x1DA9B, 0x1DA9F);
  (0x1DAA1, 0x1DAAF); (0x1E000, 0x1E006); (0x1E008, 0x1E018); (0x1E01B, 0x1E021);
  (0x1E023, 0x1E024); (0x1E026, 0x1E02A); (0x1E130, 0x1E136); (0x1E2AE, 0x1E2AE);
  (0x1E2EC, 0x1E2EF); (0x1E8D0, 0x1E8D6); (0x1E944, 0x1E94A); (0xE0100, 0xE01EF)
].

(** Canonical_Combining_Class: ranges [(first, last, class)] of the code points
    whose class is not 0. *)
Definition ccc_ranges : list (N * N * N) := [
  (0x300, 0x314, 230); (0x315, 0x315, 232); (0x316, 0x319, 220); (0x31A, 0x31A, 232);
  (0x31B, 0x31B, 216); (0x31C, 0x320, 220); (0x321, 0x322, 202); (0x323, 0x326, 220);
  (0x327, 0x328, 202); (0x329, 0x333, 220); (0x334, 0x338, 1); (0x339, 0x33C, 220);
  (0x33D, 0x344, 230); (0x345, 0x345, 240); (0x346, 0x346, 230); (0x347, 0x349, 220);
  (0x34A, 0x34C, 230); (0x34D, 0x34E, 220); (0x350, 0x352, 230); (0x353, 0x356, 220);
  (0x357, 0x357, 230); (0x358, 0x358, 232); (0x359, 0x35A, 220); (0x35B, 0x35B, 230);
  (0x35C, 0x35C, 233); (0x35D, 0x35E, 234); (0x35F, 0x35F, 233); (0x360, 0x361, 234);
  (0x362, 0x362, 233); (0x363, 0x36F, 230); (0x483, 0x487, 230); (0x591, 0x591, 220);
  (0x592, 0x595, 230); (0x596, 0x596, 220); (0x597, 0x599, 230); (0x59A, 0x59A, 222);
  (0x59B, 0x59B, 220); (0x59C, 0x5A1, 230); (0x5A2, 0x5A7, 220); (0x5A8, 0x5A9, 230);
  (0x5AA, 0x5AA, 220); (0x5AB, 0x5AC, 230); (0x5AD, 0x5AD, 222); (0x5AE, 0x5AE, 228);
  (0x5AF, 0x5AF, 230); (0x5B0, 0x5B0, 10); (0x5B1, 0x5B1, 11); (0x5B2, 0x5B2, 12);
  (0x5B3, 0x5B3, 13); (0x5B4, 0x5B4, 14); (0x5B5, 0x5B5, 15); (0x5B6, 0x5B6, 16);
  (0x5B7, 0x5B7, 17); (0x5B8, 0x5B8, 18); (0x5B9, 0x5BA, 19); (0x5BB, 0x5BB, 20);
  (0x5BC, 0x5BC, 21); (0x5BD, 0x5BD, 22); (0x5BF, 0x5BF, 23); (0x5C1, 0x5C1, 24);
  (0x5C2, 0x5C2, 25); (0x5C4, 0x5C4, 230); (0x5C5, 0x5C5, 220); (0x5C7, 0x5C7, 18);
  (0x610, 0x617, 230); (0x618, 0x618, 30); (0x619, 0x619, 31); (0x61A, 0x61A, 32);
  (0x64B, 0x64B, 27); (0x64C, 0x64C, 28); (0x64D, 0x64D, 29); (0x64E, 0x64E, 30);
  (0x64F, 0x64F, 31); (0x650, 0x650, 32); (0x651, 0x651, 33); (0x652, 0x652, 34);
  (0x653, 0x654, 230); (0x655, 0x656, 220); (0x657, 0x65B, 230); (0x65C, 0x65C, 220);
  (0x65D, 0x65E, 230); (0x65F, 0x65F, 220); (0x670, 0x670, 35); (0x6D6, 0x6DC, 230);
  (0x6DF, 0x6E2, 230); (0x6E3, 0x6E3, 220); (0x6E4, 0x6E4, 230); (0x6E7, 0x6E8, 230);
  (0x6EA, 0x6EA, 220); (0x6EB, 0x6EC, 230); (0x6ED, 0x6ED, 220); (0x711, 0x711, 36);
  (0x730, 0x730, 230); (0x731, 0x731, 220); (0x732, 0x733, 230); (0x734, 0x734, 220);
  (0x735, 0x736, 230); (0x737, 0x739, 220); (0x73A, 0x73A, 230); (0x73B, 0x73C, 220);
  (0x73D, 0x73D, 230); (0x73E, 0x73E, 220); (0x73F, 0x741, 230); (0x742, 0x742, 220);
  (0x743, 0x743, 230); (0x744, 0x744, 220); (0x745, 0x745, 230); (0x746, 0x746, 220);
  (0x747, 0x747, 230); (0x748, 0x748, 220); (0x749, 0x74A, 230); (0x7EB, 0x7F1, 230);
  (0x7F2, 0x7F2, 220); (0x7F3, 0x7F3, 230); (0x7FD, 0x7FD, 220); (0x816, 0x819, 230);
  (0x81B, 0x823, 230); (0x825, 0x827, 230); (0x829, 0x82D, 230); (0x859, 0x85B, 220);
  (0x898, 0x898, 230); (0x899, 0x89B, 220); (0x89C, 0x89F, 230); (0x8CA, 0x8CE, 230);
  (0x8CF, 0x8D3, 220); (0x8D4, 0x8E1, 230); (0x8E3, 0x8E3, 220); (0x8E4, 0x8E5, 230);
  (0x8E6, 0x8E6, 220); (0x8E7, 0x8E8, 230); (0x8E9, 0x8E9, 220); (0x8EA, 0x8EC, 230);
  (0x8ED, 0x8EF, 220); (0x8F0, 0x8F0, 27); (0x8F1, 0x8F1, 28); (0x8F2, 0x8F2, 29);
  (0x8F3, 0x8F5, 230); (0x8F6, 0x8F6, 220); (0x8F7, 0x8F8, 230); (0x8F9, 0x8FA, 220);
  (0x8FB, 0x8FF, 230); (0x93C, 0x93C, 7); (0x94D, 0x94D, 9); (0x951, 0x951, 230);
  (0x952, 0x952, 220); (0x953, 0x954, 230); (0x9BC, 0x9BC, 7); (0x9CD, 0x9CD, 9);
  (0x9FE, 0x9FE, 230); (0xA3C, 0xA3C, 7); (0xA4D, 0xA4D, 9); (0xABC, 0xABC, 7);
  (0xACD, 0xACD, 9); (0xB3C, 0xB3C, 7); (0xB4D, 0xB4D, 9); (0xBCD, 0xBCD, 9); (0xC3C, 0xC3C, 7);
  (0xC4D, 0xC4D, 9); (0xC55, 0xC55, 84); (0xC56, 0xC56, 91); (0xCBC, 0xCBC, 7);
  (0xCCD, 0xCCD, 9); (0xD3B, 0xD3C, 9); (0xD4D, 0xD4D, 9); (0xDCA, 0xDCA, 9);
  (0xE38, 0xE39, 103); (0xE3A, 0xE3A, 9); (0xE48, 0xE4B, 107); (0xEB8, 0xEB9, 118);
  (0xEBA, 0xEBA, 9); (0xEC8, 0xECB, 122); (0xF18, 0xF19, 220); (0xF35, 0xF35, 220);
  (0xF37, 0xF37, 220); (0xF39, 0xF39, 216); (0xF71, 0xF71, 129); (0xF72, 0xF72, 130);
  (0xF74, 0xF74, 132); (0xF7A, 0xF7D, 130); (0xF80, 0xF80, 130); (0xF82, 0xF83, 230);
  (0xF84, 0xF84, 9); (0xF86, 0xF87, 230); (0xFC6, 0xFC6, 220); (0x1037, 0x1037, 7);
  (0x1039, 0x103A, 9); (0x108D, 0x108D, 220); (0x135D, 0x135F, 230); (0x1714, 0x1715, 9);
  (0x1734, 0x1734, 9); (0x17D2, 0x17D2, 9); (0x17DD, 0x17DD, 230); (0x18A9, 0x18A9, 228);
  (0x1939, 0x1939, 222); (0x193A, 0x193A, 230); (0x193B, 0x193B, 220); (0x1A17, 0x1A17, 230);
  (0x1A18, 0x1A18, 220); (0x1A60, 0x1A60, 9); (0x1A75, 0x1A7C, 230); (0x1A7F, 0x1A7F, 220);
  (0x1AB0, 0x1AB4, 230); (0x1AB5, 0x1ABA, 220); (0x1ABB, 0x1ABC, 230); (0x1ABD, 0x1ABD, 220);
  (0x1ABF, 0x1AC0, 220); (0x1AC1, 0x1AC2, 230); (0x1AC3, 0x1AC4, 220); (0x1AC5, 0x1AC9, 230);
  (0x1ACA, 0x1ACA, 220); (0x1ACB, 0x1ACE, 230); (0x1B34, 0x1B34, 7); (0x1B44, 0x1B44, 9);
  (0x1B6B, 0x1B6B, 230); (0x1B6C, 0x1B6C, 220); (0x1B6D, 0x1B73, 230); (0x1BAA, 0x1BAB, 9);
  (0x1BE6, 0x1BE6, 7); (0x1BF2, 0x1BF3, 9); (0x1C37, 0x1C37, 7); (0x1CD0, 0x1CD2, 230);
  (0x1CD4, 0x1CD4, 1); (0x1CD5, 0x1CD9, 220); (0x1CDA, 0x1CDB, 230); (0x1CDC, 0x1CDF, 220);
  (0x1CE0, 0x1CE0, 230); (0x1CE2, 0x1CE8, 1); (0x1CED, 0x1CED, 220); (0x1CF4, 0x1CF4, 230);
  (0x1CF8, 0x1CF9, 230); (0x1DC0, 0x1DC1, 230); (0x1DC2, 0x1DC2, 220); (0x1DC3, 0x1DC9, 230);
  (0x1DCA, 0x1DCA, 220); (0x1DCB, 0x1DCC, 230); (0x1DCD, 0x1DCD, 234); (0x1DCE, 0x1DCE, 214);
  (0x1DCF, 0x1DCF, 220); (0x1DD0, 0x1DD0, 202); (0x1DD1, 0x1DF5, 230); (0x1DF6, 0x1DF6, 232);
  (0x1DF7, 0x1DF8, 228); (0x1DF9, 0x1DF9, 220); (0x1DFA, 0x1DFA, 218); (0x1DFB, 0x1DFB, 230);
  (0x1DFC, 0x1DFC, 233); (0x1DFD, 0x1DFD, 220); (0x1DFE, 0x1DFE, 230); (0x1DFF, 0x1DFF, 220);
  (0x20D0, 0x20D1, 230); (0x20D2, 0x20D3, 1); (0x20D4, 0x20D7, 230); (0x20D8, 0x20DA, 1);
  (0x20DB, 0x20DC, 230); (0x20E1, 0x20E1, 230); (0x20E5, 0x20E6, 1); (0x20E7, 0x20E7, 230);
  (0x20E8, 0x20E8, 220); (0x20E9, 0x20E9, 230); (0x20EA, 0x20EB, 1); (0x20EC, 0x20EF, 220);
  (0x20F0, 0x20F0, 230); (0x2CEF, 0x2CF1, 230); (0x2D7F, 0x2D7F, 9); (0x2DE0, 0x2DFF, 230);
  (0x302A, 0x302A, 218); (0x302B, 0x302B, 228); (0x302C, 0x302C, 232); (0x302D, 0x302D, 222);
  (0x302E, 0x302F, 224); (0x3099, 0x309A, 8); (0xA66F, 0xA66F, 230); (0xA674, 0xA67D, 230);
  (0xA69E, 0xA69F, 230); (0xA6F0, 0xA6F1, 230); (0xA806, 0xA806, 9); (0xA82C, 0xA82C, 9);
  (0xA8C4, 0xA8C4, 9); (0xA8E0, 0xA8F1, 230); (0xA92B, 0xA92D, 220); (0xA953, 0xA953, 9);
  (0xA9B3, 0xA9B3, 7); (0xA9C0, 0xA9C0, 9); (0xAAB0, 0xAAB0, 230); (0xAAB2, 0xAAB3, 230);
  (0xAAB4, 0xAAB4, 220); (0xAAB7, 0xAAB8, 230); (0xAABE, 0xAABF, 230); (0xAAC1, 0xAAC1, 230);
  (0xAAF6, 0xAAF6, 9); (0xABED, 0xABED, 9); (0xFB1E, 0xFB1E, 26); (0xFE20, 0xFE26, 230);
  (0xFE27, 0xFE2D, 220); (0xFE2E, 0xFE2F, 230); (0x101FD, 0x101FD, 220); (0x102E0, 0x102E0, 220);
  (0x10376, 0x1037A, 230); (0x10A0D, 0x10A0D, 220); (0x10A0F, 0x10A0F, 230);
  (0x10A38, 0x10A38, 230); (0x10A39, 0x10A39, 1); (0x10A3A, 0x10A3A, 220); (0x10A3F, 0x10A3F, 9);
  (0x10AE5, 0x10AE5, 230); (0x10AE6, 0x10AE6, 220); (0x10D24, 0x10D27, 230);
  (0x10EAB, 0x10EAC, 230); (0x10F46, 0x10F47, 220); (0x10F48, 0x10F4A, 230);
  (0x10F4B, 0x10F4B, 220); (0x10F4C, 0x10F4C, 230); (0x10F4D, 0x10F50, 220);
  (0x10F82, 0x10F82, 230); (0x10F83, 0x10F83, 220); (0x10F84, 0x10F84, 230);
  (0x10F85, 0x10F85, 220); (0x11046, 0x11046, 9); (0x11070, 0x11070, 9); (0x1107F, 0x1107F, 9);
  (0x110B9, 0x110B9, 9); (0x110BA, 0x110BA, 7); (0x11100, 0x11102, 230); (0x11133, 0x11134, 9);
  (0x11173, 0x11173, 7); (0x111C0, 0x111C0, 9); (0x111CA, 0x111CA, 7); (0x11235, 0x11235, 9);
  (0x11236, 0x11236, 7); (0x112E9, 0x112E9, 7); (0x112EA, 0x112EA, 9); (0x1133B, 0x1133C, 7);
  (0x1134D, 0x1134D, 9); (0x11366, 0x1136C, 230); (0x11370, 0x11374, 230); (0x11442, 0x11442, 9);
  (0x11446, 0x11446, 7); (0x1145E, 0x1145E, 230); (0x114C2, 0x114C2, 9); (0x114C3, 0x114C3, 7);
  (0x115BF, 0x115BF, 9); (0x115C0, 0x115C0, 7); (0x1163F, 0x1163F, 9); (0x116B6, 0x116B6, 9);
  (0x116B7, 0x116B7, 7); (0x1172B, 0x1172B, 9); (0x11839, 0x11839, 9); (0x1183A, 0x1183A, 7);
  (0x1193D, 0x1193E, 9); (0x11943, 0x11943, 7); (0x119E0, 0x119E0, 9); (0x11A34, 0x11A34, 9);
  (0x11A47, 0x11A47, 9); (0x11A99, 0x11A99, 9); (0x11C3F, 0x11C3F, 9); (0x11D42, 0x11D42, 7);
  (0x11D44, 0x11D45, 9); (0x11D97, 0x11D97, 9); (0x16AF0, 0x16AF4, 1); (0x16B30, 0x16B36, 230);
  (0x16FF0, 0x16FF1, 6); (0x1BC9E, 0x1BC9E, 1); (0x1D165, 0x1D166, 216); (0x1D167, 0x1D169, 1);
  (0x1D16D, 0x1D16D, 226); (0x1D16E, 0x1D172, 216); (0x1D17B, 0x1D182, 220);
  (0x1D185, 0x1D189, 230); (0x1D18A, 0x1D18B, 220); (0x1D1AA, 0x1D1AD, 230);
  (0x1D242, 0x1D244, 230); (0x1E000, 0x1E006, 230); (0x1E008, 0x1E018, 230);
  (0x1E01B, 0x1E021, 230); (0x1E023, 0x1E024, 230); (0x1E026, 0x1E02A, 230);
  (0x1E130, 0x1E136, 230); (0x1E2AE, 0x1E2AE, 230); (0x1E2EC, 0x1E2EF, 230);
  (0x1E8D0, 0x1E8D6, 220); (0x1E944, 0x1E949, 230); (0x1E94A, 0x1E94A, 7)
].

(** Canonical decomposition mappings, fully expanded (a mapping whose target
    itself has a canonical mapping is replaced by the expansion).  Hangul
    syllables are decomposed arithmetically and have no row. *)
Definition decomposition_rows : list (N * list N) := [
  (0xC0, [0x41; 0x300]); (0xC1, [0x41; 0x301]); (0xC2, [0x41; 0x302]); (0xC3, [0x41; 0x303]);
  (0xC4, [0x41; 0x308]); (0xC5, [0x41; 0x30A]); (0xC7, [0x43; 0x327]); (0xC8, [0x45; 0x300]);
  (0xC9, [0x45; 0x301]); (0xCA, [0x45; 0x302]); (0xCB, [0x45; 0x308]); (0xCC, [0x49; 0x300]);
  (0xCD, [0x49; 0x301]); (0xCE, [0x49; 0x302]); (0xCF, [0x49; 0x308]); (0xD1, [0x4E; 0x303]);
  (0xD2, [0x4F; 0x300]); (0xD3, [0x4F; 0x301]); (0xD4, [0x4F; 0x302]); (0xD5, [0x4F; 0x303]);
  (0xD6, [0x4F; 0x308]); (0xD9, [0x55; 0x300]); (0xDA, [0x55; 0x301]); (0xDB, [0x55; 0x302]);
  (0xDC, [0x55; 0x308]); (0xDD, [0x59; 0x301]); (0xE0, [0x61; 0x300]); (0xE1, [0x61; 0x301]);
  (0xE2, [0x61; 0x302]); (0xE3, [0x61; 0x303]); (0xE4, [0x61; 0x308]); (0xE5, [0x61; 0x30A]);
  (0xE7, [0x63; 0x327]); (0xE8, [0x65; 0x300]); (0xE9, [0x65; 0x301]); (0xEA, [0x65; 0x302]);
  (0xEB, [0x65; 0x308]); (0xEC, [0x69; 0x300]); (0xED, [0x69; 0x301]); (0xEE, [0x69; 0x302]);
  (0xEF, [0x69; 0x308]); (0xF1, [0x6E; 0x303]); (0xF2, [0x6F; 0x300]); (0xF3, [0x6F; 0x301]);
  (0xF4, [0x6F; 0x302]); (0xF5, [0x6F; 0x303]); (0xF6, [0x6F; 0x308]); (0xF9, [0x75; 0x300]);
  (0xFA, [0x75; 0x301]); (0xFB, [0x75; 0x302]); (0xFC, [0x75; 0x308]); (0xFD, [0x79; 0x301]);
  (0xFF, [0x79; 0x308]); (0x100, [0x41; 0x304]); (0x101, [0x61; 0x304]); (0x102, [0x41; 0x306]);
  (0x103, [0x61; 0x306]); (0x104, [0x41; 0x328]); (0x105, [0x61; 0x328]); (0x106, [0x43; 0x301]);
  (0x107, [0x63; 0x301]); (0x108, [0x43; 0x302]); (0x109, [0x63; 0x302]); (0x10A, [0x43; 0x307]);
  (0x10B, [0x63; 0x307]); (0x10C, [0x43; 0x30C]); (0x10D, [0x63; 0x30C]); (0x10E, [0x44; 0x30C]);
  (0x10F, [0x64; 0x30C]); (0x112, [0x45; 0x304]); (0x113, [0x65; 0x304]); (0x114, [0x45; 0x306]);
  (0x115, [0x65; 0x306]); (0x116, [0x45; 0x307]); (0x117, [0x65; 0x307]); (0x118, [0x45; 0x328]);
  (0x119, [0x65; 0x328]); (0x11A, [0x45; 0x30C]); (0x11B, [0x65; 0x30C]); (0x11C, [0x47; 0x302]);
  (0x11D, [0x67; 0x302]); (0x11E, [0x47; 0x306]); (0x11F, [0x67; 0x306]); (0x120, [0x47; 0x307]);
  (0x121, [0x67; 0x307]); (0x122, [0x47; 0x327]); (0x123, [0x67; 0x327]); (0x124, [0x48; 0x302]);
  (0x125, [0x68; 0x302]); (0x128, [0x49; 0x303]); (0x129, [0x69; 0x303]); (0x12A, [0x49; 0x304]);
  (0x12B, [0x69; 0x304]); (0x12C, [0x49; 0x306]); (0x12D, [0x69; 0x306]); (0x12E, [0x49; 0x328]);
  (0x12F, [0x69; 0x328]); (0x130, [0x49; 0x307]); (0x134, [0x4A; 0x302]); (0x135, [0x6A; 0x302]);
  (0x136, [0x4B; 0x327]); (0x137, [0x6B; 0x327]); (0x139, [0x4C; 0x301]); (0x13A, [0x6C; 0x301]);
  (0x13B, [0x4C; 0x327]); (0x13C, [0x6C; 0x327]); (0x13D, [0x4C; 0x30C]); (0x13E, [0x6C; 0x30C]);
  (0x143, [0x4E; 0x301]); (0x144, [0x6E; 0x301]); (0x145, [0x4E; 0x327]); (0x146, [0x6E; 0x327]);
  (0x147, [0x4E; 0x30C]); (0x148, [0x6E; 0x30C]); (0x14C, [0x4F; 0x304]); (0x14D, [0x6F; 0x304]);
  (0x14E, [0x4F; 0x306]); (0x14F, [0x6F; 0x306]); (0x150, [0x4F; 0x30B]); (0x151, [0x6F; 0x30B]);
  (0x154, [0x52; 0x301]); (0x155, [0x72; 0x301]); (0x156, [0x52; 0x327]); (0x157, [0x72; 0x327]);
  (0x158, [0x52; 0x30C]); (0x159, [0x72; 0x30C]); (0x15A, [0x53; 0x301]); (0x15B, [0x73; 0x301]);
  (0x15C, [0x53; 0x302]); (0x15D, [0x73; 0x302]); (0x15E, [0x53; 0x327]); (0x15F, [0x73; 0x327]);
  (0x160, [0x53; 0x30C]); (0x161, [0x73; 0x30C]); (0x162, [0x54; 0x327]); (0x163, [0x74; 0x327]);
  (0x164, [0x54; 0x30C]); (0x165, [0x74; 0x30C]); (0x168, [0x55; 0x303]); (0x169, [0x75; 0x303]);
  (0x16A, [0x55; 0x304]); (0x16B, [0x75; 0x304]); (0x16C, [0x55; 0x306]); (0x16D, [0x75; 0x306]);
  (0x16E, [0x55; 0x30A]); (0x16F, [0x75; 0x30A]); (0x170, [0x55; 0x30B]); (0x171, [0x75; 0x30B]);
  (0x172, [0x55; 0x328]); (0x173, [0x75; 0x328]); (0x174, [0x57; 0x302]); (0x175, [0x77; 0x302]);
  (0x176, [0x59; 0x302]); (0x177, [0x79; 0x302]); (0x178, [0x59; 0x308]); (0x179, [0x5A; 0x301]);
  (0x17A, [0x7A; 0x301]); (0x17B, [0x5A; 0x307]); (0x17C, [0x7A; 0x307]); (0x17D, [0x5A; 0x30C]);
  (0x17E, [0x7A; 0x30C]); (0x1A0, [0x4F; 0x31B]); (0x1A1, [0x6F; 0x31B]); (0x1AF, [0x55; 0x31B]);
  (0x1B0, [0x75; 0x31B]); (0x1CD, [0x41; 0x30C]); (0x1CE, [0x61; 0x30C]); (0x1CF, [0x49; 0x30C]);
  (0x1D0, [0x69; 0x30C]); (0x1D1, [0x4F; 0x30C]); (0x1D2, [0x6F; 0x30C]); (0x1D3, [0x55; 0x30C]);
  (0x1D4, [0x75; 0x30C]); (0x1D5, [0x55; 0x308; 0x304]); (0x1D6, [0x75; 0x308; 0x304]);
  (0x1D7, [0x55; 0x308; 0x301]); (0x1D8, [0x75; 0x308; 0x301]); (0x1D9, [0x55; 0x308; 0x30C]);
  (0x1DA, [0x75; 0x308; 0x30C]); (0x1DB, [0x55; 0x308; 0x300]); (0x1DC, [0x75; 0x308; 0x300]);
  (0x1DE, [0x41; 0x308; 0x304]); (0x1DF, [0x61; 0x308; 0x304]); (0x1E0, [0x41; 0x307; 0x304]);
  (0x1E1, [0x61; 0x307; 0x304]); (0x1E2, [0xC6; 0x304]); (0x1E3, [0xE6; 0x304]);
  (0x1E6, [0x47; 0x30C]); (0x1E7, [0x67; 0x30C]); (0x1E8, [0x4B; 0x30C]); (0x1E9, [0x6B; 0x30C]);
  (0x1EA, [0x4F; 0x328]); (0x1EB, [0x6F; 0x328]); (0x1EC, [0x4F; 0x328; 0x304]);
  (0x1ED, [0x6F; 0x328; 0x304]); (0x1EE, [0x1B7; 0x30C]); (0x1EF, [0x292; 0x30C]);
  (0x1F0, [0x6A; 0x30C]); (0x1F4, [0x47; 0x301]); (0x1F5, [0x67; 0x301]); (0x1F8, [0x4E; 0x300]);
  (0x1F9, [0x6E; 0x300]); (0x1FA, [0x41; 0x30A; 0x301]); (0x1FB, [0x61; 0x30A; 0x301]);
  (0x1FC, [0xC6; 0x301]); (0x1FD, [0xE6; 0x301]); (0x1FE, [0xD8; 0x301]); (0x1FF, [0xF8; 0x301]);
  (0x200, [0x41; 0x30F]); (0x201, [0x61; 0x30F]); (0x202, [0x41; 0x311]); (0x203, [0x61; 0x311]);
  (0x204, [0x45; 0x30F]); (0x205, [0x65; 0x30F]); (0x206, [0x45; 0x311]); (0x207, [0x65; 0x311]);
  (0x208, [0x49; 0x30F]); (0x209, [0x69; 0x30F]); (0x20A, [0x49; 0x311]); (0x20B, [0x69; 0x311]);
  (0x20C, [0x4F; 0x30F]); (0x20D, [0x6F; 0x30F]); (0x20E, [0x4F; 0x311]); (0x20F, [0x6F; 0x311]);
  (0x210, [0x52; 0x30F]); (0x211, [0x72; 0x30F]); (0x212, [0x52; 0x311]); (0x213, [0x72; 0x311]);
  (0x214, [0x55; 0x30F]); (0x215, [0x75; 0x30F]); (0x216, [0x55; 0x311]); (0x217, [0x75; 0x311]);
  (0x218, [0x53; 0x326]); (0x219, [0x73; 0x326]); (0x21A, [0x54; 0x326]); (0x21B, [0x74; 0x326]);
  (0x21E, [0x48; 0x30C]); (0x21F, [0x68; 0x30C]); (0x226, [0x41; 0x307]); (0x227, [0x61; 0x307]);
  (0x228, [0x45; 0x327]); (0x229, [0x65; 0x327]); (0x22A, [0x4F; 0x308; 0x304]);
  (0x22B, [0x6F; 0x308; 0x304]); (0x22C, [0x4F; 0x303; 0x304]); (0x22D, [0x6F; 0x303; 0x304]);
  (0x22E, [0x4F; 0x307]); (0x22F, [0x6F; 0x307]); (0x230, [0x4F; 0x307; 0x304]);
  (0x231, [0x6F; 0x307; 0x304]); (0x232, [0x59; 0x304]); (0x233, [0x79; 0x304]);
  (0x340, [0x300]); (0x341, [0x301]); (0x343, [0x313]); (0x344, [0x308; 0x301]);
  (0x374, [0x2B9]); (0x37E, [0x3B]); (0x385, [0xA8; 0x301]); (0x386, [0x391; 0x301]);
  (0x387, [0xB7]); (0x388, [0x395; 0x301]); (0x389, [0x397; 0x301]); (0x38A, [0x399; 0x301]);
  (0x38C, [0x39F; 0x301]); (0x38E, [0x3A5; 0x301]); (0x38F, [0x3A9; 0x301]);
  (0x390, [0x3B9; 0x308; 0x301]); (0x3AA, [0x399; 0x308]); (0x3AB, [0x3A5; 0x308]);
  (0x3AC, [0x3B1; 0x301]); (0x3AD, [0x3B5; 0x301]); (0x3AE, [0x3B7; 0x301]);
  (0x3AF, [0x3B9; 0x301]); (0x3B0, [0x3C5; 0x308; 0x301]); (0x3CA, [0x3B9; 0x308]);
  (0x3CB, [0x3C5; 0x308]); (0x3CC, [0x3BF; 0x301]); (0x3CD, [0x3C5; 0x301]);
  (0x3CE, [0x3C9; 0x301]); (0x3D3, [0x3D2; 0x301]); (0x3D4, [0x3D2; 0x308]);
  (0x400, [0x415; 0x300]); (0x401, [0x415; 0x308]); (0x403, [0x413; 0x301]);
  (0x407, [0x406; 0x308]); (0x40C, [0x41A; 0x301]); (0x40D, [0x418; 0x300]);
  (0x40E, [0x423; 0x306]); (0x419, [0x418; 0x306]); (0x439, [0x438; 0x306]);
  (0x450, [0x435; 0x300]); (0x451, [0x435; 0x308]); (0x453, [0x433; 0x301]);
  (0x457, [0x456; 0x308]); (0x45C, [0x43A; 0x301]); (0x45D, [0x438; 0x300]);
  (0x45E, [0x443; 0x306]); (0x476, [0x474; 0x30F]); (0x477, [0x475; 0x30F]);
  (0x4C1, [0x416; 0x306]); (0x4C2, [0x436; 0x306]); (0x4D0, [0x410; 0x306]);
  (0x4D1, [0x430; 0x306]); (0x4D2, [0x410; 0x308]); (0x4D3, [0x430; 0x308]);
  (0x4D6, [0x415; 0x306]); (0x4D7, [0x435; 0x306]); (0x4DA, [0x4D8; 0x308]);
  (0x4DB, [0x4D9; 0x308]); (0x4DC, [0x416; 0x308]); (0x4DD, [0x436; 0x308]);
  (0x4DE, [0x417; 0x308]); (0x4DF, [0x437; 0x308]); (0x4E2, [0x418; 0x304]);
  (0x4E3, [0x438; 0x304]); (0x4E4, [0x418; 0x308]); (0x4E5, [0x438; 0x308]);
  (0x4E6, [0x41E; 0x308]); (0x4E7, [0x43E; 0x308]); (0x4EA, [0x4E8; 0x308]);
  (0x4EB, [0x4E9; 0x308]); (0x4EC, [0x42D; 0x308]); (0x4ED, [0x44D; 0x308]);
  (0x4EE, [0x423; 0x304]); (0x4EF, [0x443; 0x304]); (0x4F0, [0x423; 0x308]);
  (0x4F1, [0x443; 0x308]); (0x4F2, [0x423; 0x30B]); (0x4F3, [0x443; 0x30B]);
  (0x4F4, [0x427; 0x308]); (0x4F5, [0x447; 0x308]); (0x4F8, [0x42B; 0x308]);
  (0x4F9, [0x44B; 0x308]); (0x622, [0x627; 0x653]); (0x623, [0x627; 0x654]);
  (0x624, [0x648; 0x654]); (0x625, [0x627; 0x655]); (0x626, [0x64A; 0x654]);
  (0x6C0, [0x6D5; 0x654]); (0x6C2, [0x6C1; 0x654]); (0x6D3, [0x6D2; 0x654]);
  (0x929, [0x928; 0x93C]); (0x931, [0x930; 0x93C]); (0x934, [0x933; 0x93C]);
  (0x958, [0x915; 0x93C]); (0x959, [0x916; 0x93C]); (0x95A, [0x917; 0x93C]);
  (0x95B, [0x91C; 0x93C]); (0x95C, [0x921; 0x93C]); (0x95D, [0x922; 0x93C]);
  (0x95E, [0x92B; 0x93C]); (0x95F, [0x92F; 0x93C]); (0x9CB, [0x9C7; 0x9BE]);
  (0x9CC, [0x9C7; 0x9D7]); (0x9DC, [0x9A1; 0x9BC]); (0x9DD, [0x9A2; 0x9BC]);
  (0x9DF, [0x9AF; 0x9BC]); (0xA33, [0xA32; 0xA3C]); (0xA36, [0xA38; 0xA3C]);
  (0xA59, [0xA16; 0xA3C]); (0xA5A, [0xA17; 0xA3C]); (0xA5B, [0xA1C; 0xA3C]);
  (0xA5E, [0xA2B; 0xA3C]); (0xB48, [0xB47; 0xB56]); (0xB4B, [0xB47; 0xB3E]);
  (0xB4C, [0xB47; 0xB57]); (0xB5C, [0xB21; 0xB3C]); (0xB5D, [0xB22; 0xB3C]);
  (0xB94, [0xB92; 0xBD7]); (0xBCA, [0xBC6; 0xBBE]); (0xBCB, [0xBC7; 0xBBE]);
  (0xBCC, [0xBC6; 0xBD7]); (0xC48, [0xC46; 0xC56]); (0xCC0, [0xCBF; 0xCD5]);
  (0xCC7, [0xCC6; 0xCD5]); (0xCC8, [0xCC6; 0xCD6]); (0xCCA, [0xCC6; 0xCC2]);
  (0xCCB, [0xCC6; 0xCC2; 0xCD5]); (0xD4A, [0xD46; 0xD3E]); (0xD4B, [0xD47; 0xD3E]);
  (0xD4C, [0xD46; 0xD57]); (0xDDA, [0xDD9; 0xDCA]); (0xDDC, [0xDD9; 0xDCF]);
  (0xDDD, [0xDD9; 0xDCF; 0xDCA]); (0xDDE, [0xDD9; 0xDDF]); (0xF43, [0xF42; 0xFB7]);
  (0xF4D, [0xF4C; 0xFB7]); (0xF52, [0xF51; 0xFB7]); (0xF57, [0xF56; 0xFB7]);
  (0xF5C, [0xF5B; 0xFB7]); (0xF69, [0xF40; 0xFB5]); (0xF73, [0xF71; 0xF72]);
  (0xF75, [0xF71; 0xF74]); (0xF76, [0xFB2; 0xF80]); (0xF78, [0xFB3; 0xF80]);
  (0xF81, [0xF71; 0xF80]); (0xF93, [0xF92; 0xFB7]); (0xF9D, [0xF9C; 0xFB7]);
  (0xFA2, [0xFA1; 0xFB7]); (0xFA7, [0xFA6; 0xFB7]); (0xFAC, [0xFAB; 0xFB7]);
  (0xFB9, [0xF90; 0xFB5]); (0x1026, [0x1025; 0x102E]); (0x1B06, [0x1B05; 0x1B35]);
  (0x1B08, [0x1B07; 0x1B35]); (0x1B0A, [0x1B09; 0x1B35]); (0x1B0C, [0x1B0B; 0x1B35]);
  (0x1B0E, [0x1B0D; 0x1B35]); (0x1B12, [0x1B11; 0x1B35]); (0x1B3B, [0x1B3A; 0x1B35]);
  (0x1B3D, [0x1B3C; 0x1B35]); (0x1B40, [0x1B3E; 0x1B35]); (0x1B41, [0x1B3F; 0x1B35]);
  (0x1B43, [0x1B42; 0x1B35]); (0x1E00, [0x41; 0x325]); (0x1E01, [0x61; 0x325]);
  (0x1E02, [0x42; 0x307]); (0x1E03, [0x62; 0x307]); (0x1E04, [0x42; 0x323]);
  (0x1E05, [0x62; 0x323]); (0x1E06, [0x42; 0x331]); (0x1E07, [0x62; 0x331]);
  (0x1E08, [0x43; 0x327; 0x301]); (0x1E09, [0x63; 0x327; 0x301]); (0x1E0A, [0x44; 0x307]);
  (0x1E0B, [0x64; 0x307]); (0x1E0C, [0x44; 0x323]); (0x1E0D, [0x64; 0x323]);
  (0x1E0E, [0x44; 0x331]); (0x1E0F, [0x64; 0x331]); (0x1E10, [0x44; 0x327]);
  (0x1E11, [0x64; 0x327]); (0x1E12, [0x44; 0x32D]); (0x1E13, [0x64; 0x32D]);
  (0x1E14, [0x45; 0x304; 0x300]); (0x1E15, [0x65; 0x304; 0x300]); (0x1E16, [0x45; 0x304; 0x301]);
  (0x1E17, [0x65; 0x304; 0x301]); (0x1E18, [0x45; 0x32D]); (0x1E19, [0x65; 0x32D]);
  (0x1E1A, [0x45; 0x330]); (0x1E1B, [0x65; 0x330]); (0x1E1C, [0x45; 0x327; 0x306]);
  (0x1E1D, [0x65; 0x327; 0x306]); (0x1E1E, [0x46; 0x307]); (0x1E1F, [0x66; 0x307]);
  (0x1E20, [0x47; 0x304]); (0x1E21, [0x67; 0x304]); (0x1E22, [0x48; 0x307]);
  (0x1E23, [0x68; 0x307]); (0x1E24, [0x48; 0x323]); (0x1E25, [0x68; 0x323]);
  (0x1E26, [0x48; 0x308]); (0x1E27, [0x68; 0x308]); (0x1E28, [0x48; 0x327]);
  (0x1E29, [0x68; 0x327]); (0x1E2A, [0x48; 0x32E]); (0x1E2B, [0x68; 0x32E]);
  (0x1E2C, [0x49; 0x330]); (0x1E2D, [0x69; 0x330]); (0x1E2E, [0x49; 0x308; 0x301]);
  (0x1E2F, [0x69; 0x308; 0x301]); (0x1E30, [0x4B; 0x301]); (0x1E31, [0x6B; 0x301]);
  (0x1E32, [0x4B; 0x323]); (0x1E33, [0x6B; 0x323]); (0x1E34, [0x4B; 0x331]);
  (0x1E35, [0x6B; 0x331]); (0x1E36, [0x4C; 0x323]); (0x1E37, [0x6C; 0x323]);
  (0x1E38, [0x4C; 0x323; 0x304]); (0x1E39, [0x6C; 0x323; 0x304]); (0x1E3A, [0x4C; 0x331]);
  (0x1E3B, [0x6C; 0x331]); (0x1E3C, [0x4C; 0x32D]); (0x1E3D, [0x6C; 0x32D]);
  (0x1E3E, [0x4D; 0x301]); (0x1E3F, [0x6D; 0x301]); (0x1E40, [0x4D; 0x307]);
  (0x1E41, [0x6D; 0x307]); (0x1E42, [0x4D; 0x323]); (0x1E43, [0x6D; 0x323]);
  (0x1E44, [0x4E; 0x307]); (0x1E45, [0x6E; 0x307]); (0x1E46, [0x4E; 0x323]);
  (0x1E47, [0x6E; 0x323]); (0x1E48, [0x4E; 0x331]); (0x1E49, [0x6E; 0x331]);
  (0x1E4A, [0x4E; 0x32D]); (0x1E4B, [0x6E; 0x32D]); (0x1E4C, [0x4F; 0x303; 0x301]);
  (0x1E4D, [0x6F; 0x303; 0x301]); (0x1E4E, [0x4F; 0x303; 0x308]); (0x1E4F, [0x6F; 0x303; 0x308]);
  (0x1E50, [0x4F; 0x304; 0x300]); (0x1E51, [0x6F; 0x304; 0x300]); (0x1E52, [0x4F; 0x304; 0x301]);
  (0x1E53, [0x6F; 0x304; 0x301]); (0x1E54, [0x50; 0x301]); (0x1E55, [0x70; 0x301]);
  (0x1E56, [0x50; 0x307]); (0x1E57, [0x70; 0x307]); (0x1E58, [0x52; 0x307]);
  (0x1E59, [0x72; 0x307]); (0x1E5A, [0x52; 0x323]); (0x1E5B, [0x72; 0x323]);
  (0x1E5C, [0x52; 0x323; 0x304]); (0x1E5D, [0x72; 0x323; 0x304]); (0x1E5E, [0x52; 0x331]);
  (0x1E5F, [0x72; 0x331]); (0x1E60, [0x53; 0x307]); (0x1E61, [0x73; 0x307]);
  (0x1E62, [0x53; 0x323]); (0x1E63, [0x73; 0x323]); (0x1E64, [0x53; 0x301; 0x307]);
  (0x1E65, [0x73; 0x301; 0x307]); (0x1E66, [0x53; 0x30C; 0x307]); (0x1E67, [0x73; 0x30C; 0x307]);
  (0x1E68, [0x53; 0x323; 0x307]); (0x1E69, [0x73; 0x323; 0x307]); (0x1E6A, [0x54; 0x307]);
  (0x1E6B, [0x74; 0x307]); (0x1E6C, [0x54; 0x323]); (0x1E6D, [0x74; 0x323]);
  (0x1E6E, [0x54; 0x331]); (0x1E6F, [0x74; 0x331]); (0x1E70, [0x54; 0x32D]);
  (0x1E71, [0x74; 0x32D]); (0x1E72, [0x55; 0x324]); (0x1E73, [0x75; 0x324]);
  (0x1E74, [0x55; 0x330]); (0x1E75, [0x75; 0x330]); (0x1E76, [0x55; 0x32D]);
  (0x1E77, [0x75; 0x32D]); (0x1E78, [0x55; 0x303; 0x301]); (0x1E79, [0x75; 0x303; 0x301]);
  (0x1E7A, [0x55; 0x304; 0x308]); (0x1E7B, [0x75; 0x304; 0x308]); (0x1E7C, [0x56; 0x303]);
  (0x1E7D, [0x76; 0x303]); (0x1E7E, [0x56; 0x323]); (0x1E7F, [0x76; 0x323]);
  (0x1E80, [0x57; 0x300]); (0x1E81, [0x77; 0x300]); (0x1E82, [0x57; 0x301]);
  (0x1E83, [0x77; 0x301]); (0x1E84, [0x57; 0x308]); (0x1E85, [0x77; 0x308]);
  (0x1E86, [0x57; 0x307]); (0x1E87, [0x77; 0x307]); (0x1E88, [0x57; 0x323]);
  (0x1E89, [0x77; 0x323]); (0x1E8A, [0x58; 0x307]); (0x1E8B, [0x78; 0x307]);
  (0x1E8C, [0x58; 0x308]); (0x1E8D, [0x78; 0x308]); (0x1E8E, [0x59; 0x307]);
  (0x1E8F, [0x79; 0x307]); (0x1E90, [0x5A; 0x302]); (0x1E91, [0x7A; 0x302]);
  (0x1E92, [0x5A; 0x323]); (0x1E93, [0x7A; 0x323]); (0x1E94, [0x5A; 0x331]);
  (0x1E95, [0x7A; 0x331]); (0x1E96, [0x68; 0x331]); (0x1E97, [0x74; 0x308]);
  (0x1E98, [0x77; 0x30A]); (0x1E99, [0x79; 0x30A]); (0x1E9B, [0x17F; 0x307]);
  (0x1EA0, [0x41; 0x323]); (0x1EA1, [0x61; 0x323]); (0x1EA2, [0x41; 0x309]);
  (0x1EA3, [0x61; 0x309]); (0x1EA4, [0x41; 0x302; 0x301]); (0x1EA5, [0x61; 0x302; 0x301]);
  (0x1EA6, [0x41; 0x302; 0x300]); (0x1EA7, [0x61; 0x302; 0x300]); (0x1EA8, [0x41; 0x302; 0x309]);
  (0x1EA9, [0x61; 0x302; 0x309]); (0x1EAA, [0x41; 0x302; 0x303]); (0x1EAB, [0x61; 0x302; 0x303]);
  (0x1EAC, [0x41; 0x323; 0x302]); (0x1EAD, [0x61; 0x323; 0x302]); (0x1EAE, [0x41; 0x306; 0x301]);
  (0x1EAF, [0x61; 0x306; 0x301]); (0x1EB0, [0x41; 0x306; 0x300]); (0x1EB1, [0x61; 0x306; 0x300]);
  (0x1EB2, [0x41; 0x306; 0x309]); (0x1EB3, [0x61; 0x306; 0x309]); (0x1EB4, [0x41; 0x306; 0x303]);
  (0x1EB5, [0x61; 0x306; 0x303]); (0x1EB6, [0x41; 0x323; 0x306]); (0x1EB7, [0x61; 0x323; 0x306]);
  (0x1EB8, [0x45; 0x323]); (0x1EB9, [0x65; 0x323]); (0x1EBA, [0x45; 0x309]);
  (0x1EBB, [0x65; 0x309]); (0x1EBC, [0x45; 0x303]); (0x1EBD, [0x65; 0x303]);
  (0x1EBE, [0x45; 0x302; 0x301]); (0x1EBF, [0x65; 0x302; 0x301]); (0x1EC0, [0x45; 0x302; 0x300]);
  (0x1EC1, [0x65; 0x302; 0x300]); (0x1EC2, [0x45; 0x302; 0x309]); (0x1EC3, [0x65; 0x302; 0x309]);
  (0x1EC4, [0x45; 0x302; 0x303]); (0x1EC5, [0x65; 0x302; 0x303]); (0x1EC6, [0x45; 0x323; 0x302]);
  (0x1EC7, [0x65; 0x323; 0x302]); (0x1EC8, [0x49; 0x309]); (0x1EC9, [0x69; 0x309]);
  (0x1ECA, [0x49; 0x323]); (0x1ECB, [0x69; 0x323]); (0x1ECC, [0x4F; 0x323]);
  (0x1ECD, [0x6F; 0x323]); (0x1ECE, [0x4F; 0x309]); (0x1ECF, [0x6F; 0x309]);
  (0x1ED0, [0x4F; 0x302; 0x301]); (0x1ED1, [0x6F; 0x302; 0x301]); (0x1ED2, [0x4F; 0x302; 0x300]);
  (0x1ED3, [0x6F; 0x302; 0x300]); (0x1ED4, [0x4F; 0x302; 0x309]); (0x1ED5, [0x6F; 0x302; 0x309]);
  (0x1ED6, [0x4F; 0x302; 0x303]); (0x1ED7, [0x6F; 0x302; 0x303]); (0x1ED8, [0x4F; 0x323; 0x302]);
  (0x1ED9, [0x6F; 0x323; 0x302]); (0x1EDA, [0x4F; 0x31B; 0x301]); (0x1EDB, [0x6F; 0x31B; 0x301]);
  (0x1EDC, [0x4F; 0x31B; 0x300]); (0x1EDD, [0x6F; 0x31B; 0x300]); (0x1EDE, [0x4F; 0x31B; 0x309]);
  (0x1EDF, [0x6F; 0x31B; 0x309]); (0x1EE0, [0x4F; 0x31B; 0x303]); (0x1EE1, [0x6F; 0x31B; 0x303]);
  (0x1EE2, [0x4F; 0x31B; 0x323]); (0x1EE3, [0x6F; 0x31B; 0x323]); (0x1EE4, [0x55; 0x323]);
  (0x1EE5, [0x75; 0x323]); (0x1EE6, [0x55; 0x309]); (0x1EE7, [0x75; 0x309]);
  (0x1EE8, [0x55; 0x31B; 0x301]); (0x1EE9, [0x75; 0x31B; 0x301]); (0x1EEA, [0x55; 0x31B; 0x300]);
  (0x1EEB, [0x75; 0x31B; 0x300]); (0x1EEC, [0x55; 0x31B; 0x309]); (0x1EED, [0x75; 0x31B; 0x309]);
  (0x1EEE, [0x55; 0x31B; 0x303]); (0x1EEF, [0x75; 0x31B; 0x303]); (0x1EF0, [0x55; 0x31B; 0x323]);
  (0x1EF1, [0x75; 0x31B; 0x323]); (0x1EF2, [0x59; 0x300]); (0x1EF3, [0x79; 0x300]);
  (0x1EF4, [0x59; 0x323]); (0x1EF5, [0x79; 0x323]); (0x1EF6, [0x59; 0x309]);
  (0x1EF7, [0x79; 0x309]); (0x1EF8, [0x59; 0x303]); (0x1EF9, [0x79; 0x303]);
  (0x1F00, [0x3B1; 0x313]); (0x1F01, [0x3B1; 0x314]); (0x1F02, [0x3B1; 0x313; 0x300]);
  (0x1F03, [0x3B1; 0x314; 0x300]); (0x1F04, [0x3B1; 0x313; 0x301]);
  (0x1F05, [0x3B1; 0x314; 0x301]); (0x1F06, [0x3B1; 0x313; 0x342]);
  (0x1F07, [0x3B1; 0x314; 0x342]); (0x1F08, [0x391; 0x313]); (0x1F09, [0x391; 0x314]);
  (0x1F0A, [0x391; 0x313; 0x300]); (0x1F0B, [0x391; 0x314; 0x300]);
  (0x1F0C, [0x391; 0x313; 0x301]); (0x1F0D, [0x391; 0x314; 0x301]);
  (0x1F0E, [0x391; 0x313; 0x342]); (0x1F0F, [0x391; 0x314; 0x342]); (0x1F10, [0x3B5; 0x313]);
  (0x1F11, [0x3B5; 0x314]); (0x1F12, [0x3B5; 0x313; 0x300]); (0x1F13, [0x3B5; 0x314; 0x300]);
  (0x1F14, [0x3B5; 0x313; 0x301]); (0x1F15, [0x3B5; 0x314; 0x301]); (0x1F18, [0x395; 0x313]);
  (0x1F19, [0x395; 0x314]); (0x1F1A, [0x395; 0x313; 0x300]); (0x1F1B, [0x395; 0x314; 0x300]);
  (0x1F1C, [0x395; 0x313; 0x301]); (0x1F1D, [0x395; 0x314; 0x301]); (0x1F20, [0x3B7; 0x313]);
  (0x1F21, [0x3B7; 0x314]); (0x1F22, [0x3B7; 0x313; 0x300]); (0x1F23, [0x3B7; 0x314; 0x300]);
  (0x1F24, [0x3B7; 0x313; 0x301]); (0x1F25, [0x3B7; 0x314; 0x301]);
  (0x1F26, [0x3B7; 0x313; 0x342]); (0x1F27, [0x3B7; 0x314; 0x342]); (0x1F28, [0x397; 0x313]);
  (0x1F29, [0x397; 0x314]); (0x1F2A, [0x397; 0x313; 0x300]); (0x1F2B, [0x397; 0x314; 0x300]);
  (0x1F2C, [0x397; 0x313; 0x301]); (0x1F2D, [0x397; 0x314; 0x301]);
  (0x1F2E, [0x397; 0x313; 0x342]); (0x1F2F, [0x397; 0x314; 0x342]); (0x1F30, [0x3B9; 0x313]);
  (0x1F31, [0x3B9; 0x314]); (0x1F32, [0x3B9; 0x313; 0x300]); (0x1F33, [0x3B9; 0x314; 0x300]);
  (0x1F34, [0x3B9; 0x313; 0x301]); (0x1F35, [0x3B9; 0x314; 0x301]);
  (0x1F36, [0x3B9; 0x313; 0x342]); (0x1F37, [0x3B9; 0x314; 0x342]); (0x1F38, [0x399; 0x313]);
  (0x1F39, [0x399; 0x314]); (0x1F3A, [0x399; 0x313; 0x300]); (0x1F3B, [0x399; 0x314; 0x300]);
  (0x1F3C, [0x399; 0x313; 0x301]); (0x1F3D, [0x399; 0x314; 0x301]);
  (0x1F3E, [0x399; 0x313; 0x342]); (0x1F3F, [0x399; 0x314; 0x342]); (0x1F40, [0x3BF; 0x313]);
  (0x1F41, [0x3BF; 0x314]); (0x1F42, [0x3BF; 0x313; 0x300]); (0x1F43, [0x3BF; 0x314; 0x300]);
  (0x1F44, [0x3BF; 0x313; 0x301]); (0x1F45, [0x3BF; 0x314; 0x301]); (0x1F48, [0x39F; 0x313]);
  (0x1F49, [0x39F; 0x314]); (0x1F4A, [0x39F; 0x313; 0x300]); (0x1F4B, [0x39F; 0x314; 0x300]);
  (0x1F4C, [0x39F; 0x313; 0x301]); (0x1F4D, [0x39F; 0x314; 0x301]); (0x1F50, [0x3C5; 0x313]);
  (0x1F51, [0x3C5; 0x314]); (0x1F52, [0x3C5; 0x313; 0x300]); (0x1F53, [0x3C5; 0x314; 0x300]);
  (0x1F54, [0x3C5; 0x313; 0x301]); (0x1F55, [0x3C5; 0x314; 0x301]);
  (0x1F56, [0x3C5; 0x313; 0x342]); (0x1F57, [0x3C5; 0x314; 0x342]); (0x1F59, [0x3A5; 0x314]);
  (0x1F5B, [0x3A5; 0x314; 0x300]); (0x1F5D, [0x3A5; 0x314; 0x301]);
  (0x1F5F, [0x3A5; 0x314; 0x342]); (0x1F60, [0x3C9; 0x313]); (0x1F61, [0x3C9; 0x314]);
  (0x1F62, [0x3C9; 0x313; 0x300]); (0x1F63, [0x3C9; 0x314; 0x300]);
  (0x1F64, [0x3C9; 0x313; 0x301]); (0x1F65, [0x3C9; 0x314; 0x301]);
  (0x1F66, [0x3C9; 0x313; 0x342]); (0x1F67, [0x3C9; 0x314; 0x342]); (0x1F68, [0x3A9; 0x313]);
  (0x1F69, [0x3A9; 0x314]); (0x1F6A, [0x3A9; 0x313; 0x300]); (0x1F6B, [0x3A9; 0x314; 0x300]);
  (0x1F6C, [0x3A9; 0x313; 0x301]); (0x1F6D, [0x3A9; 0x314; 0x301]);
  (0x1F6E, [0x3A9; 0x313; 0x342]); (0x1F6F, [0x3A9; 0x314; 0x342]); (0x1F70, [0x3B1; 0x300]);
  (0x1F71, [0x3B1; 0x301]); (0x1F72, [0x3B5; 0x300]); (0x1F73, [0x3B5; 0x301]);
  (0x1F74, [0x3B7; 0x300]); (0x1F75, [0x3B7; 0x301]); (0x1F76, [0x3B9; 0x300]);
  (0x1F77, [0x3B9; 0x301]); (0x1F78, [0x3BF; 0x300]); (0x1F79, [0x3BF; 0x301]);
  (0x1F7A, [0x3C5; 0x300]); (0x1F7B, [0x3C5; 0x301]); (0x1F7C, [0x3C9; 0x300]);
  (0x1F7D, [0x3C9; 0x301]); (0x1F80, [0x3B1; 0x313; 0x345]); (0x1F81, [0x3B1; 0x314; 0x345]);
  (0x1F82, [0x3B1; 0x313; 0x300; 0x345]); (0x1F83, [0x3B1; 0x314; 0x300; 0x345]);
  (0x1F84, [0x3B1; 0x313; 0x301; 0x345]); (0x1F85, [0x3B1; 0x314; 0x301; 0x345]);
  (0x1F86, [0x3B1; 0x313; 0x342; 0x345]); (0x1F87, [0x3B1; 0x314; 0x342; 0x345]);
  (0x1F88, [0x391; 0x313; 0x345]); (0x1F89, [0x391; 0x314; 0x345]);
  (0x1F8A, [0x391; 0x313; 0x300; 0x345]); (0x1F8B, [0x391; 0x314; 0x300; 0x345]);
  (0x1F8C, [0x391; 0x313; 0x301; 0x345]); (0x1F8D, [0x391; 0x314; 0x301; 0x345]);
  (0x1F8E, [0x391; 0x313; 0x342; 0x345]); (0x1F8F, [0x391; 0x314; 0x342; 0x345]);
  (0x1F90, [0x3B7; 0x313; 0x345]); (0x1F91, [0x3B7; 0x314; 0x345]);
  (0x1F92, [0x3B7; 0x313; 0x300; 0x345]); (0x1F93, [0x3B7; 0x314; 0x300; 0x345]);
  (0x1F94, [0x3B7; 0x313; 0x301; 0x345]); (0x1F95, [0x3B7; 0x314; 0x301; 0x345]);
  (0x1F96, [0x3B7; 0x313; 0x342; 0x345]); (0x1F97, [0x3B7; 0x314; 0x342; 0x345]);
  (0x1F98, [0x397; 0x313; 0x345]); (0x1F99, [0x397; 0x314; 0x345]);
  (0x1F9A, [0x397; 0x313; 0x300; 0x345]); (0x1F9B, [0x397; 0x314; 0x300; 0x345]);
  (0x1F9C, [0x397; 0x313; 0x301; 0x345]); (0x1F9D, [0x397; 0x314; 0x301; 0x345]);
  (0x1F9E, [0x397; 0x313; 0x342; 0x345]); (0x1F9F, [0x397; 0x314; 0x342; 0x345]);
  (0x1FA0, [0x3C9; 0x313; 0x345]); (0x1FA1, [0x3C9; 0x314; 0x345]);
  (0x1FA2, [0x3C9; 0x313; 0x300; 0x345]); (0x1FA3, [0x3C9; 0x314; 0x300; 0x345]);
  (0x1FA4, [0x3C9; 0x313; 0x301; 0x345]); (0x1FA5, [0x3C9; 0x314; 0x301; 0x345]);
  (0x1FA6, [0x3C9; 0x313; 0x342; 0x345]); (0x1FA7, [0x3C9; 0x314; 0x342; 0x345]);
  (0x1FA8, [0x3A9; 0x313; 0x345]); (0x1FA9, [0x3A9; 0x314; 0x345]);
  (0x1FAA, [0x3A9; 0x313; 0x300; 0x345]); (0x1FAB, [0x3A9; 0x314; 0x300; 0x345]);
  (0x1FAC, [0x3A9; 0x313; 0x301; 0x345]); (0x1FAD, [0x3A9; 0x314; 0x301; 0x345]);
  (0x1FAE, [0x3A9; 0x313; 0x342; 0x345]); (0x1FAF, [0x3A9; 0x314; 0x342; 0x345]);
  (0x1FB0, [0x3B1; 0x306]); (0x1FB1, [0x3B1; 0x304]); (0x1FB2, [0x3B1; 0x300; 0x345]);
  (0x1FB3, [0x3B1; 0x345]); (0x1FB4, [0x3B1; 0x301; 0x345]); (0x1FB6, [0x3B1; 0x342]);
  (0x1FB7, [0x3B1; 0x342; 0x345]); (0x1FB8, [0x391; 0x306]); (0x1FB9, [0x391; 0x304]);
  (0x1FBA, [0x391; 0x300]); (0x1FBB, [0x391; 0x301]); (0x1FBC, [0x391; 0x345]);
  (0x1FBE, [0x3B9]); (0x1FC1, [0xA8; 0x342]); (0x1FC2, [0x3B7; 0x300; 0x345]);
  (0x1FC3, [0x3B7; 0x345]); (0x1FC4, [0x3B7; 0x301; 0x345]); (0x1FC6, [0x3B7; 0x342]);
  (0x1FC7, [0x3B7; 0x342; 0x345]); (0x1FC8, [0x395; 0x300]); (0x1FC9, [0x395; 0x301]);
  (0x1FCA, [0x397; 0x300]); (0x1FCB, [0x397; 0x301]); (0x1FCC, [0x397; 0x345]);
  (0x1FCD, [0x1FBF; 0x300]); (0x1FCE, [0x1FBF; 0x301]); (0x1FCF, [0x1FBF; 0x342]);
  (0x1FD0, [0x3B9; 0x306]); (0x1FD1, [0x3B9; 0x304]); (0x1FD2, [0x3B9; 0x308; 0x300]);
  (0x1FD3, [0x3B9; 0x308; 0x301]); (0x1FD6, [0x3B9; 0x342]); (0x1FD7, [0x3B9; 0x308; 0x342]);
  (0x1FD8, [0x399; 0x306]); (0x1FD9, [0x399; 0x304]); (0x1FDA, [0x399; 0x300]);
  (0x1FDB, [0x399; 0x301]); (0x1FDD, [0x1FFE; 0x300]); (0x1FDE, [0x1FFE; 0x301]);
  (0x1FDF, [0x1FFE; 0x342]); (0x1FE0, [0x3C5; 0x306]); (0x1FE1, [0x3C5; 0x304]);
  (0x1FE2, [0x3C5; 0x308; 0x300]); (0x1FE3, [0x3C5; 0x308; 0x301]); (0x1FE4, [0x3C1; 0x313]);
  (0x1FE5, [0x3C1; 0x314]); (0x1FE6, [0x3C5; 0x342]); (0x1FE7, [0x3C5; 0x308; 0x342]);
  (0x1FE8, [0x3A5; 0x306]); (0x1FE9, [0x3A5; 0x304]); (0x1FEA, [0x3A5; 0x300]);
  (0x1FEB, [0x3A5; 0x301]); (0x1FEC, [0x3A1; 0x314]); (0x1FED, [0xA8; 0x300]);
  (0x1FEE, [0xA8; 0x301]); (0x1FEF, [0x60]); (0x1FF2, [0x3C9; 0x300; 0x345]);
  (0x1FF3, [0x3C9; 0x345]); (0x1FF4, [0x3C9; 0x301; 0x345]); (0x1FF6, [0x3C9; 0x342]);
  (0x1FF7, [0x3C9; 0x342; 0x345]); (0x1FF8, [0x39F; 0x300]); (0x1FF9, [0x39F; 0x301]);
  (0x1FFA, [0x3A9; 0x300]); (0x1FFB, [0x3A9; 0x301]); (0x1FFC, [0x3A9; 0x345]); (0x1FFD, [0xB4]);
  (0x2000, [0x2002]); (0x2001, [0x2003]); (0x2126, [0x3A9]); (0x212A, [0x4B]);
  (0x212B, [0x41; 0x30A]); (0x219A, [0x2190; 0x338]); (0x219B, [0x2192; 0x338]);
  (0x21AE, [0x2194; 0x338]); (0x21CD, [0x21D0; 0x338]); (0x21CE, [0x21D4; 0x338]);
  (0x21CF, [0x21D2; 0x338]); (0x2204, [0x2203; 0x338]); (0x2209, [0x2208; 0x338]);
  (0x220C, [0x220B; 0x338]); (0x2224, [0x2223; 0x338]); (0x2226, [0x2225; 0x338]);
  (0x2241, [0x223C; 0x338]); (0x2244, [0x2243; 0x338]); (0x2247, [0x2245; 0x338]);
  (0x2249, [0x2248; 0x338]); (0x2260, [0x3D; 0x338]); (0x2262, [0x2261; 0x338]);
  (0x226D, [0x224D; 0x338]); (0x226E, [0x3C; 0x338]); (0x226F, [0x3E; 0x338]);
  (0x2270, [0x2264; 0x338]); (0x2271, [0x2265; 0x338]); (0x2274, [0x2272; 0x338]);
  (0x2275, [0x2273; 0x338]); (0x2278, [0x2276; 0x338]); (0x2279, [0x2277; 0x338]);
  (0x2280, [0x227A; 0x338]); (0x2281, [0x227B; 0x338]); (0x2284, [0x2282; 0x338]);
  (0x2285, [0x2283; 0x338]); (0x2288, [0x2286; 0x338]); (0x2289, [0x2287; 0x338]);
  (0x22AC, [0x22A2; 0x338]); (0x22AD, [0x22A8; 0x338]); (0x22AE, [0x22A9; 0x338]);
  (0x22AF, [0x22AB; 0x338]); (0x22E0, [0x227C; 0x338]); (0x22E1, [0x227D; 0x338]);
  (0x22E2, [0x2291; 0x338]); (0x22E3, [0x2292; 0x338]); (0x22EA, [0x22B2; 0x338]);
  (0x22EB, [0x22B3; 0x338]); (0x22EC, [0x22B4; 0x338]); (0x22ED, [0x22B5; 0x338]);
  (0x2329, [0x3008]); (0x232A, [0x3009]); (0x2ADC, [0x2ADD; 0x338]); (0x304C, [0x304B; 0x3099]);
  (0x304E, [0x304D; 0x3099]); (0x3050, [0x304F; 0x3099]); (0x3052, [0x3051; 0x3099]);
  (0x3054, [0x3053; 0x3099]); (0x3056, [0x3055; 0x3099]); (0x3058, [0x3057; 0x3099]);
  (0x305A, [0x3059; 0x3099]); (0x305C, [0x305B; 0x3099]); (0x305E, [0x305D; 0x3099]);
  (0x3060, [0x305F; 0x3099]); (0x3062, [0x3061; 0x3099]); (0x3065, [0x3064; 0x3099]);
  (0x3067, [0x3066; 0x3099]); (0x3069, [0x3068; 0x3099]); (0x3070, [0x306F; 0x3099]);
  (0x3071, [0x306F; 0x309A]); (0x3073, [0x3072; 0x3099]); (0x3074, [0x3072; 0x309A]);
  (0x3076, [0x3075; 0x3099]); (0x3077, [0x3075; 0x309A]); (0x3079, [0x3078; 0x3099]);
  (0x307A, [0x3078; 0x309A]); (0x307C, [0x307B; 0x3099]); (0x307D, [0x307B; 0x309A]);
  (0x3094, [0x3046; 0x3099]); (0x309E, [0x309D; 0x3099]); (0x30AC, [0x30AB; 0x3099]);
  (0x30AE, [0x30AD; 0x3099]); (0x30B0, [0x30AF; 0x3099]); (0x30B2, [0x30B1; 0x3099]);
  (0x30B4, [0x30B3; 0x3099]); (0x30B6, [0x30B5; 0x3099]); (0x30B8, [0x30B7; 0x3099]);
  (0x30BA, [0x30B9; 0x3099]); (0x30BC, [0x30BB; 0x3099]); (0x30BE, [0x30BD; 0x3099]);
  (0x30C0, [0x30BF; 0x3099]); (0x30C2, [0x30C1; 0x3099]); (0x30C5, [0x30C4; 0x3099]);
  (0x30C7, [0x30C6; 0x3099]); (0x30C9, [0x30C8; 0x3099]); (0x30D0, [0x30CF; 0x3099]);
  (0x30D1, [0x30CF; 0x309A]); (0x30D3, [0x30D2; 0x3099]); (0x30D4, [0x30D2; 0x309A]);
  (0x30D6, [0x30D5; 0x3099]); (0x30D7, [0x30D5; 0x309A]); (0x30D9, [0x30D8; 0x3099]);
  (0x30DA, [0x30D8; 0x309A]); (0x30DC, [0x30DB; 0x3099]); (0x30DD, [0x30DB; 0x309A]);
  (0x30F4, [0x30A6; 0x3099]); (0x30F7, [0x30EF; 0x3099]); (0x30F8, [0x30F0; 0x3099]);
  (0x30F9, [0x30F1; 0x3099]); (0x30FA, [0x30F2; 0x3099]); (0x30FE, [0x30FD; 0x3099]);
  (0xF900, [0x8C48]); (0xF901, [0x66F4]); (0xF902, [0x8ECA]); (0xF903, [0x8CC8]);
  (0xF904, [0x6ED1]); (0xF905, [0x4E32]); (0xF906, [0x53E5]); (0xF907, [0x9F9C]);
  (0xF908, [0x9F9C]); (0xF909, [0x5951]); (0xF90A, [0x91D1]); (0xF90B, [0x5587]);
  (0xF90C, [0x5948]); (0xF90D, [0x61F6]); (0xF90E, [0x7669]); (0xF90F, [0x7F85]);
  (0xF910, [0x863F]); (0xF911, [0x87BA]); (0xF912, [0x88F8]); (0xF913, [0x908F]);
  (0xF914, [0x6A02]); (0xF915, [0x6D1B]); (0xF916, [0x70D9]); (0xF917, [0x73DE]);
  (0xF918, [0x843D]); (0xF919, [0x916A]); (0xF91A, [0x99F1]); (0xF91B, [0x4E82]);
  (0xF91C, [0x5375]); (0xF91D, [0x6B04]); (0xF91E, [0x721B]); (0xF91F, [0x862D]);
  (0xF920, [0x9E1E]); (0xF921, [0x5D50]); (0xF922, [0x6FEB]); (0xF923, [0x85CD]);
  (0xF924, [0x8964]); (0xF925, [0x62C9]); (0xF926, [0x81D8]); (0xF927, [0x881F]);
  (0xF928, [0x5ECA]); (0xF929, [0x6717]); (0xF92A, [0x6D6A]); (0xF92B, [0x72FC]);
  (0xF92C, [0x90CE]); (0xF92D, [0x4F86]); (0xF92E, [0x51B7]); (0xF92F, [0x52DE]);
  (0xF930, [0x64C4]); (0xF931, [0x6AD3]); (0xF932, [0x7210]); (0xF933, [0x76E7]);
  (0xF934, [0x8001]); (0xF935, [0x8606]); (0xF936, [0x865C]); (0xF937, [0x8DEF]);
  (0xF938, [0x9732]); (0xF939, [0x9B6F]); (0xF93A, [0x9DFA]); (0xF93B, [0x788C]);
  (0xF93C, [0x797F]); (0xF93D, [0x7DA0]); (0xF93E, [0x83C9]); (0xF93F, [0x9304]);
  (0xF940, [0x9E7F]); (0xF941, [0x8AD6]); (0xF942, [0x58DF]); (0xF943, [0x5F04]);
  (0xF944, [0x7C60]); (0xF945, [0x807E]); (0xF946, [0x7262]); (0xF947, [0x78CA]);
  (0xF948, [0x8CC2]); (0xF949, [0x96F7]); (0xF94A, [0x58D8]); (0xF94B, [0x5C62]);
  (0xF94C, [0x6A13]); (0xF94D, [0x6DDA]); (0xF94E, [0x6F0F]); (0xF94F, [0x7D2F]);
  (0xF950, [0x7E37]); (0xF951, [0x964B]); (0xF952, [0x52D2]); (0xF953, [0x808B]);
  (0xF954, [0x51DC]); (0xF955, [0x51CC]); (0xF956, [0x7A1C]); (0xF957, [0x7DBE]);
  (0xF958, [0x83F1]); (0xF959, [0x9675]); (0xF95A, [0x8B80]); (0xF95B, [0x62CF]);
  (0xF95C, [0x6A02]); (0xF95D, [0x8AFE]); (0xF95E, [0x4E39]); (0xF95F, [0x5BE7]);
  (0xF960, [0x6012]); (0xF961, [0x7387]); (0xF962, [0x7570]); (0xF963, [0x5317]);
  (0xF964, [0x78FB]); (0xF965, [0x4FBF]); (0xF966, [0x5FA9]); (0xF967, [0x4E0D]);
  (0xF968, [0x6CCC]); (0xF969, [0x6578]); (0xF96A, [0x7D22]); (0xF96B, [0x53C3]);
  (0xF96C, [0x585E]); (0xF96D, [0x7701]); (0xF96E, [0x8449]); (0xF96F, [0x8AAA]);
  (0xF970, [0x6BBA]); (0xF971, [0x8FB0]); (0xF972, [0x6C88]); (0xF973, [0x62FE]);
  (0xF974, [0x82E5]); (0xF975, [0x63A0]); (0xF976, [0x7565]); (0xF977, [0x4EAE]);
  (0xF978, [0x5169]); (0xF979, [0x51C9]); (0xF97A, [0x6881]); (0xF97B, [0x7CE7]);
  (0xF97C, [0x826F]); (0xF97D, [0x8AD2]); (0xF97E, [0x91CF]); (0xF97F, [0x52F5]);
  (0xF980, [0x5442]); (0xF981, [0x5973]); (0xF982, [0x5EEC]); (0xF983, [0x65C5]);
  (0xF984, [0x6FFE]); (0xF985, [0x792A]); (0xF986, [0x95AD]); (0xF987, [0x9A6A]);
  (0xF988, [0x9E97]); (0xF989, [0x9ECE]); (0xF98A, [0x529B]); (0xF98B, [0x66C6]);
  (0xF98C, [0x6B77]); (0xF98D, [0x8F62]); (0xF98E, [0x5E74]); (0xF98F, [0x6190]);
  (0xF990, [0x6200]); (0xF991, [0x649A]); (0xF992, [0x6F23]); (0xF993, [0x7149]);
  (0xF994, [0x7489]); (0xF995, [0x79CA]); (0xF996, [0x7DF4]); (0xF997, [0x806F]);
  (0xF998, [0x8F26]); (0xF999, [0x84EE]); (0xF99A, [0x9023]); (0xF99B, [0x934A]);
  (0xF99C, [0x5217]); (0xF99D, [0x52A3]); (0xF99E, [0x54BD]); (0xF99F, [0x70C8]);
  (0xF9A0, [0x88C2]); (0xF9A1, [0x8AAA]); (0xF9A2, [0x5EC9]); (0xF9A3, [0x5FF5]);
  (0xF9A4, [0x637B]); (0xF9A5, [0x6BAE]); (0xF9A6, [0x7C3E]); (0xF9A7, [0x7375]);
  (0xF9A8, [0x4EE4]); (0xF9A9, [0x56F9]); (0xF9AA, [0x5BE7]); (0xF9AB, [0x5DBA]);
  (0xF9AC, [0x601C]); (0xF9AD, [0x73B2]); (0xF9AE, [0x7469]); (0xF9AF, [0x7F9A]);
  (0xF9B0, [0x8046]); (0xF9B1, [0x9234]); (0xF9B2, [0x96F6]); (0xF9B3, [0x9748]);
  (0xF9B4, [0x9818]); (0xF9B5, [0x4F8B]); (0xF9B6, [0x79AE]); (0xF9B7, [0x91B4]);
  (0xF9B8, [0x96B8]); (0xF9B9, [0x60E1]); (0xF9BA, [0x4E86]); (0xF9BB, [0x50DA]);
  (0xF9BC, [0x5BEE]); (0xF9BD, [0x5C3F]); (0xF9BE, [0x6599]); (0xF9BF, [0x6A02]);
  (0xF9C0, [0x71CE]); (0xF9C1, [0x7642]); (0xF9C2, [0x84FC]); (0xF9C3, [0x907C]);
  (0xF9C4, [0x9F8D]); (0xF9C5, [0x6688]); (0xF9C6, [0x962E]); (0xF9C7, [0x5289]);
  (0xF9C8, [0x677B]); (0xF9C9, [0x67F3]); (0xF9CA, [0x6D41]); (0xF9CB, [0x6E9C]);
  (0xF9CC, [0x7409]); (0xF9CD, [0x7559]); (0xF9CE, [0x786B]); (0xF9CF, [0x7D10]);
  (0xF9D0, [0x985E]); (0xF9D1, [0x516D]); (0xF9D2, [0x622E]); (0xF9D3, [0x9678]);
  (0xF9D4, [0x502B]); (0xF9D5, [0x5D19]); (0xF9D6, [0x6DEA]); (0xF9D7, [0x8F2A]);
  (0xF9D8, [0x5F8B]); (0xF9D9, [0x6144]); (0xF9DA, [0x6817]); (0xF9DB, [0x7387]);
  (0xF9DC, [0x9686]); (0xF9DD, [0x5229]); (0xF9DE, [0x540F]); (0xF9DF, [0x5C65]);
  (0xF9E0, [0x6613]); (0xF9E1, [0x674E]); (0xF9E2, [0x68A8]); (0xF9E3, [0x6CE5]);
  (0xF9E4, [0x7406]); (0xF9E5, [0x75E2]); (0xF9E6, [0x7F79]); (0xF9E7, [0x88CF]);
  (0xF9E8, [0x88E1]); (0xF9E9, [0x91CC]); (0xF9EA, [0x96E2]); (0xF9EB, [0x533F]);
  (0xF9EC, [0x6EBA]); (0xF9ED, [0x541D]); (0xF9EE, [0x71D0]); (0xF9EF, [0x7498]);
  (0xF9F0, [0x85FA]); (0xF9F1, [0x96A3]); (0xF9F2, [0x9C57]); (0xF9F3, [0x9E9F]);
  (0xF9F4, [0x6797]); (0xF9F5, [0x6DCB]); (0xF9F6, [0x81E8]); (0xF9F7, [0x7ACB]);
  (0xF9F8, [0x7B20]); (0xF9F9, [0x7C92]); (0xF9FA, [0x72C0]); (0xF9FB, [0x7099]);
  (0xF9FC, [0x8B58]); (0xF9FD, [0x4EC0]); (0xF9FE, [0x8336]); (0xF9FF, [0x523A]);
  (0xFA00, [0x5207]); (0xFA01, [0x5EA6]); (0xFA02, [0x62D3]); (0xFA03, [0x7CD6]);
  (0xFA04, [0x5B85]); (0xFA05, [0x6D1E]); (0xFA06, [0x66B4]); (0xFA07, [0x8F3B]);
  (0xFA08, [0x884C]); (0xFA09, [0x964D]); (0xFA0A, [0x898B]); (0xFA0B, [0x5ED3]);
  (0xFA0C, [0x5140]); (0xFA0D, [0x55C0]); (0xFA10, [0x585A]); (0xFA12, [0x6674]);
  (0xFA15, [0x51DE]); (0xFA16, [0x732A]); (0xFA17, [0x76CA]); (0xFA18, [0x793C]);
  (0xFA19, [0x795E]); (0xFA1A, [0x7965]); (0xFA1B, [0x798F]); (0xFA1C, [0x9756]);
  (0xFA1D, [0x7CBE]); (0xFA1E, [0x7FBD]); (0xFA20, [0x8612]); (0xFA22, [0x8AF8]);
  (0xFA25, [0x9038]); (0xFA26, [0x90FD]); (0xFA2A, [0x98EF]); (0xFA2B, [0x98FC]);
  (0xFA2C, [0x9928]); (0xFA2D, [0x9DB4]); (0xFA2E, [0x90DE]); (0xFA2F, [0x96B7]);
  (0xFA30, [0x4FAE]); (0xFA31, [0x50E7]); (0xFA32, [0x514D]); (0xFA33, [0x52C9]);
  (0xFA34, [0x52E4]); (0xFA35, [0x5351]); (0xFA36, [0x559D]); (0xFA37, [0x5606]);
  (0xFA38, [0x5668]); (0xFA39, [0x5840]); (0xFA3A, [0x58A8]); (0xFA3B, [0x5C64]);
  (0xFA3C, [0x5C6E]); (0xFA3D, [0x6094]); (0xFA3E, [0x6168]); (0xFA3F, [0x618E]);
  (0xFA40, [0x61F2]); (0xFA41, [0x654F]); (0xFA42, [0x65E2]); (0xFA43, [0x6691]);
  (0xFA44, [0x6885]); (0xFA45, [0x6D77]); (0xFA46, [0x6E1A]); (0xFA47, [0x6F22]);
  (0xFA48, [0x716E]); (0xFA49, [0x722B]); (0xFA4A, [0x7422]); (0xFA4B, [0x7891]);
  (0xFA4C, [0x793E]); (0xFA4D, [0x7949]); (0xFA4E, [0x7948]); (0xFA4F, [0x7950]);
  (0xFA50, [0x7956]); (0xFA51, [0x795D]); (0xFA52, [0x798D]); (0xFA53, [0x798E]);
  (0xFA54, [0x7A40]); (0xFA55, [0x7A81]); (0xFA56, [0x7BC0]); (0xFA57, [0x7DF4]);
  (0xFA58, [0x7E09]); (0xFA59, [0x7E41]); (0xFA5A, [0x7F72]); (0xFA5B, [0x8005]);
  (0xFA5C, [0x81ED]); (0xFA5D, [0x8279]); (0xFA5E, [0x8279]); (0xFA5F, [0x8457]);
  (0xFA60, [0x8910]); (0xFA61, [0x8996]); (0xFA62, [0x8B01]); (0xFA63, [0x8B39]);
  (0xFA64, [0x8CD3]); (0xFA65, [0x8D08]); (0xFA66, [0x8FB6]); (0xFA67, [0x9038]);
  (0xFA68, [0x96E3]); (0xFA69, [0x97FF]); (0xFA6A, [0x983B]); (0xFA6B, [0x6075]);
  (0xFA6C, [0x242EE]); (0xFA6D, [0x8218]); (0xFA70, [0x4E26]); (0xFA71, [0x51B5]);
  (0xFA72, [0x5168]); (0xFA73, [0x4F80]); (0xFA74, [0x5145]); (0xFA75, [0x5180]);
  (0xFA76, [0x52C7]); (0xFA77, [0x52FA]); (0xFA78, [0x559D]); (0xFA79, [0x5555]);
  (0xFA7A, [0x5599]); (0xFA7B, [0x55E2]); (0xFA7C, [0x585A]); (0xFA7D, [0x58B3]);
  (0xFA7E, [0x5944]); (0xFA7F, [0x5954]); (0xFA80, [0x5A62]); (0xFA81, [0x5B28]);
  (0xFA82, [0x5ED2]); (0xFA83, [0x5ED9]); (0xFA84, [0x5F69]); (0xFA85, [0x5FAD]);
  (0xFA86, [0x60D8]); (0xFA87, [0x614E]); (0xFA88, [0x6108]); (0xFA89, [0x618E]);
  (0xFA8A, [0x6160]); (0xFA8B, [0x61F2]); (0xFA8C, [0x6234]); (0xFA8D, [0x63C4]);
  (0xFA8E, [0x641C]); (0xFA8F, [0x6452]); (0xFA90, [0x6556]); (0xFA91, [0x6674]);
  (0xFA92, [0x6717]); (0xFA93, [0x671B]); (0xFA94, [0x6756]); (0xFA95, [0x6B79]);
  (0xFA96, [0x6BBA]); (0xFA97, [0x6D41]); (0xFA98, [0x6EDB]); (0xFA99, [0x6ECB]);
  (0xFA9A, [0x6F22]); (0xFA9B, [0x701E]); (0xFA9C, [0x716E]); (0xFA9D, [0x77A7]);
  (0xFA9E, [0x7235]); (0xFA9F, [0x72AF]); (0xFAA0, [0x732A]); (0xFAA1, [0x7471]);
  (0xFAA2, [0x7506]); (0xFAA3, [0x753B]); (0xFAA4, [0x761D]); (0xFAA5, [0x761F]);
  (0xFAA6, [0x76CA]); (0xFAA7, [0x76DB]); (0xFAA8, [0x76F4]); (0xFAA9, [0x774A]);
  (0xFAAA, [0x7740]); (0xFAAB, [0x78CC]); (0xFAAC, [0x7AB1]); (0xFAAD, [0x7BC0]);
  (0xFAAE, [0x7C7B]); (0xFAAF, [0x7D5B]); (0xFAB0, [0x7DF4]); (0xFAB1, [0x7F3E]);
  (0xFAB2, [0x8005]); (0xFAB3, [0x8352]); (0xFAB4, [0x83EF]); (0xFAB5, [0x8779]);
  (0xFAB6, [0x8941]); (0xFAB7, [0x8986]); (0xFAB8, [0x8996]); (0xFAB9, [0x8ABF]);
  (0xFABA, [0x8AF8]); (0xFABB, [0x8ACB]); (0xFABC, [0x8B01]); (0xFABD, [0x8AFE]);
  (0xFABE, [0x8AED]); (0xFABF, [0x8B39]); (0xFAC0, [0x8B8A]); (0xFAC1, [0x8D08]);
  (0xFAC2, [0x8F38]); (0xFAC3, [0x9072]); (0xFAC4, [0x9199]); (0xFAC5, [0x9276]);
  (0xFAC6, [0x967C]); (0xFAC7, [0x96E3]); (0xFAC8, [0x9756]); (0xFAC9, [0x97DB]);
  (0xFACA, [0x97FF]); (0xFACB, [0x980B]); (0xFACC, [0x983B]); (0xFACD, [0x9B12]);
  (0xFACE, [0x9F9C]); (0xFACF, [0x2284A]); (0xFAD0, [0x22844]); (0xFAD1, [0x233D5]);
  (0xFAD2, [0x3B9D]); (0xFAD3, [0x4018]); (0xFAD4, [0x4039]); (0xFAD5, [0x25249]);
  (0xFAD6, [0x25CD0]); (0xFAD7, [0x27ED3]); (0xFAD8, [0x9F43]); (0xFAD9, [0x9F8E]);
  (0xFB1D, [0x5D9; 0x5B4]); (0xFB1F, [0x5F2; 0x5B7]); (0xFB2A, [0x5E9; 0x5C1]);
  (0xFB2B, [0x5E9; 0x5C2]); (0xFB2C, [0x5E9; 0x5BC; 0x5C1]); (0xFB2D, [0x5E9; 0x5BC; 0x5C2]);
  (0xFB2E, [0x5D0; 0x5B7]); (0xFB2F, [0x5D0; 0x5B8]); (0xFB30, [0x5D0; 0x5BC]);
  (0xFB31, [0x5D1; 0x5BC]); (0xFB32, [0x5D2; 0x5BC]); (0xFB33, [0x5D3; 0x5BC]);
  (0xFB34, [0x5D4; 0x5BC]); (0xFB35, [0x5D5; 0x5BC]); (0xFB36, [0x5D6; 0x5BC]);
  (0xFB38, [0x5D8; 0x5BC]); (0xFB39, [0x5D9; 0x5BC]); (0xFB3A, [0x5DA; 0x5BC]);
  (0xFB3B, [0x5DB; 0x5BC]); (0xFB3C, [0x5DC; 0x5BC]); (0xFB3E, [0x5DE; 0x5BC]);
  (0xFB40, [0x5E0; 0x5BC]); (0xFB41, [0x5E1; 0x5BC]); (0xFB43, [0x5E3; 0x5BC]);
  (0xFB44, [0x5E4; 0x5BC]); (0xFB46, [0x5E6; 0x5BC]); (0xFB47, [0x5E7; 0x5BC]);
  (0xFB48, [0x5E8; 0x5BC]); (0xFB49, [0x5E9; 0x5BC]); (0xFB4A, [0x5EA; 0x5BC]);
  (0xFB4B, [0x5D5; 0x5B9]); (0xFB4C, [0x5D1; 0x5BF]); (0xFB4D, [0x5DB; 0x5BF]);
  (0xFB4E, [0x5E4; 0x5BF]); (0x1109A, [0x11099; 0x110BA]); (0x1109C, [0x1109B; 0x110BA]);
  (0x110AB, [0x110A5; 0x110BA]); (0x1112E, [0x11131; 0x11127]); (0x1112F, [0x11132; 0x11127]);
  (0x1134B, [0x11347; 0x1133E]); (0x1134C, [0x11347; 0x11357]); (0x114BB, [0x114B9; 0x114BA]);
  (0x114BC, [0x114B9; 0x114B0]); (0x114BE, [0x114B9; 0x114BD]); (0x115BA, [0x115B8; 0x115AF]);
  (0x115BB, [0x115B9; 0x115AF]); (0x11938, [0x11935; 0x11930]); (0x1D15E, [0x1D157; 0x1D165]);
  (0x1D15F, [0x1D158; 0x1D165]); (0x1D160, [0x1D158; 0x1D165; 0x1D16E]);
  (0x1D161, [0x1D158; 0x1D165; 0x1D16F]); (0x1D162, [0x1D158; 0x1D165; 0x1D170]);
  (0x1D163, [0x1D158; 0x1D165; 0x1D171]); (0x1D164, [0x1D158; 0x1D165; 0x1D172]);
  (0x1D1BB, [0x1D1B9; 0x1D165]); (0x1D1BC, [0x1D1BA; 0x1D165]);
  (0x1D1BD, [0x1D1B9; 0x1D165; 0x1D16E]); (0x1D1BE, [0x1D1BA; 0x1D165; 0x1D16E]);
  (0x1D1BF, [0x1D1B9; 0x1D165; 0x1D16F]); (0x1D1C0, [0x1D1BA; 0x1D165; 0x1D16F]);
  (0x2F800, [0x4E3D]); (0x2F801, [0x4E38]); (0x2F802, [0x4E41]); (0x2F803, [0x20122]);
  (0x2F804, [0x4F60]); (0x2F805, [0x4FAE]); (0x2F806, [0x4FBB]); (0x2F807, [0x5002]);
  (0x2F808, [0x507A]); (0x2F809, [0x5099]); (0x2F80A, [0x50E7]); (0x2F80B, [0x50CF]);
  (0x2F80C, [0x349E]); (0x2F80D, [0x2063A]); (0x2F80E, [0x514D]); (0x2F80F, [0x5154]);
  (0x2F810, [0x5164]); (0x2F811, [0x5177]); (0x2F812, [0x2051C]); (0x2F813, [0x34B9]);
  (0x2F814, [0x5167]); (0x2F815, [0x518D]); (0x2F816, [0x2054B]); (0x2F817, [0x5197]);
  (0x2F818, [0x51A4]); (0x2F819, [0x4ECC]); (0x2F81A, [0x51AC]); (0x2F81B, [0x51B5]);
  (0x2F81C, [0x291DF]); (0x2F81D, [0x51F5]); (0x2F81E, [0x5203]); (0x2F81F, [0x34DF]);
  (0x2F820, [0x523B]); (0x2F821, [0x5246]); (0x2F822, [0x5272]); (0x2F823, [0x5277]);
  (0x2F824, [0x3515]); (0x2F825, [0x52C7]); (0x2F826, [0x52C9]); (0x2F827, [0x52E4]);
  (0x2F828, [0x52FA]); (0x2F829, [0x5305]); (0x2F82A, [0x5306]); (0x2F82B, [0x5317]);
  (0x2F82C, [0x5349]); (0x2F82D, [0x5351]); (0x2F82E, [0x535A]); (0x2F82F, [0x5373]);
  (0x2F830, [0x537D]); (0x2F831, [0x537F]); (0x2F832, [0x537F]); (0x2F833, [0x537F]);
  (0x2F834, [0x20A2C]); (0x2F835, [0x7070]); (0x2F836, [0x53CA]); (0x2F837, [0x53DF]);
  (0x2F838, [0x20B63]); (0x2F839, [0x53EB]); (0x2F83A, [0x53F1]); (0x2F83B, [0x5406]);
  (0x2F83C, [0x549E]); (0x2F83D, [0x5438]); (0x2F83E, [0x5448]); (0x2F83F, [0x5468]);
  (0x2F840, [0x54A2]); (0x2F841, [0x54F6]); (0x2F842, [0x5510]); (0x2F843, [0x5553]);
  (0x2F844, [0x5563]); (0x2F845, [0x5584]); (0x2F846, [0x5584]); (0x2F847, [0x5599]);
  (0x2F848, [0x55AB]); (0x2F849, [0x55B3]); (0x2F84A, [0x55C2]); (0x2F84B, [0x5716]);
  (0x2F84C, [0x5606]); (0x2F84D, [0x5717]); (0x2F84E, [0x5651]); (0x2F84F, [0x5674]);
  (0x2F850, [0x5207]); (0x2F851, [0x58EE]); (0x2F852, [0x57CE]); (0x2F853, [0x57F4]);
  (0x2F854, [0x580D]); (0x2F855, [0x578B]); (0x2F856, [0x5832]); (0x2F857, [0x5831]);
  (0x2F858, [0x58AC]); (0x2F859, [0x214E4]); (0x2F85A, [0x58F2]); (0x2F85B, [0x58F7]);
  (0x2F85C, [0x5906]); (0x2F85D, [0x591A]); (0x2F85E, [0x5922]); (0x2F85F, [0x5962]);
  (0x2F860, [0x216A8]); (0x2F861, [0x216EA]); (0x2F862, [0x59EC]); (0x2F863, [0x5A1B]);
  (0x2F864, [0x5A27]); (0x2F865, [0x59D8]); (0x2F866, [0x5A66]); (0x2F867, [0x36EE]);
  (0x2F868, [0x36FC]); (0x2F869, [0x5B08]); (0x2F86A, [0x5B3E]); (0x2F86B, [0x5B3E]);
  (0x2F86C, [0x219C8]); (0x2F86D, [0x5BC3]); (0x2F86E, [0x5BD8]); (0x2F86F, [0x5BE7]);
  (0x2F870, [0x5BF3]); (0x2F871, [0x21B18]); (0x2F872, [0x5BFF]); (0x2F873, [0x5C06]);
  (0x2F874, [0x5F53]); (0x2F875, [0x5C22]); (0x2F876, [0x3781]); (0x2F877, [0x5C60]);
  (0x2F878, [0x5C6E]); (0x2F879, [0x5CC0]); (0x2F87A, [0x5C8D]); (0x2F87B, [0x21DE4]);
  (0x2F87C, [0x5D43]); (0x2F87D, [0x21DE6]); (0x2F87E, [0x5D6E]); (0x2F87F, [0x5D6B]);
  (0x2F880, [0x5D7C]); (0x2F881, [0x5DE1]); (0x2F882, [0x5DE2]); (0x2F883, [0x382F]);
  (0x2F884, [0x5DFD]); (0x2F885, [0x5E28]); (0x2F886, [0x5E3D]); (0x2F887, [0x5E69]);
  (0x2F888, [0x3862]); (0x2F889, [0x22183]); (0x2F88A, [0x387C]); (0x2F88B, [0x5EB0]);
  (0x2F88C, [0x5EB3]); (0x2F88D, [0x5EB6]); (0x2F88E, [0x5ECA]); (0x2F88F, [0x2A392]);
  (0x2F890, [0x5EFE]); (0x2F891, [0x22331]); (0x2F892, [0x22331]); (0x2F893, [0x8201]);
  (0x2F894, [0x5F22]); (0x2F895, [0x5F22]); (0x2F896, [0x38C7]); (0x2F897, [0x232B8]);
  (0x2F898, [0x261DA]); (0x2F899, [0x5F62]); (0x2F89A, [0x5F6B]); (0x2F89B, [0x38E3]);
  (0x2F89C, [0x5F9A]); (0x2F89D, [0x5FCD]); (0x2F89E, [0x5FD7]); (0x2F89F, [0x5FF9]);
  (0x2F8A0, [0x6081]); (0x2F8A1, [0x393A]); (0x2F8A2, [0x391C]); (0x2F8A3, [0x6094]);
  (0x2F8A4, [0x226D4]); (0x2F8A5, [0x60C7]); (0x2F8A6, [0x6148]); (0x2F8A7, [0x614C]);
  (0x2F8A8, [0x614E]); (0x2F8A9, [0x614C]); (0x2F8AA, [0x617A]); (0x2F8AB, [0x618E]);
  (0x2F8AC, [0x61B2]); (0x2F8AD, [0x61A4]); (0x2F8AE, [0x61AF]); (0x2F8AF, [0x61DE]);
  (0x2F8B0, [0x61F2]); (0x2F8B1, [0x61F6]); (0x2F8B2, [0x6210]); (0x2F8B3, [0x621B]);
  (0x2F8B4, [0x625D]); (0x2F8B5, [0x62B1]); (0x2F8B6, [0x62D4]); (0x2F8B7, [0x6350]);
  (0x2F8B8, [0x22B0C]); (0x2F8B9, [0x633D]); (0x2F8BA, [0x62FC]); (0x2F8BB, [0x6368]);
  (0x2F8BC, [0x6383]); (0x2F8BD, [0x63E4]); (0x2F8BE, [0x22BF1]); (0x2F8BF, [0x6422]);
  (0x2F8C0, [0x63C5]); (0x2F8C1, [0x63A9]); (0x2F8C2, [0x3A2E]); (0x2F8C3, [0x6469]);
  (0x2F8C4, [0x647E]); (0x2F8C5, [0x649D]); (0x2F8C6, [0x6477]); (0x2F8C7, [0x3A6C]);
  (0x2F8C8, [0x654F]); (0x2F8C9, [0x656C]); (0x2F8CA, [0x2300A]); (0x2F8CB, [0x65E3]);
  (0x2F8CC, [0x66F8]); (0x2F8CD, [0x6649]); (0x2F8CE, [0x3B19]); (0x2F8CF, [0x6691]);
  (0x2F8D0, [0x3B08]); (0x2F8D1, [0x3AE4]); (0x2F8D2, [0x5192]); (0x2F8D3, [0x5195]);
  (0x2F8D4, [0x6700]); (0x2F8D5, [0x669C]); (0x2F8D6, [0x80AD]); (0x2F8D7, [0x43D9]);
  (0x2F8D8, [0x6717]); (0x2F8D9, [0x671B]); (0x2F8DA, [0x6721]); (0x2F8DB, [0x675E]);
  (0x2F8DC, [0x6753]); (0x2F8DD, [0x233C3]); (0x2F8DE, [0x3B49]); (0x2F8DF, [0x67FA]);
  (0x2F8E0, [0x6785]); (0x2F8E1, [0x6852]); (0x2F8E2, [0x6885]); (0x2F8E3, [0x2346D]);
  (0x2F8E4, [0x688E]); (0x2F8E5, [0x681F]); (0x2F8E6, [0x6914]); (0x2F8E7, [0x3B9D]);
  (0x2F8E8, [0x6942]); (0x2F8E9, [0x69A3]); (0x2F8EA, [0x69EA]); (0x2F8EB, [0x6AA8]);
  (0x2F8EC, [0x236A3]); (0x2F8ED, [0x6ADB]); (0x2F8EE, [0x3C18]); (0x2F8EF, [0x6B21]);
  (0x2F8F0, [0x238A7]); (0x2F8F1, [0x6B54]); (0x2F8F2, [0x3C4E]); (0x2F8F3, [0x6B72]);
  (0x2F8F4, [0x6B9F]); (0x2F8F5, [0x6BBA]); (0x2F8F6, [0x6BBB]); (0x2F8F7, [0x23A8D]);
  (0x2F8F8, [0x21D0B]); (0x2F8F9, [0x23AFA]); (0x2F8FA, [0x6C4E]); (0x2F8FB, [0x23CBC]);
  (0x2F8FC, [0x6CBF]); (0x2F8FD, [0x6CCD]); (0x2F8FE, [0x6C67]); (0x2F8FF, [0x6D16]);
  (0x2F900, [0x6D3E]); (0x2F901, [0x6D77]); (0x2F902, [0x6D41]); (0x2F903, [0x6D69]);
  (0x2F904, [0x6D78]); (0x2F905, [0x6D85]); (0x2F906, [0x23D1E]); (0x2F907, [0x6D34]);
  (0x2F908, [0x6E2F]); (0x2F909, [0x6E6E]); (0x2F90A, [0x3D33]); (0x2F90B, [0x6ECB]);
  (0x2F90C, [0x6EC7]); (0x2F90D, [0x23ED1]); (0x2F90E, [0x6DF9]); (0x2F90F, [0x6F6E]);
  (0x2F910, [0x23F5E]); (0x2F911, [0x23F8E]); (0x2F912, [0x6FC6]); (0x2F913, [0x7039]);
  (0x2F914, [0x701E]); (0x2F915, [0x701B]); (0x2F916, [0x3D96]); (0x2F917, [0x704A]);
  (0x2F918, [0x707D]); (0x2F919, [0x7077]); (0x2F91A, [0x70AD]); (0x2F91B, [0x20525]);
  (0x2F91C, [0x7145]); (0x2F91D, [0x24263]); (0x2F91E, [0x719C]); (0x2F91F, [0x243AB]);
  (0x2F920, [0x7228]); (0x2F921, [0x7235]); (0x2F922, [0x7250]); (0x2F923, [0x24608]);
  (0x2F924, [0x7280]); (0x2F925, [0x7295]); (0x2F926, [0x24735]); (0x2F927, [0x24814]);
  (0x2F928, [0x737A]); (0x2F929, [0x738B]); (0x2F92A, [0x3EAC]); (0x2F92B, [0x73A5]);
  (0x2F92C, [0x3EB8]); (0x2F92D, [0x3EB8]); (0x2F92E, [0x7447]); (0x2F92F, [0x745C]);
  (0x2F930, [0x7471]); (0x2F931, [0x7485]); (0x2F932, [0x74CA]); (0x2F933, [0x3F1B]);
  (0x2F934, [0x7524]); (0x2F935, [0x24C36]); (0x2F936, [0x753E]); (0x2F937, [0x24C92]);
  (0x2F938, [0x7570]); (0x2F939, [0x2219F]); (0x2F93A, [0x7610]); (0x2F93B, [0x24FA1]);
  (0x2F93C, [0x24FB8]); (0x2F93D, [0x25044]); (0x2F93E, [0x3FFC]); (0x2F93F, [0x4008]);
  (0x2F940, [0x76F4]); (0x2F941, [0x250F3]); (0x2F942, [0x250F2]); (0x2F943, [0x25119]);
  (0x2F944, [0x25133]); (0x2F945, [0x771E]); (0x2F946, [0x771F]); (0x2F947, [0x771F]);
  (0x2F948, [0x774A]); (0x2F949, [0x4039]); (0x2F94A, [0x778B]); (0x2F94B, [0x4046]);
  (0x2F94C, [0x4096]); (0x2F94D, [0x2541D]); (0x2F94E, [0x784E]); (0x2F94F, [0x788C]);
  (0x2F950, [0x78CC]); (0x2F951, [0x40E3]); (0x2F952, [0x25626]); (0x2F953, [0x7956]);
  (0x2F954, [0x2569A]); (0x2F955, [0x256C5]); (0x2F956, [0x798F]); (0x2F957, [0x79EB]);
  (0x2F958, [0x412F]); (0x2F959, [0x7A40]); (0x2F95A, [0x7A4A]); (0x2F95B, [0x7A4F]);
  (0x2F95C, [0x2597C]); (0x2F95D, [0x25AA7]); (0x2F95E, [0x25AA7]); (0x2F95F, [0x7AEE]);
  (0x2F960, [0x4202]); (0x2F961, [0x25BAB]); (0x2F962, [0x7BC6]); (0x2F963, [0x7BC9]);
  (0x2F964, [0x4227]); (0x2F965, [0x25C80]); (0x2F966, [0x7CD2]); (0x2F967, [0x42A0]);
  (0x2F968, [0x7CE8]); (0x2F969, [0x7CE3]); (0x2F96A, [0x7D00]); (0x2F96B, [0x25F86]);
  (0x2F96C, [0x7D63]); (0x2F96D, [0x4301]); (0x2F96E, [0x7DC7]); (0x2F96F, [0x7E02]);
  (0x2F970, [0x7E45]); (0x2F971, [0x4334]); (0x2F972, [0x26228]); (0x2F973, [0x26247]);
  (0x2F974, [0x4359]); (0x2F975, [0x262D9]); (0x2F976, [0x7F7A]); (0x2F977, [0x2633E]);
  (0x2F978, [0x7F95]); (0x2F979, [0x7FFA]); (0x2F97A, [0x8005]); (0x2F97B, [0x264DA]);
  (0x2F97C, [0x26523]); (0x2F97D, [0x8060]); (0x2F97E, [0x265A8]); (0x2F97F, [0x8070]);
  (0x2F980, [0x2335F]); (0x2F981, [0x43D5]); (0x2F982, [0x80B2]); (0x2F983, [0x8103]);
  (0x2F984, [0x440B]); (0x2F985, [0x813E]); (0x2F986, [0x5AB5]); (0x2F987, [0x267A7]);
  (0x2F988, [0x267B5]); (0x2F989, [0x23393]); (0x2F98A, [0x2339C]); (0x2F98B, [0x8201]);
  (0x2F98C, [0x8204]); (0x2F98D, [0x8F9E]); (0x2F98E, [0x446B]); (0x2F98F, [0x8291]);
  (0x2F990, [0x828B]); (0x2F991, [0x829D]); (0x2F992, [0x52B3]); (0x2F993, [0x82B1]);
  (0x2F994, [0x82B3]); (0x2F995, [0x82BD]); (0x2F996, [0x82E6]); (0x2F997, [0x26B3C]);
  (0x2F998, [0x82E5]); (0x2F999, [0x831D]); (0x2F99A, [0x8363]); (0x2F99B, [0x83AD]);
  (0x2F99C, [0x8323]); (0x2F99D, [0x83BD]); (0x2F99E, [0x83E7]); (0x2F99F, [0x8457]);
  (0x2F9A0, [0x8353]); (0x2F9A1, [0x83CA]); (0x2F9A2, [0x83CC]); (0x2F9A3, [0x83DC]);
  (0x2F9A4, [0x26C36]); (0x2F9A5, [0x26D6B]); (0x2F9A6, [0x26CD5]); (0x2F9A7, [0x452B]);
  (0x2F9A8, [0x84F1]); (0x2F9A9, [0x84F3]); (0x2F9AA, [0x8516]); (0x2F9AB, [0x273CA]);
  (0x2F9AC, [0x8564]); (0x2F9AD, [0x26F2C]); (0x2F9AE, [0x455D]); (0x2F9AF, [0x4561]);
  (0x2F9B0, [0x26FB1]); (0x2F9B1, [0x270D2]); (0x2F9B2, [0x456B]); (0x2F9B3, [0x8650]);
  (0x2F9B4, [0x865C]); (0x2F9B5, [0x8667]); (0x2F9B6, [0x8669]); (0x2F9B7, [0x86A9]);
  (0x2F9B8, [0x8688]); (0x2F9B9, [0x870E]); (0x2F9BA, [0x86E2]); (0x2F9BB, [0x8779]);
  (0x2F9BC, [0x8728]); (0x2F9BD, [0x876B]); (0x2F9BE, [0x8786]); (0x2F9BF, [0x45D7]);
  (0x2F9C0, [0x87E1]); (0x2F9C1, [0x8801]); (0x2F9C2, [0x45F9]); (0x2F9C3, [0x8860]);
  (0x2F9C4, [0x8863]); (0x2F9C5, [0x27667]); (0x2F9C6, [0x88D7]); (0x2F9C7, [0x88DE]);
  (0x2F9C8, [0x4635]); (0x2F9C9, [0x88FA]); (0x2F9CA, [0x34BB]); (0x2F9CB, [0x278AE]);
  (0x2F9CC, [0x27966]); (0x2F9CD, [0x46BE]); (0x2F9CE, [0x46C7]); (0x2F9CF, [0x8AA0]);
  (0x2F9D0, [0x8AED]); (0x2F9D1, [0x8B8A]); (0x2F9D2, [0x8C55]); (0x2F9D3, [0x27CA8]);
  (0x2F9D4, [0x8CAB]); (0x2F9D5, [0x8CC1]); (0x2F9D6, [0x8D1B]); (0x2F9D7, [0x8D77]);
  (0x2F9D8, [0x27F2F]); (0x2F9D9, [0x20804]); (0x2F9DA, [0x8DCB]); (0x2F9DB, [0x8DBC]);
  (0x2F9DC, [0x8DF0]); (0x2F9DD, [0x208DE]); (0x2F9DE, [0x8ED4]); (0x2F9DF, [0x8F38]);
  (0x2F9E0, [0x285D2]); (0x2F9E1, [0x285ED]); (0x2F9E2, [0x9094]); (0x2F9E3, [0x90F1]);
  (0x2F9E4, [0x9111]); (0x2F9E5, [0x2872E]); (0x2F9E6, [0x911B]); (0x2F9E7, [0x9238]);
  (0x2F9E8, [0x92D7]); (0x2F9E9, [0x92D8]); (0x2F9EA, [0x927C]); (0x2F9EB, [0x93F9]);
  (0x2F9EC, [0x9415]); (0x2F9ED, [0x28BFA]); (0x2F9EE, [0x958B]); (0x2F9EF, [0x4995]);
  (0x2F9F0, [0x95B7]); (0x2F9F1, [0x28D77]); (0x2F9F2, [0x49E6]); (0x2F9F3, [0x96C3]);
  (0x2F9F4, [0x5DB2]); (0x2F9F5, [0x9723]); (0x2F9F6, [0x29145]); (0x2F9F7, [0x2921A]);
  (0x2F9F8, [0x4A6E]); (0x2F9F9, [0x4A76]); (0x2F9FA, [0x97E0]); (0x2F9FB, [0x2940A]);
  (0x2F9FC, [0x4AB2]); (0x2F9FD, [0x29496]); (0x2F9FE, [0x980B]); (0x2F9FF, [0x980B]);
  (0x2FA00, [0x9829]); (0x2FA01, [0x295B6]); (0x2FA02, [0x98E2]); (0x2FA03, [0x4B33]);
  (0x2FA04, [0x9929]); (0x2FA05, [0x99A7]); (0x2FA06, [0x99C2]); (0x2FA07, [0x99FE]);
  (0x2FA08, [0x4BCE]); (0x2FA09, [0x29B30]); (0x2FA0A, [0x9B12]); (0x2FA0B, [0x9C40]);
  (0x2FA0C, [0x9CFD]); (0x2FA0D, [0x4CCE]); (0x2FA0E, [0x4CED]); (0x2FA0F, [0x9D67]);
  (0x2FA10, [0x2A0CE]); (0x2FA11, [0x4CF8]); (0x2FA12, [0x2A105]); (0x2FA13, [0x2A20E]);
  (0x2FA14, [0x2A291]); (0x2FA15, [0x9EBB]); (0x2FA16, [0x4D56]); (0x2FA17, [0x9EF9]);
  (0x2FA18, [0x9EFE]); (0x2FA19, [0x9F05]); (0x2FA1A, [0x9F0F]); (0x2FA1B, [0x9F16]);
  (0x2FA1C, [0x9F3B]); (0x2FA1D, [0x2A600])
].

(** Full lowercase mappings (Simple_Lowercase_Mapping, overridden by the
    unconditional entries of SpecialCasing): one row per code point that is
    changed. *)
Definition lowercase_rows : list (N * list N) := [
  (0x41, [0x61]); (0x42, [0x62]); (0x43, [0x63]); (0x44, [0x64]); (0x45, [0x65]); (0x46, [0x66]);
  (0x47, [0x67]); (0x48, [0x68]); (0x49, [0x69]); (0x4A, [0x6A]); (0x4B, [0x6B]); (0x4C, [0x6C]);
  (0x4D, [0x6D]); (0x4E, [0x6E]); (0x4F, [0x6F]); (0x50, [0x70]); (0x51, [0x71]); (0x52, [0x72]);
  (0x53, [0x73]); (0x54, [0x74]); (0x55, [0x75]); (0x56, [0x76]); (0x57, [0x77]); (0x58, [0x78]);
  (0x59, [0x79]); (0x5A, [0x7A]); (0xC0, [0xE0]); (0xC1, [0xE1]); (0xC2, [0xE2]); (0xC3, [0xE3]);
  (0xC4, [0xE4]); (0xC5, [0xE5]); (0xC6, [0xE6]); (0xC7, [0xE7]); (0xC8, [0xE8]); (0xC9, [0xE9]);
  (0xCA, [0xEA]); (0xCB, [0xEB]); (0xCC, [0xEC]); (0xCD, [0xED]); (0xCE, [0xEE]); (0xCF, [0xEF]);
  (0xD0, [0xF0]); (0xD1, [0xF1]); (0xD2, [0xF2]); (0xD3, [0xF3]); (0xD4, [0xF4]); (0xD5, [0xF5]);
  (0xD6, [0xF6]); (0xD8, [0xF8]); (0xD9, [0xF9]); (0xDA, [0xFA]); (0xDB, [0xFB]); (0xDC, [0xFC]);
  (0xDD, [0xFD]); (0xDE, [0xFE]); (0x100, [0x101]); (0x102, [0x103]); (0x104, [0x105]);
  (0x106, [0x107]); (0x108, [0x109]); (0x10A, [0x10B]); (0x10C, [0x10D]); (0x10E, [0x10F]);
  (0x110, [0x111]); (0x112, [0x113]); (0x114, [0x115]); (0x116, [0x117]); (0x118, [0x119]);
  (0x11A, [0x11B]); (0x11C, [0x11D]); (0x11E, [0x11F]); (0x120, [0x121]); (0x122, [0x123]);
  (0x124, [0x125]); (0x126, [0x127]); (0x128, [0x129]); (0x12A, [0x12B]); (0x12C, [0x12D]);
  (0x12E, [0x12F]); (0x130, [0x69; 0x307]); (0x132, [0x133]); (0x134, [0x135]); (0x136, [0x137]);
  (0x139, [0x13A]); (0x13B, [0x13C]); (0x13D, [0x13E]); (0x13F, [0x140]); (0x141, [0x142]);
  (0x143, [0x144]); (0x145, [0x146]); (0x147, [0x148]); (0x14A, [0x14B]); (0x14C, [0x14D]);
  (0x14E, [0x14F]); (0x150, [0x151]); (0x152, [0x153]); (0x154, [0x155]); (0x156, [0x157]);
  (0x158, [0x159]); (0x15A, [0x15B]); (0x15C, [0x15D]); (0x15E, [0x15F]); (0x160, [0x161]);
  (0x162, [0x163]); (0x164, [0x165]); (0x166, [0x167]); (0x168, [0x169]); (0x16A, [0x16B]);
  (0x16C, [0x16D]); (0x16E, [0x16F]); (0x170, [0x171]); (0x172, [0x173]); (0x174, [0x175]);
  (0x176, [0x177]); (0x178, [0xFF]); (0x179, [0x17A]); (0x17B, [0x17C]); (0x17D, [0x17E]);
  (0x181, [0x253]); (0x182, [0x183]); (0x184, [0x185]); (0x186, [0x254]); (0x187, [0x188]);
  (0x189, [0x256]); (0x18A, [0x257]); (0x18B, [0x18C]); (0x18E, [0x1DD]); (0x18F, [0x259]);
  (0x190, [0x25B]); (0x191, [0x192]); (0x193, [0x260]); (0x194, [0x263]); (0x196, [0x269]);
  (0x197, [0x268]); (0x198, [0x199]); (0x19C, [0x26F]); (0x19D, [0x272]); (0x19F, [0x275]);
  (0x1A0, [0x1A1]); (0x1A2, [0x1A3]); (0x1A4, [0x1A5]); (0x1A6, [0x280]); (0x1A7, [0x1A8]);
  (0x1A9, [0x283]); (0x1AC, [0x1AD]); (0x1AE, [0x288]); (0x1AF, [0x1B0]); (0x1B1, [0x28A]);
  (0x1B2, [0x28B]); (0x1B3, [0x1B4]); (0x1B5, [0x1B6]); (0x1B7, [0x292]); (0x1B8, [0x1B9]);
  (0x1BC, [0x1BD]); (0x1C4, [0x1C6]); (0x1C5, [0x1C6]); (0x1C7, [0x1C9]); (0x1C8, [0x1C9]);
  (0x1CA, [0x1CC]); (0x1CB, [0x1CC]); (0x1CD, [0x1CE]); (0x1CF, [0x1D0]); (0x1D1, [0x1D2]);
  (0x1D3, [0x1D4]); (0x1D5, [0x1D6]); (0x1D7, [0x1D8]); (0x1D9, [0x1DA]); (0x1DB, [0x1DC]);
  (0x1DE, [0x1DF]); (0x1E0, [0x1E1]); (0x1E2, [0x1E3]); (0x1E4, [0x1E5]); (0x1E6, [0x1E7]);
  (0x1E8, [0x1E9]); (0x1EA, [0x1EB]); (0x1EC, [0x1ED]); (0x1EE, [0x1EF]); (0x1F1, [0x1F3]);
  (0x1F2, [0x1F3]); (0x1F4, [0x1F5]); (0x1F6, [0x195]); (0x1F7, [0x1BF]); (0x1F8, [0x1F9]);
  (0x1FA, [0x1FB]); (0x1FC, [0x1FD]); (0x1FE, [0x1FF]); (0x200, [0x201]); (0x202, [0x203]);
  (0x204, [0x205]); (0x206, [0x207]); (0x208, [0x209]); (0x20A, [0x20B]); (0x20C, [0x20D]);
  (0x20E, [0x20F]); (0x210, [0x211]); (0x212, [0x213]); (0x214, [0x215]); (0x216, [0x217]);
  (0x218, [0x219]); (0x21A, [0x21B]); (0x21C, [0x21D]); (0x21E, [0x21F]); (0x220, [0x19E]);
  (0x222, [0x223]); (0x224, [0x225]); (0x226, [0x227]); (0x228, [0x229]); (0x22A, [0x22B]);
  (0x22C, [0x22D]); (0x22E, [0x22F]); (0x230, [0x231]); (0x232, [0x233]); (0x23A, [0x2C65]);
  (0x23B, [0x23C]); (0x23D, [0x19A]); (0x23E, [0x2C66]); (0x241, [0x242]); (0x243, [0x180]);
  (0x244, [0x289]); (0x245, [0x28C]); (0x246, [0x247]); (0x248, [0x249]); (0x24A, [0x24B]);
  (0x24C, [0x24D]); (0x24E, [0x24F]); (0x370, [0x371]); (0x372, [0x373]); (0x376, [0x377]);
  (0x37F, [0x3F3]); (0x386, [0x3AC]); (0x388, [0x3AD]); (0x389, [0x3AE]); (0x38A, [0x3AF]);
  (0x38C, [0x3CC]); (0x38E, [0x3CD]); (0x38F, [0x3CE]); (0x391, [0x3B1]); (0x392, [0x3B2]);
  (0x393, [0x3B3]); (0x394, [0x3B4]); (0x395, [0x3B5]); (0x396, [0x3B6]); (0x397, [0x3B7]);
  (0x398, [0x3B8]); (0x399, [0x3B9]); (0x39A, [0x3BA]); (0x39B, [0x3BB]); (0x39C, [0x3BC]);
  (0x39D, [0x3BD]); (0x39E, [0x3BE]); (0x39F, [0x3BF]); (0x3A0, [0x3C0]); (0x3A1, [0x3C1]);
  (0x3A3, [0x3C3]); (0x3A4, [0x3C4]); (0x3A5, [0x3C5]); (0x3A6, [0x3C6]); (0x3A7, [0x3C7]);
  (0x3A8, [0x3C8]); (0x3A9, [0x3C9]); (0x3AA, [0x3CA]); (0x3AB, [0x3CB]); (0x3CF, [0x3D7]);
  (0x3D8, [0x3D9]); (0x3DA, [0x3DB]); (0x3DC, [0x3DD]); (0x3DE, [0x3DF]); (0x3E0, [0x3E1]);
  (0x3E2, [0x3E3]); (0x3E4, [0x3E5]); (0x3E6, [0x3E7]); (0x3E8, [0x3E9]); (0x3EA, [0x3EB]);
  (0x3EC, [0x3ED]); (0x3EE, [0x3EF]); (0x3F4, [0x3B8]); (0x3F7, [0x3F8]); (0x3F9, [0x3F2]);
  (0x3FA, [0x3FB]); (0x3FD, [0x37B]); (0x3FE, [0x37C]); (0x3FF, [0x37D]); (0x400, [0x450]);
  (0x401, [0x451]); (0x402, [0x452]); (0x403, [0x453]); (0x404, [0x454]); (0x405, [0x455]);
  (0x406, [0x456]); (0x407, [0x457]); (0x408, [0x458]); (0x409, [0x459]); (0x40A, [0x45A]);
  (0x40B, [0x45B]); (0x40C, [0x45C]); (0x40D, [0x45D]); (0x40E, [0x45E]); (0x40F, [0x45F]);
  (0x410, [0x430]); (0x411, [0x431]); (0x412, [0x432]); (0x413, [0x433]); (0x414, [0x434]);
  (0x415, [0x435]); (0x416, [0x436]); (0x417, [0x437]); (0x418, [0x438]); (0x419, [0x439]);
  (0x41A, [0x43A]); (0x41B, [0x43B]); (0x41C, [0x43C]); (0x41D, [0x43D]); (0x41E, [0x43E]);
  (0x41F, [0x43F]); (0x420, [0x440]); (0x421, [0x441]); (0x422, [0x442]); (0x423, [0x443]);
  (0x424, [0x444]); (0x425, [0x445]); (0x426, [0x446]); (0x427, [0x447]); (0x428, [0x448]);
  (0x429, [0x449]); (0x42A, [0x44A]); (0x42B, [0x44B]); (0x42C, [0x44C]); (0x42D, [0x44D]);
  (0x42E, [0x44E]); (0x42F, [0x44F]); (0x460, [0x461]); (0x462, [0x463]); (0x464, [0x465]);
  (0x466, [0x467]); (0x468, [0x469]); (0x46A, [0x46B]); (0x46C, [0x46D]); (0x46E, [0x46F]);
  (0x470, [0x471]); (0x472, [0x473]); (0x474, [0x475]); (0x476, [0x477]); (0x478, [0x479]);
  (0x47A, [0x47B]); (0x47C, [0x47D]); (0x47E, [0x47F]); (0x480, [0x481]); (0x48A, [0x48B]);
  (0x48C, [0x48D]); (0x48E, [0x48F]); (0x490, [0x491]); (0x492, [0x493]); (0x494, [0x495]);
  (0x496, [0x497]); (0x498, [0x499]); (0x49A, [0x49B]); (0x49C, [0x49D]); (0x49E, [0x49F]);
  (0x4A0, [0x4A1]); (0x4A2, [0x4A3]); (0x4A4, [0x4A5]); (0x4A6, [0x4A7]); (0x4A8, [0x4A9]);
  (0x4AA, [0x4AB]); (0x4AC, [0x4AD]); (0x4AE, [0x4AF]); (0x4B0, [0x4B1]); (0x4B2, [0x4B3]);
  (0x4B4, [0x4B5]); (0x4B6, [0x4B7]); (0x4B8, [0x4B9]); (0x4BA, [0x4BB]); (0x4BC, [0x4BD]);
  (0x4BE, [0x4BF]); (0x4C0, [0x4CF]); (0x4C1, [0x4C2]); (0x4C3, [0x4C4]); (0x4C5, [0x4C6]);
  (0x4C7, [0x4C8]); (0x4C9, [0x4CA]); (0x4CB, [0x4CC]); (0x4CD, [0x4CE]); (0x4D0, [0x4D1]);
  (0x4D2, [0x4D3]); (0x4D4, [0x4D5]); (0x4D6, [0x4D7]); (0x4D8, [0x4D9]); (0x4DA, [0x4DB]);
  (0x4DC, [0x4DD]); (0x4DE, [0x4DF]); (0x4E0, [0x4E1]); (0x4E2, [0x4E3]); (0x4E4, [0x4E5]);
  (0x4E6, [0x4E7]); (0x4E8, [0x4E9]); (0x4EA, [0x4EB]); (0x4EC, [0x4ED]); (0x4EE, [0x4EF]);
  (0x4F0, [0x4F1]); (0x4F2, [0x4F3]); (0x4F4, [0x4F5]); (0x4F6, [0x4F7]); (0x4F8, [0x4F9]);
  (0x4FA, [0x4FB]); (0x4FC, [0x4FD]); (0x4FE, [0x4FF]); (0x500, [0x501]); (0x502, [0x503]);
  (0x504, [0x505]); (0x506, [0x507]); (0x508, [0x509]); (0x50A, [0x50B]); (0x50C, [0x50D]);
  (0x50E, [0x50F]); (0x510, [0x511]); (0x512, [0x513]); (0x514, [0x515]); (0x516, [0x517]);
  (0x518, [0x519]); (0x51A, [0x51B]); (0x51C, [0x51D]); (0x51E, [0x51F]); (0x520, [0x521]);
  (0x522, [0x523]); (0x524, [0x525]); (0x526, [0x527]); (0x528, [0x529]); (0x52A, [0x52B]);
  (0x52C, [0x52D]); (0x52E, [0x52F]); (0x531, [0x561]); (0x532, [0x562]); (0x533, [0x563]);
  (0x534, [0x564]); (0x535, [0x565]); (0x536, [0x566]); (0x537, [0x567]); (0x538, [0x568]);
  (0x539, [0x569]); (0x53A, [0x56A]); (0x53B, [0x56B]); (0x53C, [0x56C]); (0x53D, [0x56D]);
  (0x53E, [0x56E]); (0x53F, [0x56F]); (0x540, [0x570]); (0x541, [0x571]); (0x542, [0x572]);
  (0x543, [0x573]); (0x544, [0x574]); (0x545, [0x575]); (0x546, [0x576]); (0x547, [0x577]);
  (0x548, [0x578]); (0x549, [0x579]); (0x54A, [0x57A]); (0x54B, [0x57B]); (0x54C, [0x57C]);
  (0x54D, [0x57D]); (0x54E, [0x57E]); (0x54F, [0x57F]); (0x550, [0x580]); (0x551, [0x581]);
  (0x552, [0x582]); (0x553, [0x583]); (0x554, [0x584]); (0x555, [0x585]); (0x556, [0x586]);
  (0x10A0, [0x2D00]); (0x10A1, [0x2D01]); (0x10A2, [0x2D02]); (0x10A3, [0x2D03]);
  (0x10A4, [0x2D04]); (0x10A5, [0x2D05]); (0x10A6, [0x2D06]); (0x10A7, [0x2D07]);
  (0x10A8, [0x2D08]); (0x10A9, [0x2D09]); (0x10AA, [0x2D0A]); (0x10AB, [0x2D0B]);
  (0x10AC, [0x2D0C]); (0x10AD, [0x2D0D]); (0x10AE, [0x2D0E]); (0x10AF, [0x2D0F]);
  (0x10B0, [0x2D10]); (0x10B1, [0x2D11]); (0x10B2, [0x2D12]); (0x10B3, [0x2D13]);
  (0x10B4, [0x2D14]); (0x10B5, [0x2D15]); (0x10B6, [0x2D16]); (0x10B7, [0x2D17]);
  (0x10B8, [0x2D18]); (0x10B9, [0x2D19]); (0x10BA, [0x2D1A]); (0x10BB, [0x2D1B]);
  (0x10BC, [0x2D1C]); (0x10BD, [0x2D1D]); (0x10BE, [0x2D1E]); (0x10BF, [0x2D1F]);
  (0x10C0, [0x2D20]); (0x10C1, [0x2D21]); (0x10C2, [0x2D22]); (0x10C3, [0x2D23]);
  (0x10C4, [0x2D24]); (0x10C5, [0x2D25]); (0x10C7, [0x2D27]); (0x10CD, [0x2D2D]);
  (0x13A0, [0xAB70]); (0x13A1, [0xAB71]); (0x13A2, [0xAB72]); (0x13A3, [0xAB73]);
  (0x13A4, [0xAB74]); (0x13A5, [0xAB75]); (0x13A6, [0xAB76]); (0x13A7, [0xAB77]);
  (0x13A8, [0xAB78]); (0x13A9, [0xAB79]); (0x13AA, [0xAB7A]); (0x13AB, [0xAB7B]);
  (0x13AC, [0xAB7C]); (0x13AD, [0xAB7D]); (0x13AE, [0xAB7E]); (0x13AF, [0xAB7F]);
  (0x13B0, [0xAB80]); (0x13B1, [0xAB81]); (0x13B2, [0xAB82]); (0x13B3, [0xAB83]);
  (0x13B4, [0xAB84]); (0x13B5, [0xAB85]); (0x13B6, [0xAB86]); (0x13B7, [0xAB87]);
  (0x13B8, [0xAB88]); (0x13B9, [0xAB89]); (0x13BA, [0xAB8A]); (0x13BB, [0xAB8B]);
  (0x13BC, [0xAB8C]); (0x13BD, [0xAB8D]); (0x13BE, [0xAB8E]); (0x13BF, [0xAB8F]);
  (0x13C0, [0xAB90]); (0x13C1, [0xAB91]); (0x13C2, [0xAB92]); (0x13C3, [0xAB93]);
  (0x13C4, [0xAB94]); (0x13C5, [0xAB95]); (0x13C6, [0xAB96]); (0x13C7, [0xAB97]);
  (0x13C8, [0xAB98]); (0x13C9, [0xAB99]); (0x13CA, [0xAB9A]); (0x13CB, [0xAB9B]);
  (0x13CC, [0xAB9C]); (0x13CD, [0xAB9D]); (0x13CE, [0xAB9E]); (0x13CF, [0xAB9F]);
  (0x13D0, [0xABA0]); (0x13D1, [0xABA1]); (0x13D2, [0xABA2]); (0x13D3, [0xABA3]);
  (0x13D4, [0xABA4]); (0x13D5, [0xABA5]); (0x13D6, [0xABA6]); (0x13D7, [0xABA7]);
  (0x13D8, [0xABA8]); (0x13D9, [0xABA9]); (0x13DA, [0xABAA]); (0x13DB, [0xABAB]);
  (0x13DC, [0xABAC]); (0x13DD, [0xABAD]); (0x13DE, [0xABAE]); (0x13DF, [0xABAF]);
  (0x13E0, [0xABB0]); (0x13E1, [0xABB1]); (0x13E2, [0xABB2]); (0x13E3, [0xABB3]);
  (0x13E4, [0xABB4]); (0x13E5, [0xABB5]); (0x13E6, [0xABB6]); (0x13E7, [0xABB7]);
  (0x13E8, [0xABB8]); (0x13E9, [0xABB9]); (0x13EA, [0xABBA]); (0x13EB, [0xABBB]);
  (0x13EC, [0xABBC]); (0x13ED, [0xABBD]); (0x13EE, [0xABBE]); (0x13EF, [0xABBF]);
  (0x13F0, [0x13F8]); (0x13F1, [0x13F9]); (0x13F2, [0x13FA]); (0x13F3, [0x13FB]);
  (0x13F4, [0x13FC]); (0x13F5, [0x13FD]); (0x1C90, [0x10D0]); (0x1C91, [0x10D1]);
  (0x1C92, [0x10D2]); (0x1C93, [0x10D3]); (0x1C94, [0x10D4]); (0x1C95, [0x10D5]);
  (0x1C96, [0x10D6]); (0x1C97, [0x10D7]); (0x1C98, [0x10D8]); (0x1C99, [0x10D9]);
  (0x1C9A, [0x10DA]); (0x1C9B, [0x10DB]); (0x1C9C, [0x10DC]); (0x1C9D, [0x10DD]);
  (0x1C9E, [0x10DE]); (0x1C9F, [0x10DF]); (0x1CA0, [0x10E0]); (0x1CA1, [0x10E1]);
  (0x1CA2, [0x10E2]); (0x1CA3, [0x10E3]); (0x1CA4, [0x10E4]); (0x1CA5, [0x10E5]);
  (0x1CA6, [0x10E6]); (0x1CA7, [0x10E7]); (0x1CA8, [0x10E8]); (0x1CA9, [0x10E9]);
  (0x1CAA, [0x10EA]); (0x1CAB, [0x10EB]); (0x1CAC, [0x10EC]); (0x1CAD, [0x10ED]);
  (0x1CAE, [0x10EE]); (0x1CAF, [0x10EF]); (0x1CB0, [0x10F0]); (0x1CB1, [0x10F1]);
  (0x1CB2, [0x10F2]); (0x1CB3, [0x10F3]); (0x1CB4, [0x10F4]); (0x1CB5, [0x10F5]);
  (0x1CB6, [0x10F6]); (0x1CB7, [0x10F7]); (0x1CB8, [0x10F8]); (0x1CB9, [0x10F9]);
  (0x1CBA, [0x10FA]); (0x1CBD, [0x10FD]); (0x1CBE, [0x10FE]); (0x1CBF, [0x10FF]);
  (0x1E00, [0x1E01]); (0x1E02, [0x1E03]); (0x1E04, [0x1E05]); (0x1E06, [0x1E07]);
  (0x1E08, [0x1E09]); (0x1E0A, [0x1E0B]); (0x1E0C, [0x1E0D]); (0x1E0E, [0x1E0F]);
  (0x1E10, [0x1E11]); (0x1E12, [0x1E13]); (0x1E14, [0x1E15]); (0x1E16, [0x1E17]);
  (0x1E18, [0x1E19]); (0x1E1A, [0x1E1B]); (0x1E1C, [0x1E1D]); (0x1E1E, [0x1E1F]);
  (0x1E20, [0x1E21]); (0x1E22, [0x1E23]); (0x1E24, [0x1E25]); (0x1E26, [0x1E27]);
  (0x1E28, [0x1E29]); (0x1E2A, [0x1E2B]); (0x1E2C, [0x1E2D]); (0x1E2E, [0x1E2F]);
  (0x1E30, [0x1E31]); (0x1E32, [0x1E33]); (0x1E34, [0x1E35]); (0x1E36, [0x1E37]);
  (0x1E38, [0x1E39]); (0x1E3A, [0x1E3B]); (0x1E3C, [0x1E3D]); (0x1E3E, [0x1E3F]);
  (0x1E40, [0x1E41]); (0x1E42, [0x1E43]); (0x1E44, [0x1E45]); (0x1E46, [0x1E47]);
  (0x1E48, [0x1E49]); (0x1E4A, [0x1E4B]); (0x1E4C, [0x1E4D]); (0x1E4E, [0x1E4F]);
  (0x1E50, [0x1E51]); (0x1E52, [0x1E53]); (0x1E54, [0x1E55]); (0x1E56, [0x1E57]);
  (0x1E58, [0x1E59]); (0x1E5A, [0x1E5B]); (0x1E5C, [0x1E5D]); (0x1E5E, [0x1E5F]);
  (0x1E60, [0x1E61]); (0x1E62, [0x1E63]); (0x1E64, [0x1E65]); (0x1E66, [0x1E67]);
  (0x1E68, [0x1E69]); (0x1E6A, [0x1E6B]); (0x1E6C, [0x1E6D]); (0x1E6E, [0x1E6F]);
  (0x1E70, [0x1E71]); (0x1E72, [0x1E73]); (0x1E74, [0x1E75]); (0x1E76, [0x1E77]);
  (0x1E78, [0x1E79]); (0x1E7A, [0x1E7B]); (0x1E7C, [0x1E7D]); (0x1E7E, [0x1E7F]);
  (0x1E80, [0x1E81]); (0x1E82, [0x1E83]); (0x1E84, [0x1E85]); (0x1E86, [0x1E87]);
  (0x1E88, [0x1E89]); (0x1E8A, [0x1E8B]); (0x1E8C, [0x1E8D]); (0x1E8E, [0x1E8F]);
  (0x1E90, [0x1E91]); (0x1E92, [0x1E93]); (0x1E94, [0x1E95]); (0x1E9E, [0xDF]);
  (0x1EA0, [0x1EA1]); (0x1EA2, [0x1EA3]); (0x1EA4, [0x1EA5]); (0x1EA6, [0x1EA7]);
  (0x1EA8, [0x1EA9]); (0x1EAA, [0x1EAB]); (0x1EAC, [0x1EAD]); (0x1EAE, [0x1EAF]);
  (0x1EB0, [0x1EB1]); (0x1EB2, [0x1EB3]); (0x1EB4, [0x1EB5]); (0x1EB6, [0x1EB7]);
  (0x1EB8, [0x1EB9]); (0x1EBA, [0x1EBB]); (0x1EBC, [0x1EBD]); (0x1EBE, [0x1EBF]);
  (0x1EC0, [0x1EC1]); (0x1EC2, [0x1EC3]); (0x1EC4, [0x1EC5]); (0x1EC6, [0x1EC7]);
  (0x1EC8, [0x1EC9]); (0x1ECA, [0x1ECB]); (0x1ECC, [0x1ECD]); (0x1ECE, [0x1ECF]);
  (0x1ED0, [0x1ED1]); (0x1ED2, [0x1ED3]); (0x1ED4, [0x1ED5]); (0x1ED6, [0x1ED7]);
  (0x1ED8, [0x1ED9]); (0x1EDA, [0x1EDB]); (0x1EDC, [0x1EDD]); (0x1EDE, [0x1EDF]);
  (0x1EE0, [0x1EE1]); (0x1EE2, [0x1EE3]); (0x1EE4, [0x1EE5]); (0x1EE6, [0x1EE7]);
  (0x1EE8, [0x1EE9]); (0x1EEA, [0x1EEB]); (0x1EEC, [0x1EED]); (0x1EEE, [0x1EEF]);
  (0x1EF0, [0x1EF1]); (0x1EF2, [0x1EF3]); (0x1EF4, [0x1EF5]); (0x1EF6, [0x1EF7]);
  (0x1EF8, [0x1EF9]); (0x1EFA, [0x1EFB]); (0x1EFC, [0x1EFD]); (0x1EFE, [0x1EFF]);
  (0x1F08, [0x1F00]); (0x1F09, [0x1F01]); (0x1F0A, [0x1F02]); (0x1F0B, [0x1F03]);
  (0x1F0C, [0x1F04]); (0x1F0D, [0x1F05]); (0x1F0E, [0x1F06]); (0x1F0F, [0x1F07]);
  (0x1F18, [0x1F10]); (0x1F19, [0x1F11]); (0x1F1A, [0x1F12]); (0x1F1B, [0x1F13]);
  (0x1F1C, [0x1F14]); (0x1F1D, [0x1F15]); (0x1F28, [0x1F20]); (0x1F29, [0x1F21]);
  (0x1F2A, [0x1F22]); (0x1F2B, [0x1F23]); (0x1F2C, [0x1F24]); (0x1F2D, [0x1F25]);
  (0x1F2E, [0x1F26]); (0x1F2F, [0x1F27]); (0x1F38, [0x1F30]); (0x1F39, [0x1F31]);
  (0x1F3A, [0x1F32]); (0x1F3B, [0x1F33]); (0x1F3C, [0x1F34]); (0x1F3D, [0x1F35]);
  (0x1F3E, [0x1F36]); (0x1F3F, [0x1F37]); (0x1F48, [0x1F40]); (0x1F49, [0x1F41]);
  (0x1F4A, [0x1F42]); (0x1F4B, [0x1F43]); (0x1F4C, [0x1F44]); (0x1F4D, [0x1F45]);
  (0x1F59, [0x1F51]); (0x1F5B, [0x1F53]); (0x1F5D, [0x1F55]); (0x1F5F, [0x1F57]);
  (0x1F68, [0x1F60]); (0x1F69, [0x1F61]); (0x1F6A, [0x1F62]); (0x1F6B, [0x1F63]);
  (0x1F6C, [0x1F64]); (0x1F6D, [0x1F65]); (0x1F6E, [0x1F66]); (0x1F6F, [0x1F67]);
  (0x1F88, [0x1F80]); (0x1F89, [0x1F81]); (0x1F8A, [0x1F82]); (0x1F8B, [0x1F83]);
  (0x1F8C, [0x1F84]); (0x1F8D, [0x1F85]); (0x1F8E, [0x1F86]); (0x1F8F, [0x1F87]);
  (0x1F98, [0x1F90]); (0x1F99, [0x1F91]); (0x1F9A, [0x1F92]); (0x1F9B, [0x1F93]);
  (0x1F9C, [0x1F94]); (0x1F9D, [0x1F95]); (0x1F9E, [0x1F96]); (0x1F9F, [0x1F97]);
  (0x1FA8, [0x1FA0]); (0x1FA9, [0x1FA1]); (0x1FAA, [0x1FA2]); (0x1FAB, [0x1FA3]);
  (0x1FAC, [0x1FA4]); (0x1FAD, [0x1FA5]); (0x1FAE, [0x1FA6]); (0x1FAF, [0x1FA7]);
  (0x1FB8, [0x1FB0]); (0x1FB9, [0x1FB1]); (0x1FBA, [0x1F70]); (0x1FBB, [0x1F71]);
  (0x1FBC, [0x1FB3]); (0x1FC8, [0x1F72]); (0x1FC9, [0x1F73]); (0x1FCA, [0x1F74]);
  (0x1FCB, [0x1F75]); (0x1FCC, [0x1FC3]); (0x1FD8, [0x1FD0]); (0x1FD9, [0x1FD1]);
  (0x1FDA, [0x1F76]); (0x1FDB, [0x1F77]); (0x1FE8, [0x1FE0]); (0x1FE9, [0x1FE1]);
  (0x1FEA, [0x1F7A]); (0x1FEB, [0x1F7B]); (0x1FEC, [0x1FE5]); (0x1FF8, [0x1F78]);
  (0x1FF9, [0x1F79]); (0x1FFA, [0x1F7C]); (0x1FFB, [0x1F7D]); (0x1FFC, [0x1FF3]);
  (0x2126, [0x3C9]); (0x212A, [0x6B]); (0x212B, [0xE5]); (0x2132, [0x214E]); (0x2160, [0x2170]);
  (0x2161, [0x2171]); (0x2162, [0x2172]); (0x2163, [0x2173]); (0x2164, [0x2174]);
  (0x2165, [0x2175]); (0x2166, [0x2176]); (0x2167, [0x2177]); (0x2168, [0x2178]);
  (0x2169, [0x2179]); (0x216A, [0x217A]); (0x216B, [0x217B]); (0x216C, [0x217C]);
  (0x216D, [0x217D]); (0x216E, [0x217E]); (0x216F, [0x217F]); (0x2183, [0x2184]);
  (0x24B6, [0x24D0]); (0x24B7, [0x24D1]); (0x24B8, [0x24D2]); (0x24B9, [0x24D3]);
  (0x24BA, [0x24D4]); (0x24BB, [0x24D5]); (0x24BC, [0x24D6]); (0x24BD, [0x24D7]);
  (0x24BE, [0x24D8]); (0x24BF, [0x24D9]); (0x24C0, [0x24DA]); (0x24C1, [0x24DB]);
  (0x24C2, [0x24DC]); (0x24C3, [0x24DD]); (0x24C4, [0x24DE]); (0x24C5, [0x24DF]);
  (0x24C6, [0x24E0]); (0x24C7, [0x24E1]); (0x24C8, [0x24E2]); (0x24C9, [0x24E3]);
  (0x24CA, [0x24E4]); (0x24CB, [0x24E5]); (0x24CC, [0x24E6]); (0x24CD, [0x24E7]);
  (0x24CE, [0x24E8]); (0x24CF, [0x24E9]); (0x2C00, [0x2C30]); (0x2C01, [0x2C31]);
  (0x2C02, [0x2C32]); (0x2C03, [0x2C33]); (0x2C04, [0x2C34]); (0x2C05, [0x2C35]);
  (0x2C06, [0x2C36]); (0x2C07, [0x2C37]); (0x2C08, [0x2C38]); (0x2C09, [0x2C39]);
  (0x2C0A, [0x2C3A]); (0x2C0B, [0x2C3B]); (0x2C0C, [0x2C3C]); (0x2C0D, [0x2C3D]);
  (0x2C0E, [0x2C3E]); (0x2C0F, [0x2C3F]); (0x2C10, [0x2C40]); (0x2C11, [0x2C41]);
  (0x2C12, [0x2C42]); (0x2C13, [0x2C43]); (0x2C14, [0x2C44]); (0x2C15, [0x2C45]);
  (0x2C16, [0x2C46]); (0x2C17, [0x2C47]); (0x2C18, [0x2C48]); (0x2C19, [0x2C49]);
  (0x2C1A, [0x2C4A]); (0x2C1B, [0x2C4B]); (0x2C1C, [0x2C4C]); (0x2C1D, [0x2C4D]);
  (0x2C1E, [0x2C4E]); (0x2C1F, [0x2C4F]); (0x2C20, [0x2C50]); (0x2C21, [0x2C51]);
  (0x2C22, [0x2C52]); (0x2C23, [0x2C53]); (0x2C24, [0x2C54]); (0x2C25, [0x2C55]);
  (0x2C26, [0x2C56]); (0x2C27, [0x2C57]); (0x2C28, [0x2C58]); (0x2C29, [0x2C59]);
  (0x2C2A, [0x2C5A]); (0x2C2B, [0x2C5B]); (0x2C2C, [0x2C5C]); (0x2C2D, [0x2C5D]);
  (0x2C2E, [0x2C5E]); (0x2C2F, [0x2C5F]); (0x2C60, [0x2C61]); (0x2C62, [0x26B]);
  (0x2C63, [0x1D7D]); (0x2C64, [0x27D]); (0x2C67, [0x2C68]); (0x2C69, [0x2C6A]);
  (0x2C6B, [0x2C6C]); (0x2C6D, [0x251]); (0x2C6E, [0x271]); (0x2C6F, [0x250]); (0x2C70, [0x252]);
  (0x2C72, [0x2C73]); (0x2C75, [0x2C76]); (0x2C7E, [0x23F]); (0x2C7F, [0x240]);
  (0x2C80, [0x2C81]); (0x2C82, [0x2C83]); (0x2C84, [0x2C85]); (0x2C86, [0x2C87]);
  (0x2C88, [0x2C89]); (0x2C8A, [0x2C8B]); (0x2C8C, [0x2C8D]); (0x2C8E, [0x2C8F]);
  (0x2C90, [0x2C91]); (0x2C92, [0x2C93]); (0x2C94, [0x2C95]); (0x2C96, [0x2C97]);
  (0x2C98, [0x2C99]); (0x2C9A, [0x2C9B]); (0x2C9C, [0x2C9D]); (0x2C9E, [0x2C9F]);
  (0x2CA0, [0x2CA1]); (0x2CA2, [0x2CA3]); (0x2CA4, [0x2CA5]); (0x2CA6, [0x2CA7]);
  (0x2CA8, [0x2CA9]); (0x2CAA, [0x2CAB]); (0x2CAC, [0x2CAD]); (0x2CAE, [0x2CAF]);
  (0x2CB0, [0x2CB1]); (0x2CB2, [0x2CB3]); (0x2CB4, [0x2CB5]); (0x2CB6, [0x2CB7]);
  (0x2CB8, [0x2CB9]); (0x2CBA, [0x2CBB]); (0x2CBC, [0x2CBD]); (0x2CBE, [0x2CBF]);
  (0x2CC0, [0x2CC1]); (0x2CC2, [0x2CC3]); (0x2CC4, [0x2CC5]); (0x2CC6, [0x2CC7]);
  (0x2CC8, [0x2CC9]); (0x2CCA, [0x2CCB]); (0x2CCC, [0x2CCD]); (0x2CCE, [0x2CCF]);
  (0x2CD0, [0x2CD1]); (0x2CD2, [0x2CD3]); (0x2CD4, [0x2CD5]); (0x2CD6, [0x2CD7]);
  (0x2CD8, [0x2CD9]); (0x2CDA, [0x2CDB]); (0x2CDC, [0x2CDD]); (0x2CDE, [0x2CDF]);
  (0x2CE0, [0x2CE1]); (0x2CE2, [0x2CE3]); (0x2CEB, [0x2CEC]); (0x2CED, [0x2CEE]);
  (0x2CF2, [0x2CF3]); (0xA640, [0xA641]); (0xA642, [0xA643]); (0xA644, [0xA645]);
  (0xA646, [0xA647]); (0xA648, [0xA649]); (0xA64A, [0xA64B]); (0xA64C, [0xA64D]);
  (0xA64E, [0xA64F]); (0xA650, [0xA651]); (0xA652, [0xA653]); (0xA654, [0xA655]);
  (0xA656, [0xA657]); (0xA658, [0xA659]); (0xA65A, [0xA65B]); (0xA65C, [0xA65D]);
  (0xA65E, [0xA65F]); (0xA660, [0xA661]); (0xA662, [0xA663]); (0xA664, [0xA665]);
  (0xA666, [0xA667]); (0xA668, [0xA669]); (0xA66A, [0xA66B]); (0xA66C, [0xA66D]);
  (0xA680, [0xA681]); (0xA682, [0xA683]); (0xA684, [0xA685]); (0xA686, [0xA687]);
  (0xA688, [0xA689]); (0xA68A, [0xA68B]); (0xA68C, [0xA68D]); (0xA68E, [0xA68F]);
  (0xA690, [0xA691]); (0xA692, [0xA693]); (0xA694, [0xA695]); (0xA696, [0xA697]);
  (0xA698, [0xA699]); (0xA69A, [0xA69B]); (0xA722, [0xA723]); (0xA724, [0xA725]);
  (0xA726, [0xA727]); (0xA728, [0xA729]); (0xA72A, [0xA72B]); (0xA72C, [0xA72D]);
  (0xA72E, [0xA72F]); (0xA732, [0xA733]); (0xA734, [0xA735]); (0xA736, [0xA737]);
  (0xA738, [0xA739]); (0xA73A, [0xA73B]); (0xA73C, [0xA73D]); (0xA73E, [0xA73F]);
  (0xA740, [0xA741]); (0xA742, [0xA743]); (0xA744, [0xA745]); (0xA746, [0xA747]);
  (0xA748, [0xA749]); (0xA74A, [0xA74B]); (0xA74C, [0xA74D]); (0xA74E, [0xA74F]);
  (0xA750, [0xA751]); (0xA752, [0xA753]); (0xA754, [0xA755]); (0xA756, [0xA757]);
  (0xA758, [0xA759]); (0xA75A, [0xA75B]); (0xA75C, [0xA75D]); (0xA75E, [0xA75F]);
  (0xA760, [0xA761]); (0xA762, [0xA763]); (0xA764, [0xA765]); (0xA766, [0xA767]);
  (0xA768, [0xA769]); (0xA76A, [0xA76B]); (0xA76C, [0xA76D]); (0xA76E, [0xA76F]);
  (0xA779, [0xA77A]); (0xA77B, [0xA77C]); (0xA77D, [0x1D79]); (0xA77E, [0xA77F]);
  (0xA780, [0xA781]); (0xA782, [0xA783]); (0xA784, [0xA785]); (0xA786, [0xA787]);
  (0xA78B, [0xA78C]); (0xA78D, [0x265]); (0xA790, [0xA791]); (0xA792, [0xA793]);
  (0xA796, [0xA797]); (0xA798, [0xA799]); (0xA79A, [0xA79B]); (0xA79C, [0xA79D]);
  (0xA79E, [0xA79F]); (0xA7A0, [0xA7A1]); (0xA7A2, [0xA7A3]); (0xA7A4, [0xA7A5]);
  (0xA7A6, [0xA7A7]); (0xA7A8, [0xA7A9]); (0xA7AA, [0x266]); (0xA7AB, [0x25C]);
  (0xA7AC, [0x261]); (0xA7AD, [0x26C]); (0xA7AE, [0x26A]); (0xA7B0, [0x29E]); (0xA7B1, [0x287]);
  (0xA7B2, [0x29D]); (0xA7B3, [0xAB53]); (0xA7B4, [0xA7B5]); (0xA7B6, [0xA7B7]);
  (0xA7B8, [0xA7B9]); (0xA7BA, [0xA7BB]); (0xA7BC, [0xA7BD]); (0xA7BE, [0xA7BF]);
  (0xA7C0, [0xA7C1]); (0xA7C2, [0xA7C3]); (0xA7C4, [0xA794]); (0xA7C5, [0x282]);
  (0xA7C6, [0x1D8E]); (0xA7C7, [0xA7C8]); (0xA7C9, [0xA7CA]); (0xA7D0, [0xA7D1]);
  (0xA7D6, [0xA7D7]); (0xA7D8, [0xA7D9]); (0xA7F5, [0xA7F6]); (0xFF21, [0xFF41]);
  (0xFF22, [0xFF42]); (0xFF23, [0xFF43]); (0xFF24, [0xFF44]); (0xFF25, [0xFF45]);
  (0xFF26, [0xFF46]); (0xFF27, [0xFF47]); (0xFF28, [0xFF48]); (0xFF29, [0xFF49]);
  (0xFF2A, [0xFF4A]); (0xFF2B, [0xFF4B]); (0xFF2C, [0xFF4C]); (0xFF2D, [0xFF4D]);
  (0xFF2E, [0xFF4E]); (0xFF2F, [0xFF4F]); (0xFF30, [0xFF50]); (0xFF31, [0xFF51]);
  (0xFF32, [0xFF52]); (0xFF33, [0xFF53]); (0xFF34, [0xFF54]); (0xFF35, [0xFF55]);
  (0xFF36, [0xFF56]); (0xFF37, [0xFF57]); (0xFF38, [0xFF58]); (0xFF39, [0xFF59]);
  (0xFF3A, [0xFF5A]); (0x10400, [0x10428]); (0x10401, [0x10429]); (0x10402, [0x1042A]);
  (0x10403, [0x1042B]); (0x10404, [0x1042C]); (0x10405, [0x1042D]); (0x10406, [0x1042E]);
  (0x10407, [0x1042F]); (0x10408, [0x10430]); (0x10409, [0x10431]); (0x1040A, [0x10432]);
  (0x1040B, [0x10433]); (0x1040C, [0x10434]); (0x1040D, [0x10435]); (0x1040E, [0x10436]);
  (0x1040F, [0x10437]); (0x10410, [0x10438]); (0x10411, [0x10439]); (0x10412, [0x1043A]);
  (0x10413, [0x1043B]); (0x10414, [0x1043C]); (0x10415, [0x1043D]); (0x10416, [0x1043E]);
  (0x10417, [0x1043F]); (0x10418, [0x10440]); (0x10419, [0x10441]); (0x1041A, [0x10442]);
  (0x1041B, [0x10443]); (0x1041C, [0x10444]); (0x1041D, [0x10445]); (0x1041E, [0x10446]);
  (0x1041F, [0x10447]); (0x10420, [0x10448]); (0x10421, [0x10449]); (0x10422, [0x1044A]);
  (0x10423, [0x1044B]); (0x10424, [0x1044C]); (0x10425, [0x1044D]); (0x10426, [0x1044E]);
  (0x10427, [0x1044F]); (0x104B0, [0x104D8]); (0x104B1, [0x104D9]); (0x104B2, [0x104DA]);
  (0x104B3, [0x104DB]); (0x104B4, [0x104DC]); (0x104B5, [0x104DD]); (0x104B6, [0x104DE]);
  (0x104B7, [0x104DF]); (0x104B8, [0x104E0]); (0x104B9, [0x104E1]); (0x104BA, [0x104E2]);
  (0x104BB, [0x104E3]); (0x104BC, [0x104E4]); (0x104BD, [0x104E5]); (0x104BE, [0x104E6]);
  (0x104BF, [0x104E7]); (0x104C0, [0x104E8]); (0x104C1, [0x104E9]); (0x104C2, [0x104EA]);
  (0x104C3, [0x104EB]); (0x104C4, [0x104EC]); (0x104C5, [0x104ED]); (0x104C6, [0x104EE]);
  (0x104C7, [0x104EF]); (0x104C8, [0x104F0]); (0x104C9, [0x104F1]); (0x104CA, [0x104F2]);
  (0x104CB, [0x104F3]); (0x104CC, [0x104F4]); (0x104CD, [0x104F5]); (0x104CE, [0x104F6]);
  (0x104CF, [0x104F7]); (0x104D0, [0x104F8]); (0x104D1, [0x104F9]); (0x104D2, [0x104FA]);
  (0x104D3, [0x104FB]); (0x10570, [0x10597]); (0x10571, [0x10598]); (0x10572, [0x10599]);
  (0x10573, [0x1059A]); (0x10574, [0x1059B]); (0x10575, [0x1059C]); (0x10576, [0x1059D]);
  (0x10577, [0x1059E]); (0x10578, [0x1059F]); (0x10579, [0x105A0]); (0x1057A, [0x105A1]);
  (0x1057C, [0x105A3]); (0x1057D, [0x105A4]); (0x1057E, [0x105A5]); (0x1057F, [0x105A6]);
  (0x10580, [0x105A7]); (0x10581, [0x105A8]); (0x10582, [0x105A9]); (0x10583, [0x105AA]);
  (0x10584, [0x105AB]); (0x10585, [0x105AC]); (0x10586, [0x105AD]); (0x10587, [0x105AE]);
  (0x10588, [0x105AF]); (0x10589, [0x105B0]); (0x1058A, [0x105B1]); (0x1058C, [0x105B3]);
  (0x1058D, [0x105B4]); (0x1058E, [0x105B5]); (0x1058F, [0x105B6]); (0x10590, [0x105B7]);
  (0x10591, [0x105B8]); (0x10592, [0x105B9]); (0x10594, [0x105BB]); (0x10595, [0x105BC]);
  (0x10C80, [0x10CC0]); (0x10C81, [0x10CC1]); (0x10C82, [0x10CC2]); (0x10C83, [0x10CC3]);
  (0x10C84, [0x10CC4]); (0x10C85, [0x10CC5]); (0x10C86, [0x10CC6]); (0x10C87, [0x10CC7]);
  (0x10C88, [0x10CC8]); (0x10C89, [0x10CC9]); (0x10C8A, [0x10CCA]); (0x10C8B, [0x10CCB]);
  (0x10C8C, [0x10CCC]); (0x10C8D, [0x10CCD]); (0x10C8E, [0x10CCE]); (0x10C8F, [0x10CCF]);
  (0x10C90, [0x10CD0]); (0x10C91, [0x10CD1]); (0x10C92, [0x10CD2]); (0x10C93, [0x10CD3]);
  (0x10C94, [0x10CD4]); (0x10C95, [0x10CD5]); (0x10C96, [0x10CD6]); (0x10C97, [0x10CD7]);
  (0x10C98, [0x10CD8]); (0x10C99, [0x10CD9]); (0x10C9A, [0x10CDA]); (0x10C9B, [0x10CDB]);
  (0x10C9C, [0x10CDC]); (0x10C9D, [0x10CDD]); (0x10C9E, [0x10CDE]); (0x10C9F, [0x10CDF]);
  (0x10CA0, [0x10CE0]); (0x10CA1, [0x10CE1]); (0x10CA2, [0x10CE2]); (0x10CA3, [0x10CE3]);
  (0x10CA4, [0x10CE4]); (0x10CA5, [0x10CE5]); (0x10CA6, [0x10CE6]); (0x10CA7, [0x10CE7]);
  (0x10CA8, [0x10CE8]); (0x10CA9, [0x10CE9]); (0x10CAA, [0x10CEA]); (0x10CAB, [0x10CEB]);
  (0x10CAC, [0x10CEC]); (0x10CAD, [0x10CED]); (0x10CAE, [0x10CEE]); (0x10CAF, [0x10CEF]);
  (0x10CB0, [0x10CF0]); (0x10CB1, [0x10CF1]); (0x10CB2, [0x10CF2]); (0x118A0, [0x118C0]);
  (0x118A1, [0x118C1]); (0x118A2, [0x118C2]); (0x118A3, [0x118C3]); (0x118A4, [0x118C4]);
  (0x118A5, [0x118C5]); (0x118A6, [0x118C6]); (0x118A7, [0x118C7]); (0x118A8, [0x118C8]);
  (0x118A9, [0x118C9]); (0x118AA, [0x118CA]); (0x118AB, [0x118CB]); (0x118AC, [0x118CC]);
  (0x118AD, [0x118CD]); (0x118AE, [0x118CE]); (0x118AF, [0x118CF]); (0x118B0, [0x118D0]);
  (0x118B1, [0x118D1]); (0x118B2, [0x118D2]); (0x118B3, [0x118D3]); (0x118B4, [0x118D4]);
  (0x118B5, [0x118D5]); (0x118B6, [0x118D6]); (0x118B7, [0x118D7]); (0x118B8, [0x118D8]);
  (0x118B9, [0x118D9]); (0x118BA, [0x118DA]); (0x118BB, [0x118DB]); (0x118BC, [0x118DC]);
  (0x118BD, [0x118DD]); (0x118BE, [0x118DE]); (0x118BF, [0x118DF]); (0x16E40, [0x16E60]);
  (0x16E41, [0x16E61]); (0x16E42, [0x16E62]); (0x16E43, [0x16E63]); (0x16E44, [0x16E64]);
  (0x16E45, [0x16E65]); (0x16E46, [0x16E66]); (0x16E47, [0x16E67]); (0x16E48, [0x16E68]);
  (0x16E49, [0x16E69]); (0x16E4A, [0x16E6A]); (0x16E4B, [0x16E6B]); (0x16E4C, [0x16E6C]);
  (0x16E4D, [0x16E6D]); (0x16E4E, [0x16E6E]); (0x16E4F, [0x16E6F]); (0x16E50, [0x16E70]);
  (0x16E51, [0x16E71]); (0x16E52, [0x16E72]); (0x16E53, [0x16E73]); (0x16E54, [0x16E74]);
  (0x16E55, [0x16E75]); (0x16E56, [0x16E76]); (0x16E57, [0x16E77]); (0x16E58, [0x16E78]);
  (0x16E59, [0x16E79]); (0x16E5A, [0x16E7A]); (0x16E5B, [0x16E7B]); (0x16E5C, [0x16E7C]);
  (0x16E5D, [0x16E7D]); (0x16E5E, [0x16E7E]); (0x16E5F, [0x16E7F]); (0x1E900, [0x1E922]);
  (0x1E901, [0x1E923]); (0x1E902, [0x1E924]); (0x1E903, [0x1E925]); (0x1E904, [0x1E926]);
  (0x1E905, [0x1E927]); (0x1E906, [0x1E928]); (0x1E907, [0x1E929]); (0x1E908, [0x1E92A]);
  (0x1E909, [0x1E92B]); (0x1E90A, [0x1E92C]); (0x1E90B, [0x1E92D]); (0x1E90C, [0x1E92E]);
  (0x1E90D, [0x1E92F]); (0x1E90E, [0x1E930]); (0x1E90F, [0x1E931]); (0x1E910, [0x1E932]);
  (0x1E911, [0x1E933]); (0x1E912, [0x1E934]); (0x1E913, [0x1E935]); (0x1E914, [0x1E936]);
  (0x1E915, [0x1E937]); (0x1E916, [0x1E938]); (0x1E917, [0x1E939]); (0x1E918, [0x1E93A]);
  (0x1E919, [0x1E93B]); (0x1E91A, [0x1E93C]); (0x1E91B, [0x1E93D]); (0x1E91C, [0x1E93E]);
  (0x1E91D, [0x1E93F]); (0x1E91E, [0x1E940]); (0x1E91F, [0x1E941]); (0x1E920, [0x1E942]);
  (0x1E921, [0x1E943])
].

(** Derived property Cased. *)
Definition Cased_ranges : list (N * N) := [
  (0x41, 0x5A); (0x61, 0x7A); (0xAA, 0xAA); (0xB5, 0xB5); (0xBA, 0xBA); (0xC0, 0xD6);
  (0xD8, 0xF6); (0xF8, 0x1BA); (0x1BC, 0x1BF); (0x1C4, 0x293); (0x295, 0x2B8); (0x2C0, 0x2C1);
  (0x2E0, 0x2E4); (0x345, 0x345); (0x370, 0x373); (0x376, 0x377); (0x37A, 0x37D); (0x37F, 0x37F);
  (0x386, 0x386); (0x388, 0x38A); (0x38C, 0x38C); (0x38E, 0x3A1); (0x3A3, 0x3F5); (0x3F7, 0x481);
  (0x48A, 0x52F); (0x531, 0x556); (0x560, 0x588); (0x10A0, 0x10C5); (0x10C7, 0x10C7);
  (0x10CD, 0x10CD); (0x10D0, 0x10FA); (0x10FD, 0x10FF); (0x13A0, 0x13F5); (0x13F8, 0x13FD);
  (0x1C80, 0x1C88); (0x1C90, 0x1CBA); (0x1CBD, 0x1CBF); (0x1D00, 0x1DBF); (0x1E00, 0x1F15);
  (0x1F18, 0x1F1D); (0x1F20, 0x1F45); (0x1F48, 0x1F4D); (0x1F50, 0x1F57); (0x1F59, 0x1F59);
  (0x1F5B, 0x1F5B); (0x1F5D, 0x1F5D); (0x1F5F, 0x1F7D); (0x1F80, 0x1FB4); (0x1FB6, 0x1FBC);
  (0x1FBE, 0x1FBE); (0x1FC2, 0x1FC4); (0x1FC6, 0x1FCC); (0x1FD0, 0x1FD3); (0x1FD6, 0x1FDB);
  (0x1FE0, 0x1FEC); (0x1FF2, 0x1FF4); (0x1FF6, 0x1FFC); (0x2071, 0x2071); (0x207F, 0x207F);
  (0x2090, 0x209C); (0x2102, 0x2102); (0x2107, 0x2107); (0x210A, 0x2113); (0x2115, 0x2115);
  (0x2119, 0x211D); (0x2124, 0x2124); (0x2126, 0x2126); (0x2128, 0x2128); (0x212A, 0x212D);
  (0x212F, 0x2134); (0x2139, 0x2139); (0x213C, 0x213F); (0x2145, 0x2149); (0x214E, 0x214E);
  (0x2160, 0x217F); (0x2183, 0x2184); (0x24B6, 0x24E9); (0x2C00, 0x2CE4); (0x2CEB, 0x2CEE);
  (0x2CF2, 0x2CF3); (0x2D00, 0x2D25); (0x2D27, 0x2D27); (0x2D2D, 0x2D2D); (0xA640, 0xA66D);
  (0xA680, 0xA69D); (0xA722, 0xA787); (0xA78B, 0xA78E); (0xA790, 0xA7CA); (0xA7D0, 0xA7D1);
  (0xA7D3, 0xA7D3); (0xA7D5, 0xA7D9); (0xA7F5, 0xA7F6); (0xA7F8, 0xA7FA); (0xAB30, 0xAB5A);
  (0xAB5C, 0xAB68); (0xAB70, 0xABBF); (0xFB00, 0xFB06); (0xFB13, 0xFB17); (0xFF21, 0xFF3A);
  (0xFF41, 0xFF5A); (0x10400, 0x1044F); (0x104B0, 0x104D3); (0x104D8, 0x104FB);
  (0x10570, 0x1057A); (0x1057C, 0x1058A); (0x1058C, 0x10592); (0x10594, 0x10595);
  (0x10597, 0x105A1); (0x105A3, 0x105B1); (0x105B3, 0x105B9); (0x105BB, 0x105BC);
  (0x10780, 0x10780); (0x10783, 0x10785); (0x10787, 0x107B0); (0x107B2, 0x107BA);
  (0x10C80, 0x10CB2); (0x10CC0, 0x10CF2); (0x118A0, 0x118DF); (0x16E40, 0x16E7F);
  (0x1D400, 0x1D454); (0x1D456, 0x1D49C); (0x1D49E, 0x1D49F); (0x1D4A2, 0x1D4A2);
  (0x1D4A5, 0x1D4A6); (0x1D4A9, 0x1D4AC); (0x1D4AE, 0x1D4B9); (0x1D4BB, 0x1D4BB);
  (0x1D4BD, 0x1D4C3); (0x1D4C5, 0x1D505); (0x1D507, 0x1D50A); (0x1D50D, 0x1D514);
  (0x1D516, 0x1D51C); (0x1D51E, 0x1D539); (0x1D53B, 0x1D53E); (0x1D540, 0x1D544);
  (0x1D546, 0x1D546); (0x1D54A, 0x1D550); (0x1D552, 0x1D6A5); (0x1D6A8, 0x1D6C0);
  (0x1D6C2, 0x1D6DA); (0x1D6DC, 0x1D6FA); (0x1D6FC, 0x1D714); (0x1D716, 0x1D734);
  (0x1D736, 0x1D74E); (0x1D750, 0x1D76E); (0x1D770, 0x1D788); (0x1D78A, 0x1D7A8);
  (0x1D7AA, 0x1D7C2); (0x1D7C4, 0x1D7CB); (0x1DF00, 0x1DF09); (0x1DF0B, 0x1DF1E);
  (0x1E900, 0x1E943); (0x1F130, 0x1F149); (0x1F150, 0x1F169); (0x1F170, 0x1F189)
].

(** Derived property Case_Ignorable. *)
Definition Case_Ignorable_ranges : list (N * N) := [
  (0x27, 0x27); (0x2E, 0x2E); (0x3A, 0x3A); (0x5E, 0x5E); (0x60, 0x60); (0xA8, 0xA8);
  (0xAD, 0xAD); (0xAF, 0xAF); (0xB4, 0xB4); (0xB7, 0xB8); (0x2B0, 0x36F); (0x374, 0x375);
  (0x37A, 0x37A); (0x384, 0x385); (0x387, 0x387); (0x483, 0x489); (0x559, 0x559); (0x55F, 0x55F);
  (0x591, 0x5BD); (0x5BF, 0x5BF); (0x5C1, 0x5C2); (0x5C4, 0x5C5); (0x5C7, 0x5C7); (0x5F4, 0x5F4);
  (0x600, 0x605); (0x610, 0x61A); (0x61C, 0x61C); (0x640, 0x640); (0x64B, 0x65F); (0x670, 0x670);
  (0x6D6, 0x6DD); (0x6DF, 0x6E8); (0x6EA, 0x6ED); (0x70F, 0x70F); (0x711, 0x711); (0x730, 0x74A);
  (0x7A6, 0x7B0); (0x7EB, 0x7F5); (0x7FA, 0x7FA); (0x7FD, 0x7FD); (0x816, 0x82D); (0x859, 0x85B);
  (0x888, 0x888); (0x890, 0x891); (0x898, 0x89F); (0x8C9, 0x902); (0x93A, 0x93A); (0x93C, 0x93C);
  (0x941, 0x948); (0x94D, 0x94D); (0x951, 0x957); (0x962, 0x963); (0x971, 0x971); (0x981, 0x981);
  (0x9BC, 0x9BC); (0x9C1, 0x9C4); (0x9CD, 0x9CD); (0x9E2, 0x9E3); (0x9FE, 0x9FE); (0xA01, 0xA02);
  (0xA3C, 0xA3C); (0xA41, 0xA42); (0xA47, 0xA48); (0xA4B, 0xA4D); (0xA51, 0xA51); (0xA70, 0xA71);
  (0xA75, 0xA75); (0xA81, 0xA82); (0xABC, 0xABC); (0xAC1, 0xAC5); (0xAC7, 0xAC8); (0xACD, 0xACD);
  (0xAE2, 0xAE3); (0xAFA, 0xAFF); (0xB01, 0xB01); (0xB3C, 0xB3C); (0xB3F, 0xB3F); (0xB41, 0xB44);
  (0xB4D, 0xB4D); (0xB55, 0xB56); (0xB62, 0xB63); (0xB82, 0xB82); (0xBC0, 0xBC0); (0xBCD, 0xBCD);
  (0xC00, 0xC00); (0xC04, 0xC04); (0xC3C, 0xC3C); (0xC3E, 0xC40); (0xC46, 0xC48); (0xC4A, 0xC4D);
  (0xC55, 0xC56); (0xC62, 0xC63); (0xC81, 0xC81); (0xCBC, 0xCBC); (0xCBF, 0xCBF); (0xCC6, 0xCC6);
  (0xCCC, 0xCCD); (0xCE2, 0xCE3); (0xD00, 0xD01); (0xD3B, 0xD3C); (0xD41, 0xD44); (0xD4D, 0xD4D);
  (0xD62, 0xD63); (0xD81, 0xD81); (0xDCA, 0xDCA); (0xDD2, 0xDD4); (0xDD6, 0xDD6); (0xE31, 0xE31);
  (0xE34, 0xE3A); (0xE46, 0xE4E); (0xEB1, 0xEB1); (0xEB4, 0xEBC); (0xEC6, 0xEC6); (0xEC8, 0xECD);
  (0xF18, 0xF19); (0xF35, 0xF35); (0xF37, 0xF37); (0xF39, 0xF39); (0xF71, 0xF7E); (0xF80, 0xF84);
  (0xF86, 0xF87); (0xF8D, 0xF97); (0xF99, 0xFBC); (0xFC6, 0xFC6); (0x102D, 0x1030);
  (0x1032, 0x1037); (0x1039, 0x103A); (0x103D, 0x103E); (0x1058, 0x1059); (0x105E, 0x1060);
  (0x1071, 0x1074); (0x1082, 0x1082); (0x1085, 0x1086); (0x108D, 0x108D); (0x109D, 0x109D);
  (0x10FC, 0x10FC); (0x135D, 0x135F); (0x1712, 0x1714); (0x1732, 0x1733); (0x1752, 0x1753);
  (0x1772, 0x1773); (0x17B4, 0x17B5); (0x17B7, 0x17BD); (0x17C6, 0x17C6); (0x17C9, 0x17D3);
  (0x17D7, 0x17D7); (0x17DD, 0x17DD); (0x180B, 0x180F); (0x1843, 0x1843); (0x1885, 0x1886);
  (0x18A9, 0x18A9); (0x1920, 0x1922); (0x1927, 0x1928); (0x1932, 0x1932); (0x1939, 0x193B);
  (0x1A17, 0x1A18); (0x1A1B, 0x1A1B); (0x1A56, 0x1A56); (0x1A58, 0x1A5E); (0x1A60, 0x1A60);
  (0x1A62, 0x1A62); (0x1A65, 0x1A6C); (0x1A73, 0x1A7C); (0x1A7F, 0x1A7F); (0x1AA7, 0x1AA7);
  (0x1AB0, 0x1ACE); (0x1B00, 0x1B03); (0x1B34, 0x1B34); (0x1B36, 0x1B3A); (0x1B3C, 0x1B3C);
  (0x1B42, 0x1B42); (0x1B6B, 0x1B73); (0x1B80, 0x1B81); (0x1BA2, 0x1BA5); (0x1BA8, 0x1BA9);
  (0x1BAB, 0x1BAD); (0x1BE6, 0x1BE6); (0x1BE8, 0x1BE9); (0x1BED, 0x1BED); (0x1BEF, 0x1BF1);
  (0x1C2C, 0x1C33); (0x1C36, 0x1C37); (0x1C78, 0x1C7D); (0x1CD0, 0x1CD2); (0x1CD4, 0x1CE0);
  (0x1CE2, 0x1CE8); (0x1CED, 0x1CED); (0x1CF4, 0x1CF4); (0x1CF8, 0x1CF9); (0x1D2C, 0x1D6A);
  (0x1D78, 0x1D78); (0x1D9B, 0x1DFF); (0x1FBD, 0x1FBD); (0x1FBF, 0x1FC1); (0x1FCD, 0x1FCF);
  (0x1FDD, 0x1FDF); (0x1FED, 0x1FEF); (0x1FFD, 0x1FFE); (0x200B, 0x200F); (0x2018, 0x2019);
  (0x2024, 0x2024); (0x2027, 0x2027); (0x202A, 0x202E); (0x2060, 0x2064); (0x2066, 0x206F);
  (0x2071, 0x2071); (0x207F, 0x207F); (0x2090, 0x209C); (0x20D0, 0x20F0); (0x2C7C, 0x2C7D);
  (0x2CEF, 0x2CF1); (0x2D6F, 0x2D6F); (0x2D7F, 0x2D7F); (0x2DE0, 0x2DFF); (0x2E2F, 0x2E2F);
  (0x3005, 0x3005); (0x302A, 0x302D); (0x3031, 0x3035); (0x303B, 0x303B); (0x3099, 0x309E);
  (0x30FC, 0x30FE); (0xA015, 0xA015); (0xA4F8, 0xA4FD); (0xA60C, 0xA60C); (0xA66F, 0xA672);
  (0xA674, 0xA67D); (0xA67F, 0xA67F); (0xA69C, 0xA69F); (0xA6F0, 0xA6F1); (0xA700, 0xA721);
  (0xA770, 0xA770); (0xA788, 0xA78A); (0xA7F2, 0xA7F4); (0xA7F8, 0xA7F9); (0xA802, 0xA802);
  (0xA806, 0xA806); (0xA80B, 0xA80B); (0xA825, 0xA826); (0xA82C, 0xA82C); (0xA8C4, 0xA8C5);
  (0xA8E0, 0xA8F1); (0xA8FF, 0xA8FF); (0xA926, 0xA92D); (0xA947, 0xA951); (0xA980, 0xA982);
  (0xA9B3, 0xA9B3); (0xA9B6, 0xA9B9); (0xA9BC, 0xA9BD); (0xA9CF, 0xA9CF); (0xA9E5, 0xA9E6);
  (0xAA29, 0xAA2E); (0xAA31, 0xAA32); (0xAA35, 0xAA36); (0xAA43, 0xAA43); (0xAA4C, 0xAA4C);
  (0xAA70, 0xAA70); (0xAA7C, 0xAA7C); (0xAAB0, 0xAAB0); (0xAAB2, 0xAAB4); (0xAAB7, 0xAAB8);
  (0xAABE, 0xAABF); (0xAAC1, 0xAAC1); (0xAADD, 0xAADD); (0xAAEC, 0xAAED); (0xAAF3, 0xAAF4);
  (0xAAF6, 0xAAF6); (0xAB5B, 0xAB5F); (0xAB69, 0xAB6B); (0xABE5, 0xABE5); (0xABE8, 0xABE8);
  (0xABED, 0xABED); (0xFB1E, 0xFB1E); (0xFBB2, 0xFBC2); (0xFE00, 0xFE0F); (0xFE13, 0xFE13);
  (0xFE20, 0xFE2F); (0xFE52, 0xFE52); (0xFE55, 0xFE55); (0xFEFF, 0xFEFF); (0xFF07, 0xFF07);
  (0xFF0E, 0xFF0E); (0xFF1A, 0xFF1A); (0xFF3E, 0xFF3E); (0xFF40, 0xFF40); (0xFF70, 0xFF70);
  (0xFF9E, 0xFF9F); (0xFFE3, 0xFFE3); (0xFFF9, 0xFFFB); (0x101FD, 0x101FD); (0x102E0, 0x102E0);
  (0x10376, 0x1037A); (0x10780, 0x10785); (0x10787, 0x107B0); (0x107B2, 0x107BA);
  (0x10A01, 0x10A03); (0x10A05, 0x10A06); (0x10A0C, 0x10A0F); (0x10A38, 0x10A3A);
  (0x10A3F, 0x10A3F); (0x10AE5, 0x10AE6); (0x10D24, 0x10D27); (0x10EAB, 0x10EAC);
  (0x10F46, 0x10F50); (0x10F82, 0x10F85); (0x11001, 0x11001); (0x11038, 0x11046);
  (0x11070, 0x11070); (0x11073, 0x11074); (0x1107F, 0x11081); (0x110B3, 0x110B6);
  (0x110B9, 0x110BA); (0x110BD, 0x110BD); (0x110C2, 0x110C2); (0x110CD, 0x110CD);
  (0x11100, 0x11102); (0x11127, 0x1112B); (0x1112D, 0x11134); (0x11173, 0x11173);
  (0x11180, 0x11181); (0x111B6, 0x111BE); (0x111C9, 0x111CC); (0x111CF, 0x111CF);
  (0x1122F, 0x11231); (0x11234, 0x11234); (0x11236, 0x11237); (0x1123E, 0x1123E);
  (0x112DF, 0x112DF); (0x112E3, 0x112EA); (0x11300, 0x11301); (0x1133B, 0x1133C);
  (0x11340, 0x11340); (0x11366, 0x1136C); (0x11370, 0x11374); (0x11438, 0x1143F);
  (0x11442, 0x11444); (0x11446, 0x11446); (0x1145E, 0x1145E); (0x114B3, 0x114B8);
  (0x114BA, 0x114BA); (0x114BF, 0x114C0); (0x114C2, 0x114C3); (0x115B2, 0x115B5);
  (0x115BC, 0x115BD); (0x115BF, 0x115C0); (0x115DC, 0x115DD); (0x11633, 0x1163A);
  (0x1163D, 0x1163D); (0x1163F, 0x11640); (0x116AB, 0x116AB); (0x116AD, 0x116AD);
  (0x116B0, 0x116B5); (0x116B7, 0x116B7); (0x1171D, 0x1171F); (0x11722, 0x11725);
  (0x11727, 0x1172B); (0x1182F, 0x11837); (0x11839, 0x1183A); (0x1193B, 0x1193C);
  (0x1193E, 0x1193E); (0x11943, 0x11943); (0x119D4, 0x119D7); (0x119DA, 0x119DB);
  (0x119E0, 0x119E0); (0x11A01, 0x11A0A); (0x11A33, 0x11A38); (0x11A3B, 0x11A3E);
  (0x11A47, 0x11A47); (0x11A51, 0x11A56); (0x11A59, 0x11A5B); (0x11A8A, 0x11A96);
  (0x11A98, 0x11A99); (0x11C30, 0x11C36); (0x11C38, 0x11C3D); (0x11C3F, 0x11C3F);
  (0x11C92, 0x11CA7); (0x11CAA, 0x11CB0); (0x11CB2, 0x11CB3); (0x11CB5, 0x11CB6);
  (0x11D31, 0x11D36); (0x11D3A, 0x11D3A); (0x11D3C, 0x11D3D); (0x11D3F, 0x11D45);
  (0x11D47, 0x11D47); (0x11D90, 0x11D91); (0x11D95, 0x11D95); (0x11D97, 0x11D97);
  (0x11EF3, 0x11EF4); (0x13430, 0x13438); (0x16AF0, 0x16AF4); (0x16B30, 0x16B36);
  (0x16B40, 0x16B43); (0x16F4F, 0x16F4F); (0x16F8F, 0x16F9F); (0x16FE0, 0x16FE1);
  (0x16FE3, 0x16FE4); (0x1AFF0, 0x1AFF3); (0x1AFF5, 0x1AFFB); (0x1AFFD, 0x1AFFE);
  (0x1BC9D, 0x1BC9E); (0x1BCA0, 0x1BCA3); (0x1CF00, 0x1CF2D); (0x1CF30, 0x1CF46);
  (0x1D167, 0x1D169); (0x1D173, 0x1D182); (0x1D185, 0x1D18B); (0x1D1AA, 0x1D1AD);
  (0x1D242, 0x1D244); (0x1DA00, 0x1DA36); (0x1DA3B, 0x1DA6C); (0x1DA75, 0x1DA75);
  (0x1DA84, 0x1DA84); (0x1DA9B, 0x1DA9F); (0x1DAA1, 0x1DAAF); (0x1E000, 0x1E006);
  (0x1E008, 0x1E018); (0x1E01B, 0x1E021); (0x1E023, 0x1E024); (0x1E026, 0x1E02A);
  (0x1E130, 0x1E13D); (0x1E2AE, 0x1E2AE); (0x1E2EC, 0x1E2EF); (0x1E8D0, 0x1E8D6);
  (0x1E944, 0x1E94B); (0x1F3FB, 0x1F3FF); (0xE0001, 0xE0001); (0xE0020, 0xE007F);
  (0xE0100, 0xE01EF)
].

(** The code points for which [str.isspace] holds; the regular expression class
    [\s] on [str] patterns and [str.strip] test the same set. *)
Definition whitespace : list N := [
  0x9; 0xA; 0xB; 0xC; 0xD; 0x1C; 0x1D; 0x1E; 0x1F; 0x20; 0x85; 0xA0; 0x1680; 0x2000; 0x2001;
  0x2002; 0x2003; 0x2004; 0x2005; 0x2006; 0x2007; 0x2008; 0x2009; 0x200A; 0x2028; 0x2029; 0x202F;
  0x205F; 0x3000
].

(** Lookup structures over the tables. *)

Definition in_ranges (c : N) (rs : list (N * N)) : bool :=
  existsb (fun r => (fst r <=? c) && (c <=? snd r)) rs.

Definition key (c : N) : positive := N.succ_pos c.

Definition index_rows (rows : list (N * list N)) : PositiveMap.t (list N) :=
  fold_left (fun m r => PositiveMap.add (key (fst r)) (snd r) m) rows
            (PositiveMap.empty (list N)).

Definition decomposition_index : PositiveMap.t (list N) :=
  Eval vm_compute in index_rows decomposition_rows.

Definition lowercase_index : PositiveMap.t (list N) :=
  Eval vm_compute in index_rows lowercase_rows.

(** [unicodedata.category(c) == 'Mn'] *)
Definition is_Mn (c : N) : bool := in_ranges c Mn_ranges.

(** [unicodedata.combining(c)] *)
Definition ccc (c : N) : N :=
  match find (fun r => (fst (fst r) <=? c) && (c <=? snd (fst r))) ccc_ranges with
  | Some r => snd r
  | None => 0
  end.

Definition Cased (c : N) : bool := in_ranges c Cased_ranges.
Definition Case_Ignorable (c : N) : bool := in_ranges c Case_Ignorable_ranges.

(** Hangul syllables decompose by arithmetic (The Unicode Standard, 3.12). *)
Definition SBase := 0xAC00.
Definition LBase := 0x1100.
Definition VBase := 0x1161.
Definition TBase := 0x11A7.
Definition TCount := 28.
Definition NCount := 588.
Definition SCount := 11172.

Definition is_hangul_syllable (c : N) : bool :=
  (SBase <=? c) && (c <? SBase + SCount).

Definition hangul_decomposition (c : N) : list N :=
  let s := c - SBase in
  let l := LBase + s / NCount in
  let v := VBase + (s mod NCount) / TCount in
  let t := TBase + s mod TCount in
  if t =? TBase then [l; v] else [l; v; t].

(** Full canonical decomposition of one code point. *)
Definition decomposition (c : N) : list N :=
  if is_hangul_syllable c then hangul_decomposition c
  else match PositiveMap.find (key c) decomposition_index with
       | Some l => l
       | None => [c]
       end.

(** Full lowercase mapping of one code point, context rules apart. *)
Definition to_lower_full (c : N) : list N :=
  match PositiveMap.find (key c) lowercase_index with
  | Some l => l
  | None => [c]
  end.

End UCD.

(** ** The library calls of the program *)

(** Named code points of the program text. *)
Definition SPACE : N := 0x20.
Definition HYPHEN : N := 0x2D.
Definition FULL_STOP : N := 0x2E.
Definition SLASH : N := 0x2F.
Definition BACKSLASH : N := 0x5C.
Definition CYR_IE : N := 0x415.        (* Е *)
Definition CYR_ie : N := 0x435.        (* е *)
Definition CYR_IO : N := 0x401.        (* Ё *)
Definition CYR_io : N := 0x451.        (* ё *)
Definition CAPITAL_SIGMA : N := 0x3A3.
Definition SMALL_SIGMA : N := 0x3C3.
Definition FINAL_SIGMA : N := 0x3C2.

Module Unicodedata.

(** Canonical ordering: each code point in turn is moved left past the
    preceding ones of a greater non-zero combining class (the insertion loop
    of [unicodedata.normalize]); the prefix is kept reversed. *)
Fixpoint insert_mark (c : N) (before : list N) : list N :=
  match before with
  | p :: r =>
      if negb (UCD.ccc c =? 0) && (UCD.ccc c <? UCD.ccc p)
      then p :: insert_mark c r
      else c :: before
  | [] => [c]
  end.

Definition canonical_order (l : list N) : list N :=
  rev (fold_left (fun before c => insert_mark c before) l []).

(** [unicodedata.normalize('NFD', s)] *)
Definition normalize_NFD (s : ustr) : ustr :=
  canonical_order (flat_map UCD.decomposition s).

(** [unicodedata.category(c) != 'Mn'] *)
Definition not_Mn (c : N) : bool := negb (UCD.is_Mn c).

End Unicodedata.

Module Str.

(** [c.isspace()], also the class [\s] of [re] on a [str] pattern. *)
Definition isspace (c : N) : bool := existsb (N.eqb c) UCD.whitespace.

(** [s.replace(old, new)] for a one-character [old]. *)
Definition replace (old : N) (new : ustr) (s : ustr) : ustr :=
  flat_map (fun c => if c =? old then new else [c]) s.

(** [s.startswith(p)] *)
Fixpoint startswith (s p : ustr) : bool :=
  match p, s with
  | [], _ => true
  | _ :: _, [] => false
  | a :: p', b :: s' => (a =? b) && startswith s' p'
  end.

(** [s.endswith(p)] *)
Definition endswith (s p : ustr) : bool := startswith (rev s) (rev p).

Fixpoint dropwhile (f : N -> bool) (s : ustr) : ustr :=
  match s with
  | c :: s' => if f c then dropwhile f s' else s
  | [] => []
  end.

(** [s.strip()] *)
Definition lstrip (s : ustr) : ustr := dropwhile isspace s.
Definition rstrip (s : ustr) : ustr := rev (dropwhile isspace (rev s)).
Definition strip (s : ustr) : ustr := rstrip (lstrip s).

(** The Final_Sigma condition of [str.lower]: a capital sigma is final when a
    cased letter precedes it, case-ignorable code points skipped, and no cased
    letter follows it, case-ignorable code points skipped. *)
Definition final_sigma (before after : ustr) : bool :=
  match dropwhile UCD.Case_Ignorable before with
  | p :: _ =>
      UCD.Cased p &&
      match dropwhile UCD.Case_Ignorable after with
      | n :: _ => negb (UCD.Cased n)
      | [] => true
      end
  | [] => false
  end.

(** [before] holds the code points already read, nearest first. *)
Fixpoint lower_from (before s : ustr) : ustr :=
  match s with
  | [] => []
  | c :: s' =>
      (if c =? CAPITAL_SIGMA
       then [if final_sigma before s' then FINAL_SIGMA else SMALL_SIGMA]
       else UCD.to_lower_full c) ++ lower_from (c :: before) s'
  end.

(** [s.lower()] *)
Definition lower (s : ustr) : ustr := lower_from [] s.

End Str.

Module Re.

(** The character class of the pattern of both normalisers: question mark,
    exclamation mark, colon, semicolon, comma, double quote, single quote,
    full stop, ellipsis U+2026, em dash U+2014, en dash U+2013, hyphen. *)
Definition punctuation : list N :=
  [0x3F; 0x21; 0x3A; 0x3B; 0x2C; 0x22; 0x27; 0x2E; 0x2026; 0x2014; 0x2013; 0x2D].

Definition in_class (cls : list N) (c : N) : bool := existsb (N.eqb c) cls.

(** [re.sub(r'[...]', '', s)]: every code point of the class is deleted. *)
Definition sub_class_empty (cls : list N) (s : ustr) : ustr :=
  filter (fun c => negb (in_class cls c)) s.

(** [re.sub(r'\s+', ' ', s)]: every maximal run of white space becomes one
    space.  [in_run] tells that the code point before [s] was white space. *)
Fixpoint sub_spaces_from (in_run : bool) (s : ustr) : ustr :=
  match s with
  | [] => []
  | c :: s' =>
      if Str.isspace c
      then (if in_run then [] else [SPACE]) ++ sub_spaces_from true s'
      else c :: sub_spaces_from false s'
  end.

Definition sub_spaces (s : ustr) : ustr := sub_spaces_from false s.

End Re.

Module Posixpath.

(** [p.rfind(c)] as a position counted from 0, or -1. *)
Fixpoint rfind_from (i : Z) (c : N) (p : ustr) : Z :=
  match p with
  | [] => (-1)%Z
  | x :: p' =>
      let later := rfind_from (i + 1)%Z c p' in
      if (0 <=? later)%Z then later else if x =? c then i else (-1)%Z
  end.

Definition rfind (c : N) (p : ustr) : Z := rfind_from 0%Z c p.

(** [p[i:j]] for [0 <= i]. *)
Definition slice (p : ustr) (i j : Z) : ustr :=
  firstn (Z.to_nat (j - i)) (skipn (Z.to_nat i) p).

(** [posixpath.splitext(p)]: [genericpath._splitext(p, '/', None, '.')].  The
    extension starts at the last dot, provided the dot comes after the last
    slash and some code point between that slash and the dot is not a dot. *)
Definition splitext (p : ustr) : ustr * ustr :=
  let sepIndex := rfind SLASH p in
  let dotIndex := rfind FULL_STOP p in
  if (dotIndex >? sepIndex)%Z
     && existsb (fun c => negb (c =? FULL_STOP)) (slice p (sepIndex + 1) dotIndex)
  then (firstn (Z.to_nat dotIndex) p, skipn (Z.to_nat dotIndex) p)
  else (p, []).

(** [posixpath.join(a, b)] *)
Definition join (a b : ustr) : ustr :=
  if Str.startswith b [SLASH] then b
  else match a with
       | [] => b
       | _ => if Str.endswith a [SLASH] then a ++ b else a ++ SLASH :: b
       end.

End Posixpath.

(** ** The file system

    What the program can observe of the file system during one call.
    [listdir] is [None] when [os.listdir] raises, [getmtime] is [None] when
    [os.path.getmtime] raises [OSError].  A modification time is a finite
    float; the program only compares such times, and the comparison of finite
    floats is the comparison of the rationals they denote. *)
Record FileSystem := {
  isdir : ustr -> bool;
  path_exists : ustr -> bool;
  listdir : ustr -> option (list ustr);
  getmtime : ustr -> option Q
}.

(** ** generate_audio.py *)

Module GenerateAudio.

Definition AUDIO_DIR : ustr := u8 "audio_native".

Definition sanitize_filename (text : ustr) : ustr :=
  let no_accents := filter Unicodedata.not_Mn (Unicodedata.normalize_NFD text) in
  let yo_fixed := Str.replace CYR_IO [CYR_IE] (Str.replace CYR_io [CYR_ie] no_accents) in
  let cleaned := Re.sub_class_empty Re.punctuation yo_fixed in
  let cleaned := Str.replace BACKSLASH [HYPHEN] (Str.replace SLASH [HYPHEN] cleaned) in
  let cleaned := Str.strip (Re.sub_spaces cleaned) in
  cleaned.

End GenerateAudio.

(** ** gui_flash_cards.py *)

Definition AUDIO_FOLDER : ustr := u8 "audio_native".
Definition RECORDINGS_FOLDER : ustr := u8 "audio_user".

Definition sanitize_filename (text : ustr) : ustr :=
  let no_accents := filter Unicodedata.not_Mn (Unicodedata.normalize_NFD text) in
  let yo_fixed := Str.replace CYR_IO [CYR_IE] (Str.replace CYR_io [CYR_ie] no_accents) in
  let cleaned :=
    Str.replace BACKSLASH [HYPHEN]
      (Str.replace SLASH [HYPHEN] (Re.sub_class_empty Re.punctuation yo_fixed)) in
  Str.strip (Re.sub_spaces cleaned).

Definition norm_base (name : ustr) : ustr :=
  let base := fst (Posixpath.splitext name) in
  let base := Unicodedata.normalize_NFD base in
  let base := filter Unicodedata.not_Mn base in
  let base := Str.replace CYR_IO [CYR_IE] (Str.replace CYR_io [CYR_ie] base) in
  let base := Re.sub_class_empty Re.punctuation base in
  let base := Str.strip (Re.sub_spaces base) in
  Str.lower base.

(** The two scans of [find_audio_path] over the filtered candidates. *)
Definition scan_normalized (candidates : list ustr) (target_norm : ustr) : option ustr :=
  find (fun fname => ustr_eqb (norm_base fname) target_norm) candidates.

Definition scan_loose (candidates : list ustr) (target_norm : ustr) : option ustr :=
  let loose_target := Str.replace SPACE [] target_norm in
  find (fun fname => ustr_eqb (Str.replace SPACE [] (norm_base fname)) loose_target)
       candidates.

Definition mp3_candidates (names : list ustr) : list ustr :=
  filter (fun f => Str.endswith (Str.lower f) (u8 ".mp3")) names.

Definition find_audio_path (fs : FileSystem) (display_word : ustr) : option ustr :=
  if negb (isdir fs AUDIO_FOLDER) then None
  else
    let target_norm := norm_base display_word in
    match listdir fs AUDIO_FOLDER with
    | None => None
    | Some names =>
        let candidates := mp3_candidates names in
        (* 1) direct sanitized attempt *)
        let direct :=
          Posixpath.join AUDIO_FOLDER (sanitize_filename display_word ++ u8 ".mp3") in
        if path_exists fs direct then Some direct
        else
          (* 2) scan for a normalized match *)
          match scan_normalized candidates target_norm with
          | Some fname => Some (Posixpath.join AUDIO_FOLDER fname)
          | None =>
              (* 3) loose match *)
              match scan_loose candidates target_norm with
              | Some fname => Some (Posixpath.join AUDIO_FOLDER fname)
              | None => None
              end
          end
    end.

(** The value of [path] in [play_audio] after the hint block. *)
Definition hint_path (fs : FileSystem) (filename_hint : ustr) : option ustr :=
  match filename_hint with
  | [] => None
  | _ =>
      let hinted := Posixpath.join AUDIO_FOLDER (filename_hint ++ u8 ".mp3") in
      if path_exists fs hinted then Some hinted
      else
        let hinted_sanitized :=
          Posixpath.join AUDIO_FOLDER (sanitize_filename filename_hint ++ u8 ".mp3") in
        if path_exists fs hinted_sanitized then Some hinted_sanitized else None
  end.

(** The value of [path] in [play_audio] after the robust lookup. *)
Definition resolved_path (fs : FileSystem) (display_word filename_hint : ustr)
  : option ustr :=
  match hint_path fs filename_hint with
  | Some path =>
      if negb (path_exists fs path) then find_audio_path fs display_word else Some path
  | None => find_audio_path fs display_word
  end.

(** What [play_audio] does: it warns that the audio is missing, or starts the
    playback of a file. *)
Inductive Played :=
| MissingAudio (display_word looked_for : ustr)
| Playing (path : ustr).

Definition play_audio (fs : FileSystem) (display_word filename_hint : ustr) : Played :=
  match resolved_path fs display_word filename_hint with
  | Some ((_ :: _) as path) =>
      if path_exists fs path then Playing path
      else MissingAudio display_word (sanitize_filename display_word)
  | _ => MissingAudio display_word (sanitize_filename display_word)
  end.

(** One turn of the loop of [find_latest_user_recording]; the state is
    [(latest_path, latest_mtime)]. *)
Definition latest_step (fs : FileSystem) (base : ustr)
           (st : option ustr * Q) (fname : ustr) : option ustr * Q :=
  if negb (Str.endswith (Str.lower fname) (u8 ".wav")) then st
  else if negb (Str.startswith (fst (Posixpath.splitext fname)) base) then st
  else
    let path := Posixpath.join RECORDINGS_FOLDER fname in
    match getmtime fs path with
    | Some mtime =>
        if negb (Qle_bool mtime (snd st)) then (Some path, mtime) else st
    | None => st
    end.

Definition find_latest_user_recording (fs : FileSystem) (display_word : ustr)
  : option ustr :=
  if negb (isdir fs RECORDINGS_FOLDER) then None
  else
    let base := sanitize_filename display_word in
    match listdir fs RECORDINGS_FOLDER with
    | None => None
    | Some names => fst (fold_left (latest_step fs base) names (None, - (1))%Q)
    end.


(** ** Predicates of the statements and sample file systems *)

(** [settled d]: [d] is its own canonical decomposition. *)
Definition settled (d : N) : bool := ustr_eqb (UCD.decomposition d) [d].

(** The code points [first], [first + 1], ..., [count] of them. *)
Definition N_range (first : N) (count : nat) : list N :=
  map (fun i => first + N.of_nat i) (seq 0 count).

(** [spaced prev l]: every white-space code point of [l] is a space that does
    not follow white space; [prev] tells that white space precedes [l]. *)
Fixpoint spaced (prev : bool) (l : ustr) : bool :=
  match l with
  | [] => true
  | c :: l' =>
      if Str.isspace c then (c =? SPACE) && negb prev && spaced true l'
      else spaced false l'
  end.

(** No white space at the start, at the end. *)
Definition starts_clean (l : ustr) : Prop :=
  match l with c :: _ => Str.isspace c = false | [] => True end.

Definition ends_clean (l : ustr) : Prop := starts_clean (rev l).

(** The steps the two normalisers share, between the extension split and the
    replacement of separators or the lowering. *)
Definition core (s : ustr) : ustr :=
  Str.strip (Re.sub_spaces (Re.sub_class_empty Re.punctuation
    (Str.replace CYR_IO [CYR_IE] (Str.replace CYR_io [CYR_ie]
      (filter Unicodedata.not_Mn (Unicodedata.normalize_NFD s)))))).

(** [inert c]: no normalisation step before the lowering changes [c]. *)
Definition inert (c : N) : bool :=
  settled c && (UCD.ccc c =? 0) && negb (UCD.is_Mn c)
  && negb (Re.in_class Re.punctuation c) && negb (c =? CYR_io) && negb (c =? CYR_IO).

(** [lowered c]: [str.lower] leaves [c] as it is, in every context. *)
Definition lowered (c : N) : bool :=
  ustr_eqb (UCD.to_lower_full c) [c] && negb (c =? CAPITAL_SIGMA).

(** The check made on every row of the lowercase table: an inert code point
    that is not white space is lowered to a non-empty string of inert, lowered
    code points that are not white space. *)
Definition lowercase_row_ok (r : positive * list N) : bool :=
  let c := Pos.pred_N (fst r) in
  negb (inert c) || Str.isspace c
  || (negb (ustr_eqb (snd r) [])
      && forallb (fun x => inert x && lowered x && negb (Str.isspace x)) (snd r)).

(** The code points a string is made of when no combining mark of its
    decomposition is a spacing mark: every code point of a non-zero combining
    class is then of category Mn. *)
Definition nonspacing_marks_only (s : ustr) : bool :=
  forallb (fun c => forallb (fun d => (UCD.ccc d =? 0) || UCD.is_Mn d)
                            (UCD.decomposition c)) s.

(** What [str.lower] may write for one code point. *)
Definition lower_image (c : N) (img : ustr) : Prop :=
  (c = CAPITAL_SIGMA /\ (img = [FINAL_SIGMA] \/ img = [SMALL_SIGMA]))
  \/ (c <> CAPITAL_SIGMA /\ img = UCD.to_lower_full c).

(** [img] stands for [c] without a change to the white space: white space
    stays as it is, anything else becomes a non-empty string free of it. *)
Definition keeps_spacing (c : N) (img : ustr) : Prop :=
  (Str.isspace c = true /\ img = [c])
  \/ (Str.isspace c = false /\ img <> [] /\ forall x, In x img -> Str.isspace x = false).

(** [tidy l]: every step of the core leaves [l] as it is. *)
Definition tidy (l : ustr) : Prop :=
  (forall c, In c l -> inert c = true /\ (Str.isspace c = true -> c = SPACE))
  /\ spaced false l = true /\ starts_clean l /\ ends_clean l.

(** [s.count(x)] for a code point [x]. *)
Definition count (x : N) (s : ustr) : nat := count_occ N.eq_dec s x.

(** The code points the separator replacement reads and writes. *)
Definition is_separator_or_hyphen (x : N) : Prop :=
  x = SLASH \/ x = BACKSLASH \/ x = HYPHEN.

(** The check made on every row of the decomposition and lowercase tables:
    no mapping writes a slash, a backslash or a hyphen. *)
Definition row_free_of_separators (r : positive * list N) : bool :=
  forallb (fun d => negb ((d =? SLASH) || (d =? BACKSLASH) || (d =? HYPHEN))) (snd r).

(** The file system made of the two folders of the program: [None] is a
    missing folder, and every recording comes with the result of [getmtime]. *)
Definition snapshot (native : option (list ustr))
           (user : option (list (ustr * option Q))) : FileSystem :=
  let there {A} (o : option A) := match o with Some _ => true | None => false end in
  let names {A} (o : option (list A)) := match o with Some l => l | None => [] end in
  {| isdir := fun p =>
       (there native && ustr_eqb p AUDIO_FOLDER)
       || (there user && ustr_eqb p RECORDINGS_FOLDER);
     path_exists := fun p =>
       (there native && ustr_eqb p AUDIO_FOLDER)
       || (there user && ustr_eqb p RECORDINGS_FOLDER)
       || existsb (fun n => ustr_eqb p (AUDIO_FOLDER ++ SLASH :: n)) (names native)
       || existsb (fun e => ustr_eqb p (RECORDINGS_FOLDER ++ SLASH :: fst e)) (names user);
     listdir := fun p =>
       if ustr_eqb p AUDIO_FOLDER then native
       else if ustr_eqb p RECORDINGS_FOLDER then option_map (map fst) user
       else None;
     getmtime := fun p =>
       match find (fun e => ustr_eqb p (RECORDINGS_FOLDER ++ SLASH :: fst e)) (names user) with
       | Some e => snd e
       | None => None
       end |}.

(** [fname] passes the two tests of [find_latest_user_recording] for the
    sanitized word [base] and has the modification time [mtime]. *)
Definition eligible (fs : FileSystem) (base fname : ustr) (mtime : Q) : Prop :=
  Str.endswith (Str.lower fname) (u8 ".wav") = true
  /\ Str.startswith (fst (Posixpath.splitext fname)) base = true
  /\ getmtime fs (Posixpath.join RECORDINGS_FOLDER fname) = Some mtime.

(** The state of the loop after the names [seen]. *)
Definition latest_invariant (fs : FileSystem) (base : ustr) (seen : list ustr)
           (st : option ustr * Q) : Prop :=
  (forall f m, In f seen -> eligible fs base f m -> (m <= snd st)%Q)
  /\ match fst st with
     | None => snd st = (- (1))%Q
     | Some path =>
         exists before fname after,
           seen = before ++ fname :: after
           /\ path = Posixpath.join RECORDINGS_FOLDER fname
           /\ eligible fs base fname (snd st)
           /\ (forall f m, In f before -> eligible fs base f m -> (m < snd st)%Q)
     end.

(** Sample inputs. *)
Definition sample_name : ustr := u8 "Ёлка — ёж?.mp3".

Definition words_fs : FileSystem :=
  snapshot (Some [u8 "четыре.mp3"; u8 "chetyre.mp3"; u8 "другое.mp3"]) None.

Definition two_words_fs : FileSystem :=
  snapshot (Some [u8 "четыре.mp3"; u8 "другое.mp3"]) None.

Definition mixed_fs : FileSystem :=
  snapshot (Some [u8 "четыре.wav"; u8 "ЧЕТЫРЕ.MP3"]) None.

Definition ties_fs : FileSystem :=
  snapshot None (Some [(u8 "да_1.wav", Some 5%Q); (u8 "да_2.wav", Some 5%Q)]).

Definition takes_fs : FileSystem :=
  snapshot None (Some [(u8 "привет_your_voice.wav", Some 9%Q);
                       (u8 "Привет_your_voice.wav", Some 5%Q)]).

(** A listing with a file whose stem is "chetyre" and whose extension is
    spelt in capitals, on a file system that tells the two spellings apart. *)
Definition capitals_fs : FileSystem :=
  snapshot (Some [u8 "четыре.mp3"; u8 "chetyre.MP3"]) None.

(** The project folder holds x.mp3 beside an audio folder that lists nothing;
    the name audio_native/../x.mp3 leads to x.mp3. *)
Definition beside_fs : FileSystem :=
  {| isdir := fun p => ustr_eqb p AUDIO_FOLDER;
     path_exists := fun p =>
       existsb (ustr_eqb p) [u8 "audio_native"; u8 "x.mp3"; u8 "audio_native/../x.mp3"];
     listdir := fun p => if ustr_eqb p AUDIO_FOLDER then Some [] else None;
     getmtime := fun _ => None |}.

(** The same project folder without the audio folder: no name that goes
    through the missing folder leads anywhere. *)
Definition no_folder_fs : FileSystem :=
  {| isdir := fun _ => false;
     path_exists := fun p => ustr_eqb p (u8 "x.mp3");
     listdir := fun _ => None;
     getmtime := fun _ => None |}.

(** An audio folder with the one file четыре.mp3, which is reached under the
    name audio_native/./четыре.mp3 as well. *)
Definition dot_fs : FileSystem :=
  {| isdir := fun p => ustr_eqb p AUDIO_FOLDER;
     path_exists := fun p =>
       existsb (ustr_eqb p)
         [u8 "audio_native"; u8 "audio_native/четыре.mp3"; u8 "audio_native/./четыре.mp3"];
     listdir := fun p => if ustr_eqb p AUDIO_FOLDER then Some [u8 "четыре.mp3"] else None;
     getmtime := fun _ => None |}.

(** ** More of the program, and the predicates of the further statements *)

(** [starter c]: the combining class of [c] is 0. *)
Definition starter (c : N) : bool := UCD.ccc c =? 0.

(** [only_marks m]: the decomposition of [m] consists of nonspacing marks. *)
Definition only_marks (m : N) : bool := forallb UCD.is_Mn (UCD.decomposition m).

(** The first steps of both normalisers taken one code point at a time,
    without the canonical ordering: decompose and drop the nonspacing marks;
    then unify the letter variants and drop the punctuation. *)
Definition letters (s : ustr) : ustr :=
  filter Unicodedata.not_Mn (flat_map UCD.decomposition s).

Definition cleaned (s : ustr) : ustr :=
  Re.sub_class_empty Re.punctuation
    (Str.replace CYR_IO [CYR_IE] (Str.replace CYR_io [CYR_ie] (letters s))).

(** [s.replace("ё", "е").replace("Ё", "Е")] *)
Definition unify_yo (s : ustr) : ustr :=
  Str.replace CYR_IO [CYR_IE] (Str.replace CYR_io [CYR_ie] s).

(** The check made on every row of the lowercase table: the mapping is a
    non-empty string of code points that are neither white space nor
    punctuation of the class and that [str.lower] leaves alone. *)
Definition lowercase_row_plain (r : positive * list N) : bool :=
  negb (ustr_eqb (snd r) [])
  && forallb (fun x => negb (Str.isspace x) && negb (Re.in_class Re.punctuation x)
                       && lowered x) (snd r).

(** The check made on every white-space code point: the steps before the
    collapse of white space turn it into one white-space code point, and it
    is no spacing mark. *)
Definition whitespace_kept (c : N) : bool :=
  match cleaned [c] with
  | [c'] => Str.isspace c' && nonspacing_marks_only [c]
  | _ => false
  end.

(** ** generate_audio.py, the loop *)

Module Generator.

Definition WORDS : list (ustr * ustr) :=
  [ (u8 "ну́ль", u8 "zero");
    (u8 "оди́н", u8 "one");
    (u8 "два́", u8 "two");
    (u8 "три́", u8 "three");
    (u8 "четы́ре", u8 "four");
    (u8 "пять", u8 "five");
    (u8 "шесть", u8 "six");
    (u8 "се́мь", u8 "seven");
    (u8 "во́семь", u8 "eight");
    (u8 "де́вять", u8 "nine");
    (u8 "де́сять", u8 "ten") ].

(** [out_path] of the loop body for the word [rus]. *)
Definition out_path (rus : ustr) : ustr :=
  Posixpath.join GenerateAudio.AUDIO_DIR
                 (GenerateAudio.sanitize_filename rus ++ u8 ".mp3").

(** The files the loop writes: [spoken rus] tells that the speech service
    and [tts.save] succeeded for [rus]; a failure is caught, reported, and
    the loop goes on with the next word. *)
Definition generate (spoken : ustr -> bool) (words : list (ustr * ustr)) : list ustr :=
  map (fun w => out_path (fst w)) (filter (fun w => spoken (fst w)) words).

End Generator.

(** ** gui_flash_cards.py, the recordings *)

(** [out_wav] of [record_audio]. *)
Definition out_wav (display_word : ustr) : ustr :=
  Posixpath.join RECORDINGS_FOLDER (sanitize_filename display_word ++ u8 "_your_voice.wav").

(** What [play_user_recording] does. *)
Inductive PlayedUser :=
| NoRecording
| PlayingRecording (path : ustr).

Definition play_user_recording (fs : FileSystem) (display_word : ustr) : PlayedUser :=
  match find_latest_user_recording fs display_word with
  | Some ((_ :: _) as path) => PlayingRecording path
  | _ => NoRecording
  end.

(** The key of the loose scan of [find_audio_path]. *)
Definition loose_key (s : ustr) : ustr := Str.replace SPACE [] (norm_base s).

(** The test of the candidate filter of [find_audio_path]. *)
Definition is_mp3 (f : ustr) : bool := Str.endswith (Str.lower f) (u8 ".mp3").

(** The times the loop of [find_latest_user_recording] keeps. *)
Definition latest_above (fs : FileSystem) (st : option ustr * Q) : Prop :=
  (- (1) <= snd st)%Q
  /\ match fst st with
     | Some path => getmtime fs path = Some (snd st) /\ (- (1) < snd st)%Q
     | None => True
     end.

(** [blank_code c]: [c] is white space, punctuation of the class, or a code
    point that decomposes into nonspacing marks. *)
Definition blank_code (c : N) : bool :=
  Str.isspace c || Re.in_class Re.punctuation c || only_marks c.

(** * Proofs *)

(** ** Strings *)

Lemma ustr_eqb_eq (a b : ustr) : ustr_eqb a b = true <-> a = b.
Proof.
  revert b; induction a as [|x a IH]; intros [|y b]; simpl; split; intro H;
    try reflexivity; try discriminate.
  - apply andb_true_iff in H as [Hx Hab].
    apply N.eqb_eq in Hx. apply IH in Hab. now subst.
  - inversion H; subst. apply andb_true_iff; split.
    + apply N.eqb_refl.
    + now apply IH.
Qed.

Lemma ustr_eqb_refl (a : ustr) : ustr_eqb a a = true.
Proof. now apply ustr_eqb_eq. Qed.

Lemma filter_fixed (f : N -> bool) (l : ustr) :
  (forall c, In c l -> f c = true) -> filter f l = l.
Proof.
  induction l as [|c l IH]; intro H; simpl; [reflexivity|].
  rewrite (H c (or_introl eq_refl)). f_equal. apply IH.
  intros d Hd. apply H. now right.
Qed.

(** ** The character tables *)

Lemma key_unkey (c : N) : Pos.pred_N (UCD.key c) = c.
Proof. apply N.pos_pred_succ. Qed.

(** A row found in an index is one of its elements. *)
Lemma find_elements (m : PositiveMap.t (list N)) (c : N) (l : list N) :
  PositiveMap.find (UCD.key c) m = Some l ->
  In (UCD.key c, l) (PositiveMap.elements m).
Proof. apply PositiveMap.elements_correct. Qed.

Lemma decomposition_rows_settled :
  forallb (fun r => forallb settled (snd r))
          (PositiveMap.elements UCD.decomposition_index) = true.
Proof. vm_compute. reflexivity. Qed.

Lemma N_range_In (first : N) (count : nat) (c : N) :
  first <= c < first + N.of_nat count -> In c (N_range first count).
Proof.
  intro H. unfold N_range. apply in_map_iff.
  exists (N.to_nat (c - first)). split.
  - rewrite N2Nat.id. lia.
  - apply in_seq. lia.
Qed.

Lemma jamo_settled :
  forallb settled (N_range 0x1100 195) = true.
Proof. vm_compute. reflexivity. Qed.

Lemma hangul_decomposition_jamo (c d : N) :
  UCD.is_hangul_syllable c = true ->
  In d (UCD.hangul_decomposition c) -> 0x1100 <= d < 0x1100 + 195.
Proof.
  unfold UCD.is_hangul_syllable, UCD.hangul_decomposition.
  unfold UCD.SBase, UCD.SCount, UCD.LBase, UCD.VBase, UCD.TBase, UCD.NCount, UCD.TCount.
  intro Hc. apply andb_true_iff in Hc as [Hlo Hhi].
  apply N.leb_le in Hlo. apply N.ltb_lt in Hhi.
  set (s := c - 0xAC00).
  assert (Hs : s < 11172) by (unfold s; lia).
  clearbody s.
  assert (Hl : s / 588 < 19) by (apply N.Div0.div_lt_upper_bound; lia).
  assert (Hm : s mod 588 < 588) by (apply N.mod_lt; lia).
  assert (Hv : (s mod 588) / 28 < 21) by (apply N.Div0.div_lt_upper_bound; lia).
  assert (Ht : s mod 28 < 28) by (apply N.mod_lt; lia).
  revert Hl Hv Ht.
  generalize (s / 588), (s mod 588 / 28), (s mod 28). intros l v t Hl Hv Ht.
  destruct (0x11A7 + t =? 0x11A7); intro H;
    repeat (destruct H as [H|H]; [lia|]); destruct H.
Qed.

(** Every code point of a canonical decomposition is its own decomposition. *)
Lemma decomposition_settled (c d : N) :
  In d (UCD.decomposition c) -> UCD.decomposition d = [d].
Proof.
  unfold UCD.decomposition at 1.
  destruct (UCD.is_hangul_syllable c) eqn:Hh.
  - intro Hd. apply hangul_decomposition_jamo in Hd; [|exact Hh].
    assert (Hr : In d (N_range 0x1100 195)) by (apply N_range_In; exact Hd).
    pose proof jamo_settled as J. rewrite forallb_forall in J.
    apply J in Hr. now apply ustr_eqb_eq in Hr.
  - destruct (PositiveMap.find (UCD.key c) UCD.decomposition_index) as [l|] eqn:Hf.
    + intro Hd. apply find_elements in Hf.
      pose proof decomposition_rows_settled as R. rewrite forallb_forall in R.
      specialize (R _ Hf). simpl in R. rewrite forallb_forall in R.
      apply R in Hd. now apply ustr_eqb_eq in Hd.
    + intros [Hd|[]]. subst d. unfold UCD.decomposition. now rewrite Hh, Hf.
Qed.

(** ** Canonical ordering *)

Lemma insert_mark_perm (c : N) (acc : list N) :
  Permutation (Unicodedata.insert_mark c acc) (c :: acc).
Proof.
  induction acc as [|p r IH]; simpl; [reflexivity|].
  destruct (negb (UCD.ccc c =? 0) && (UCD.ccc c <? UCD.ccc p)); [|reflexivity].
  rewrite IH. apply perm_swap.
Qed.

Lemma order_loop_perm (l acc : list N) :
  Permutation (fold_left (fun b c => Unicodedata.insert_mark c b) l acc)
              (rev l ++ acc).
Proof.
  revert acc; induction l as [|c l IH]; intros acc; simpl; [reflexivity|].
  rewrite IH, insert_mark_perm, <- app_assoc. simpl.
  apply Permutation_app_head. reflexivity.
Qed.

Lemma canonical_order_perm (l : list N) :
  Permutation (Unicodedata.canonical_order l) l.
Proof.
  unfold Unicodedata.canonical_order.
  rewrite <- Permutation_rev, order_loop_perm, app_nil_r, <- Permutation_rev.
  reflexivity.
Qed.

Lemma order_loop_starters (l acc : list N) :
  (forall c, In c l -> UCD.ccc c = 0) ->
  fold_left (fun b c => Unicodedata.insert_mark c b) l acc = rev l ++ acc.
Proof.
  revert acc; induction l as [|c l IH]; intros acc H; simpl; [reflexivity|].
  assert (Hc : Unicodedata.insert_mark c acc = c :: acc).
  { destruct acc as [|p r]; simpl; [reflexivity|].
    rewrite (H c (or_introl eq_refl)). reflexivity. }
  rewrite Hc, IH, <- app_assoc; [reflexivity|].
  intros d Hd. apply H. now right.
Qed.

Lemma canonical_order_starters (l : list N) :
  (forall c, In c l -> UCD.ccc c = 0) -> Unicodedata.canonical_order l = l.
Proof.
  intro H. unfold Unicodedata.canonical_order.
  rewrite order_loop_starters by exact H.
  now rewrite app_nil_r, rev_involutive.
Qed.

(** ** NFD *)

Lemma normalize_NFD_In (s : ustr) (d : N) :
  In d (Unicodedata.normalize_NFD s) <->
  exists c, In c s /\ In d (UCD.decomposition c).
Proof.
  unfold Unicodedata.normalize_NFD. rewrite <- in_flat_map. split; intro H.
  - eapply Permutation_in; [apply canonical_order_perm | exact H].
  - eapply Permutation_in; [symmetry; apply canonical_order_perm | exact H].
Qed.

Lemma flat_map_singletons (f : N -> list N) (l : ustr) :
  (forall c, In c l -> f c = [c]) -> flat_map f l = l.
Proof.
  induction l as [|c l IH]; intro H; simpl; [reflexivity|].
  rewrite (H c (or_introl eq_refl)). simpl. f_equal. apply IH.
  intros d Hd. apply H. now right.
Qed.

Lemma normalize_NFD_fixed (t : ustr) :
  (forall c, In c t -> UCD.decomposition c = [c]) ->
  (forall c, In c t -> UCD.ccc c = 0) ->
  Unicodedata.normalize_NFD t = t.
Proof.
  intros Hd Hc. unfold Unicodedata.normalize_NFD.
  rewrite flat_map_singletons by exact Hd.
  now apply canonical_order_starters.
Qed.

(** ** Replacement and deletion of code points *)

Lemma replace_In (old : N) (new s : ustr) (x : N) :
  In x (Str.replace old new s) -> (x <> old /\ In x s) \/ In x new.
Proof.
  unfold Str.replace. intro H. apply in_flat_map in H as [c [Hc Hx]].
  destruct (c =? old) eqn:E.
  - now right.
  - destruct Hx as [Hx|[]]. subst x. left. split; [|exact Hc].
    now apply N.eqb_neq.
Qed.

Lemma replace_absent (old : N) (new s : ustr) :
  ~ In old s -> Str.replace old new s = s.
Proof.
  intro H. unfold Str.replace. apply flat_map_singletons.
  intros c Hc. destruct (c =? old) eqn:E; [|reflexivity].
  apply N.eqb_eq in E. subst c. contradiction.
Qed.

Lemma sub_class_empty_In (cls : list N) (s : ustr) (x : N) :
  In x (Re.sub_class_empty cls s) <-> In x s /\ Re.in_class cls x = false.
Proof.
  unfold Re.sub_class_empty. rewrite filter_In, negb_true_iff. reflexivity.
Qed.

Lemma sub_class_empty_fixed (cls : list N) (s : ustr) :
  (forall c, In c s -> Re.in_class cls c = false) ->
  Re.sub_class_empty cls s = s.
Proof.
  intro H. apply filter_fixed. intros c Hc. now rewrite (H c Hc).
Qed.

Lemma in_class_In (cls : list N) (c : N) :
  Re.in_class cls c = true <-> In c cls.
Proof.
  unfold Re.in_class. rewrite existsb_exists. split.
  - intros [x [Hx E]]. apply N.eqb_eq in E. now subst.
  - intro H. exists c. split; [exact H|apply N.eqb_refl].
Qed.

(** ** White space *)

Lemma isspace_SPACE : Str.isspace SPACE = true.
Proof. reflexivity. Qed.

Lemma sub_spaces_from_spaced (b : bool) (s : ustr) :
  spaced b (Re.sub_spaces_from b s) = true.
Proof.
  revert b; induction s as [|c s IH]; intro b; [reflexivity|].
  cbn [Re.sub_spaces_from]. destruct (Str.isspace c) eqn:E.
  - destruct b; cbn [app].
    + apply IH.
    + cbn [spaced]. rewrite isspace_SPACE, IH. reflexivity.
  - cbn [spaced]. rewrite E. apply IH.
Qed.

Lemma spaced_fixed (b : bool) (l : ustr) :
  spaced b l = true -> Re.sub_spaces_from b l = l.
Proof.
  revert b; induction l as [|c l IH]; intros b H; [reflexivity|].
  cbn [spaced] in H. cbn [Re.sub_spaces_from]. destruct (Str.isspace c).
  - apply andb_true_iff in H as [H H2]. apply andb_true_iff in H as [H0 H1].
    apply N.eqb_eq in H0. apply negb_true_iff in H1. subst b c.
    cbn [app]. f_equal. now apply IH.
  - f_equal. now apply IH.
Qed.

Lemma sub_spaces_from_In (b : bool) (s : ustr) (x : N) :
  In x (Re.sub_spaces_from b s) -> x = SPACE \/ (In x s /\ Str.isspace x = false).
Proof.
  revert b; induction s as [|c s IH]; intros b H; [destruct H|].
  cbn [Re.sub_spaces_from] in H. destruct (Str.isspace c) eqn:E.
  - apply in_app_or in H as [H|H].
    + destruct b; [destruct H|]. destruct H as [H|[]]. now left.
    + apply IH in H as [H|[H1 H2]]; [now left|]. right. split; [now right|exact H2].
  - destruct H as [H|H].
    + subst x. right. split; [now left|exact E].
    + apply IH in H as [H|[H1 H2]]; [now left|]. right. split; [now right|exact H2].
Qed.

Lemma dropwhile_split (f : N -> bool) (l : ustr) :
  exists pre, l = pre ++ Str.dropwhile f l /\ (forall c, In c pre -> f c = true).
Proof.
  induction l as [|c l [pre [E H]]]; cbn [Str.dropwhile].
  - exists []. split; [reflexivity|]. intros c [].
  - destruct (f c) eqn:Ec.
    + exists (c :: pre). split; [cbn [app]; now f_equal|].
      intros d [Hd|Hd]; [now subst|now apply H].
    + exists []. split; [reflexivity|]. intros d [].
Qed.

Lemma dropwhile_head (f : N -> bool) (l : ustr) :
  match Str.dropwhile f l with c :: _ => f c = false | [] => True end.
Proof.
  induction l as [|c l IH]; cbn [Str.dropwhile]; [exact I|].
  destruct (f c) eqn:E; [exact IH|exact E].
Qed.

Lemma dropwhile_fixed (f : N -> bool) (l : ustr) :
  match l with c :: _ => f c = false | [] => True end -> Str.dropwhile f l = l.
Proof.
  destruct l as [|c l]; cbn [Str.dropwhile]; [reflexivity|].
  intro H. now rewrite H.
Qed.

Lemma spaced_app_l (b : bool) (x y : ustr) :
  spaced b (x ++ y) = true -> spaced b x = true.
Proof.
  revert b; induction x as [|c x IH]; intros b H; [reflexivity|].
  cbn [app spaced] in *. destruct (Str.isspace c).
  - apply andb_true_iff in H as [H H2]. rewrite H. now apply IH.
  - now apply IH.
Qed.

Lemma spaced_dropwhile (b : bool) (l : ustr) :
  spaced b l = true -> spaced false (Str.dropwhile Str.isspace l) = true.
Proof.
  revert b; induction l as [|c l IH]; intros b H; [reflexivity|].
  cbn [Str.dropwhile]. cbn [spaced] in H. destruct (Str.isspace c) eqn:E.
  - apply andb_true_iff in H as [_ H]. now apply IH in H.
  - cbn [spaced]. now rewrite E.
Qed.

(** [rstrip] keeps a prefix and drops white space only. *)
Lemma rstrip_split (l : ustr) :
  exists ws, l = Str.rstrip l ++ ws /\ (forall c, In c ws -> Str.isspace c = true).
Proof.
  unfold Str.rstrip.
  destruct (dropwhile_split Str.isspace (rev l)) as [pre [E H]].
  exists (rev pre). split.
  - rewrite <- rev_app_distr, <- E. symmetry. apply rev_involutive.
  - intros c Hc. apply H. now apply in_rev.
Qed.

Lemma lstrip_split (l : ustr) :
  exists ws, l = ws ++ Str.lstrip l /\ (forall c, In c ws -> Str.isspace c = true).
Proof. apply dropwhile_split. Qed.

Lemma strip_In (l : ustr) (x : N) : In x (Str.strip l) -> In x l.
Proof.
  unfold Str.strip. intro H.
  destruct (lstrip_split l) as [ws [E _]].
  destruct (rstrip_split (Str.lstrip l)) as [ws' [E' _]].
  rewrite E, E'. apply in_or_app. right. apply in_or_app. now left.
Qed.

Lemma strip_spaced (l : ustr) :
  spaced false l = true -> spaced false (Str.strip l) = true.
Proof.
  intro H. unfold Str.strip.
  destruct (rstrip_split (Str.lstrip l)) as [ws [E _]].
  apply spaced_dropwhile in H. fold (Str.lstrip l) in H.
  rewrite E in H. now apply spaced_app_l in H.
Qed.

Lemma lstrip_starts_clean (l : ustr) : starts_clean (Str.lstrip l).
Proof. apply (dropwhile_head Str.isspace). Qed.

Lemma rstrip_ends_clean (l : ustr) : ends_clean (Str.rstrip l).
Proof.
  unfold ends_clean, Str.rstrip. rewrite rev_involutive.
  apply (dropwhile_head Str.isspace).
Qed.

Lemma rstrip_starts_clean (l : ustr) :
  starts_clean l -> starts_clean (Str.rstrip l).
Proof.
  intro H. destruct (rstrip_split l) as [ws [E _]].
  destruct (Str.rstrip l) as [|c r]; [exact I|].
  rewrite E in H. exact H.
Qed.

Lemma strip_clean (l : ustr) :
  starts_clean (Str.strip l) /\ ends_clean (Str.strip l).
Proof.
  split.
  - apply rstrip_starts_clean, lstrip_starts_clean.
  - apply rstrip_ends_clean.
Qed.

Lemma strip_fixed (l : ustr) :
  starts_clean l -> ends_clean l -> Str.strip l = l.
Proof.
  intros Hs He. unfold Str.strip, Str.lstrip.
  rewrite (dropwhile_fixed Str.isspace l Hs).
  unfold Str.rstrip. rewrite (dropwhile_fixed Str.isspace (rev l) He).
  apply rev_involutive.
Qed.

(** ** splitext *)

Lemma rfind_from_absent (i : Z) (c : N) (p : ustr) :
  ~ In c p -> Posixpath.rfind_from i c p = (-1)%Z.
Proof.
  revert i; induction p as [|x p IH]; intros i H; [reflexivity|].
  cbn [Posixpath.rfind_from]. rewrite IH by (intro; apply H; now right).
  destruct (x =? c) eqn:E.
  - apply N.eqb_eq in E. exfalso. apply H. now left.
  - reflexivity.
Qed.

Lemma rfind_from_lower (i : Z) (c : N) (p : ustr) :
  (0 <= i)%Z -> (-1 <= Posixpath.rfind_from i c p)%Z.
Proof.
  revert i; induction p as [|x p IH]; intros i H; cbn [Posixpath.rfind_from]; [lia|].
  destruct (0 <=? Posixpath.rfind_from (i + 1) c p)%Z eqn:E.
  - apply Z.leb_le in E. lia.
  - destruct (x =? c); lia.
Qed.

Lemma splitext_no_dot (p : ustr) :
  ~ In FULL_STOP p -> Posixpath.splitext p = (p, []).
Proof.
  intro H. unfold Posixpath.splitext, Posixpath.rfind.
  rewrite (rfind_from_absent 0 FULL_STOP p H).
  pose proof (rfind_from_lower 0 SLASH p (Z.le_refl 0)) as L.
  destruct (-1 >? Posixpath.rfind_from 0 SLASH p)%Z eqn:E; [|reflexivity].
  apply Z.gtb_lt in E. lia.
Qed.

(** The stem is a prefix of the name. *)
Lemma splitext_prefix (p : ustr) (x : N) :
  In x (fst (Posixpath.splitext p)) -> In x p.
Proof.
  unfold Posixpath.splitext.
  destruct (_ && _); cbn [fst]; [|tauto].
  intro H. rewrite <- (firstn_skipn (Z.to_nat (Posixpath.rfind FULL_STOP p)) p).
  apply in_or_app. now left.
Qed.

(** ** Lowering *)

Lemma lowercase_rows_ok :
  forallb lowercase_row_ok (PositiveMap.elements UCD.lowercase_index) = true.
Proof. vm_compute. reflexivity. Qed.

Lemma inert_parts (c : N) :
  inert c = true ->
  UCD.decomposition c = [c] /\ UCD.ccc c = 0 /\ UCD.is_Mn c = false
  /\ Re.in_class Re.punctuation c = false /\ c <> CYR_io /\ c <> CYR_IO.
Proof.
  unfold inert, settled. intro H.
  repeat (apply andb_true_iff in H as [H ?]).
  repeat match goal with
         | X : negb _ = true |- _ => apply negb_true_iff in X
         | X : (_ =? _) = false |- _ => apply N.eqb_neq in X
         | X : (_ =? _) = true |- _ => apply N.eqb_eq in X
         end.
  apply ustr_eqb_eq in H. tauto.
Qed.

Lemma to_lower_full_inert (c : N) :
  inert c = true -> Str.isspace c = false ->
  UCD.to_lower_full c <> [] /\
  forall x, In x (UCD.to_lower_full c) ->
            inert x = true /\ lowered x = true /\ Str.isspace x = false.
Proof.
  intros Hi Hs. unfold UCD.to_lower_full at 1 2.
  destruct (PositiveMap.find (UCD.key c) UCD.lowercase_index) as [l|] eqn:Hf.
  - apply find_elements in Hf.
    pose proof lowercase_rows_ok as R. rewrite forallb_forall in R.
    specialize (R _ Hf). unfold lowercase_row_ok in R. cbn [fst snd] in R.
    rewrite key_unkey, Hi, Hs in R. cbn [negb orb] in R.
    apply andb_true_iff in R as [Rn Ra]. split.
    + intro E. subst l. discriminate Rn.
    + intros x Hx. rewrite forallb_forall in Ra. specialize (Ra x Hx).
      apply andb_true_iff in Ra as [Ra Rs]. apply andb_true_iff in Ra as [Ra Rl].
      apply negb_true_iff in Rs. tauto.
  - split; [discriminate|]. intros x [Hx|[]]. subst x.
    split; [exact Hi|]. split; [|exact Hs].
    unfold lowered. apply andb_true_iff. split.
    + unfold UCD.to_lower_full. rewrite Hf. apply ustr_eqb_refl.
    + apply negb_true_iff, N.eqb_neq. intro E. subst c.
      vm_compute in Hf. discriminate Hf.
Qed.

Lemma lower_image_good (c : N) (img : ustr) :
  lower_image c img -> inert c = true -> (Str.isspace c = true -> c = SPACE) ->
  keeps_spacing c img /\
  forall x, In x img ->
            inert x = true /\ lowered x = true /\ (Str.isspace x = true -> x = SPACE).
Proof.
  intros [[Ec Hi]|[Nc Hi]] Hc Hs.
  - subst c. split.
    + right. split; [reflexivity|]. split.
      * destruct Hi as [Hi|Hi]; subst img; discriminate.
      * intros x Hx. destruct Hi as [Hi|Hi]; subst img;
          destruct Hx as [Hx|[]]; subst x; reflexivity.
    + intros x Hx. destruct Hi as [Hi|Hi]; subst img;
        destruct Hx as [Hx|[]]; subst x; (split; [reflexivity|split; [reflexivity|discriminate]]).
  - destruct (Str.isspace c) eqn:E.
    + specialize (Hs eq_refl). subst c img. split.
      * left. split; reflexivity.
      * intros x [Hx|[]]. subst x. split; [reflexivity|]. split; [reflexivity|]. reflexivity.
    + destruct (to_lower_full_inert c Hc E) as [Hn Ha]. subst img. split.
      * right. split; [exact E|]. split; [exact Hn|]. intros x Hx. apply Ha, Hx.
      * intros x Hx. destruct (Ha x Hx) as [H1 [H2 H3]].
        split; [exact H1|]. split; [exact H2|]. rewrite H3. discriminate.
Qed.

Lemma lower_from_images (b s : ustr) :
  exists imgs, Forall2 lower_image s imgs /\ Str.lower_from b s = List.concat imgs.
Proof.
  revert b; induction s as [|c s IH]; intros b.
  - exists []. split; [constructor|reflexivity].
  - destruct (IH (c :: b)) as [imgs [HF HE]]. cbn [Str.lower_from]. rewrite HE.
    destruct (c =? CAPITAL_SIGMA) eqn:E.
    + apply N.eqb_eq in E.
      exists ([if Str.final_sigma b s then FINAL_SIGMA else SMALL_SIGMA] :: imgs).
      split; [|reflexivity]. constructor; [|exact HF].
      left. split; [exact E|]. destruct (Str.final_sigma b s); tauto.
    + apply N.eqb_neq in E. exists (UCD.to_lower_full c :: imgs).
      split; [|reflexivity]. constructor; [|exact HF]. right. tauto.
Qed.

Lemma lower_from_fixed (b t : ustr) :
  (forall c, In c t -> lowered c = true) -> Str.lower_from b t = t.
Proof.
  revert b; induction t as [|c t IH]; intros b H; [reflexivity|].
  cbn [Str.lower_from].
  assert (Hc : lowered c = true) by (apply H; now left).
  unfold lowered in Hc. apply andb_true_iff in Hc as [H1 H2].
  apply negb_true_iff in H2. rewrite H2. apply ustr_eqb_eq in H1. rewrite H1.
  cbn [app]. f_equal. apply IH. intros d Hd. apply H. now right.
Qed.

Lemma Forall2_concat_In (R : N -> ustr -> Prop) (s : ustr) (imgs : list ustr) (x : N) :
  Forall2 R s imgs -> In x (List.concat imgs) ->
  exists c img, In c s /\ R c img /\ In x img.
Proof.
  induction 1 as [|c img s imgs Hc HF IH]; cbn [List.concat]; intro H; [destruct H|].
  apply in_app_or in H as [H|H].
  - exists c, img. split; [now left|tauto].
  - destruct (IH H) as [c' [img' [H1 H2]]]. exists c', img'. split; [now right|exact H2].
Qed.

Lemma Forall2_weaken (R R' : N -> ustr -> Prop) (s : ustr) (imgs : list ustr) :
  (forall c img, In c s -> R c img -> R' c img) ->
  Forall2 R s imgs -> Forall2 R' s imgs.
Proof.
  intros H HF. induction HF as [|c img s imgs Hc HF IH]; constructor.
  - apply H; [now left|exact Hc].
  - apply IH. intros d i Hd. apply H. now right.
Qed.

Lemma spaced_nonspace_app (p : bool) (img t : ustr) :
  img <> [] -> (forall x, In x img -> Str.isspace x = false) ->
  spaced p (img ++ t) = spaced false t.
Proof.
  revert p; induction img as [|x img IH]; intros p Hn Ha; [congruence|].
  cbn [app spaced]. rewrite (Ha x (or_introl eq_refl)).
  destruct img as [|y img]; [reflexivity|].
  apply IH; [discriminate|]. intros z Hz. apply Ha. now right.
Qed.

Lemma spaced_concat (p : bool) (s : ustr) (imgs : list ustr) :
  Forall2 keeps_spacing s imgs -> spaced p s = true -> spaced p (List.concat imgs) = true.
Proof.
  intro HF. revert p. induction HF as [|c img s imgs Hc HF IH]; intros p H; [reflexivity|].
  cbn [List.concat]. cbn [spaced] in H. destruct Hc as [[Hs Hi]|[Hs [Hn Ha]]].
  - subst img. rewrite Hs in H. cbn [app spaced]. rewrite Hs.
    apply andb_true_iff in H as [H H2]. rewrite H. now apply IH.
  - rewrite Hs in H. rewrite spaced_nonspace_app by assumption. now apply IH.
Qed.

Lemma starts_clean_concat (s : ustr) (imgs : list ustr) :
  Forall2 keeps_spacing s imgs -> starts_clean s -> starts_clean (List.concat imgs).
Proof.
  intros HF H. destruct HF as [|c img s imgs Hc HF]; [exact I|].
  cbn [List.concat]. cbn [starts_clean] in H.
  destruct Hc as [[Hs _]|[_ [Hn Ha]]]; [congruence|].
  destruct img as [|x img]; [congruence|]. cbn [app starts_clean].
  apply Ha. now left.
Qed.

Lemma ends_clean_snoc (l : ustr) (c : N) :
  ends_clean (l ++ [c]) <-> Str.isspace c = false.
Proof. unfold ends_clean. rewrite rev_app_distr. reflexivity. Qed.

Lemma ends_clean_concat (s : ustr) (imgs : list ustr) :
  Forall2 keeps_spacing s imgs -> ends_clean s -> ends_clean (List.concat imgs).
Proof.
  intros HF H. destruct (list_eq_dec N.eq_dec s []) as [E|Hne].
  - subst s. inversion HF. exact I.
  - destruct (exists_last Hne) as [s' [c E]]. subst s. clear Hne.
    apply Forall2_app_inv_l in HF as [i1 [i2 [H1 [H2 E2]]]].
    inversion H2 as [|c' img l' imgs' Hc Hnil]; subst. inversion Hnil; subst.
    rewrite concat_app. cbn [List.concat]. rewrite app_nil_r.
    apply ends_clean_snoc in H.
    destruct Hc as [[Hs _]|[_ [Hn Ha]]]; [congruence|].
    destruct (exists_last Hn) as [img' [x Ex]]. subst img.
    rewrite app_assoc. apply ends_clean_snoc. apply Ha.
    apply in_or_app. right. now left.
Qed.

(** ** The core of both normalisers *)

(** The core of a string without spacing marks is tidy. *)
Lemma core_In (s : ustr) (x : N) :
  In x (core s) ->
  x = SPACE \/ x = CYR_IE \/ x = CYR_ie \/
  (Re.in_class Re.punctuation x = false /\ x <> CYR_io /\ x <> CYR_IO /\
   UCD.is_Mn x = false /\ Str.isspace x = false /\
   exists c, In c s /\ In x (UCD.decomposition c)).
Proof.
  unfold core. intro H. apply strip_In in H.
  apply sub_spaces_from_In in H as [H|[H Hs]]; [now left|].
  apply sub_class_empty_In in H as [H Hp].
  apply replace_In in H as [[N1 H]|[H|[]]]; [|right; left; now symmetry].
  apply replace_In in H as [[N2 H]|[H|[]]]; [|right; right; left; now symmetry].
  apply filter_In in H as [H Hm]. apply negb_true_iff in Hm.
  apply normalize_NFD_In in H.
  right; right; right. tauto.
Qed.

Lemma nonspacing_marks_only_In (s : ustr) (c d : N) :
  nonspacing_marks_only s = true -> In c s -> In d (UCD.decomposition c) ->
  UCD.is_Mn d = false -> UCD.ccc d = 0.
Proof.
  unfold nonspacing_marks_only. intros H Hc Hd Hm.
  rewrite forallb_forall in H. specialize (H c Hc).
  rewrite forallb_forall in H. specialize (H d Hd).
  rewrite Hm, orb_false_r in H. now apply N.eqb_eq.
Qed.

Lemma core_tidy (s : ustr) :
  (forall c d, In c s -> In d (UCD.decomposition c) -> UCD.is_Mn d = false ->
               UCD.ccc d = 0) ->
  tidy (core s).
Proof.
  intro Hs. split; [|split].
  - intros x Hx. apply core_In in Hx as [E|[E|[E|H]]];
      try (subst x; split; [reflexivity|]; first [reflexivity | discriminate]).
    destruct H as [Hp [N1 [N2 [Hm [Hw [c [Hc Hd]]]]]]].
    split; [|congruence].
    unfold inert, settled.
    rewrite (decomposition_settled c x Hd), ustr_eqb_refl.
    rewrite (Hs c x Hc Hd Hm), Hm, Hp.
    apply N.eqb_neq in N1, N2. rewrite N1, N2. reflexivity.
  - unfold core. apply strip_spaced. apply sub_spaces_from_spaced.
  - unfold core. apply strip_clean.
Qed.

Lemma lower_tidy (w : ustr) :
  tidy w -> tidy (Str.lower w) /\ forall x, In x (Str.lower w) -> lowered x = true.
Proof.
  intros [Hc [Hsp [Hst He]]]. unfold Str.lower.
  destruct (lower_from_images [] w) as [imgs [HF HE]]. rewrite HE.
  assert (HK : Forall2 keeps_spacing w imgs).
  { apply Forall2_weaken with (R := lower_image); [|exact HF]. intros c img Hin Hi.
    destruct (Hc c Hin) as [H1 H2]. exact (proj1 (lower_image_good c img Hi H1 H2)). }
  assert (HG : forall x, In x (List.concat imgs) ->
                         inert x = true /\ lowered x = true /\
                         (Str.isspace x = true -> x = SPACE)).
  { intros x Hx. destruct (Forall2_concat_In _ _ _ _ HF Hx) as [c [img [Hin [Hi Hxi]]]].
    destruct (Hc c Hin) as [H1 H2].
    exact (proj2 (lower_image_good c img Hi H1 H2) x Hxi). }
  split; [split; [|split; [|split]]|].
  - intros x Hx. destruct (HG x Hx) as [H1 [_ H3]]. tauto.
  - now apply spaced_concat with (s := w).
  - now apply starts_clean_concat with (s := w).
  - now apply ends_clean_concat with (s := w).
  - intros x Hx. apply HG, Hx.
Qed.

Lemma tidy_core_fixed (t : ustr) : tidy t -> core t = t.
Proof.
  intros [Hc [Hsp [Hst He]]]. unfold core.
  assert (P : forall c, In c t -> UCD.decomposition c = [c] /\ UCD.ccc c = 0 /\
                UCD.is_Mn c = false /\ Re.in_class Re.punctuation c = false /\
                c <> CYR_io /\ c <> CYR_IO).
  { intros c Hin. apply inert_parts. apply Hc, Hin. }
  rewrite normalize_NFD_fixed; [|intros c Hin; apply P, Hin|intros c Hin; apply P, Hin].
  rewrite filter_fixed
    by (intros c Hin; unfold Unicodedata.not_Mn;
        destruct (P c Hin) as [_ [_ [Hm _]]]; now rewrite Hm).
  rewrite (replace_absent CYR_io)
    by (intro Hin; destruct (P _ Hin) as [_ [_ [_ [_ [N1 _]]]]]; exact (N1 eq_refl)).
  rewrite (replace_absent CYR_IO)
    by (intro Hin; destruct (P _ Hin) as [_ [_ [_ [_ [_ N2]]]]]; exact (N2 eq_refl)).
  rewrite sub_class_empty_fixed by (intros c Hin; apply P, Hin).
  unfold Re.sub_spaces. rewrite spaced_fixed by exact Hsp.
  now apply strip_fixed.
Qed.

Lemma tidy_no_punctuation (t : ustr) (x : N) :
  tidy t -> In x Re.punctuation -> ~ In x t.
Proof.
  intros [Hc _] Hp Hin. destruct (Hc x Hin) as [Hi _].
  apply inert_parts in Hi. apply in_class_In in Hp. intuition congruence.
Qed.

Lemma norm_base_core (s : ustr) :
  norm_base s = Str.lower (core (fst (Posixpath.splitext s))).
Proof. reflexivity. Qed.

Lemma norm_base_fixed (t : ustr) :
  tidy t -> (forall c, In c t -> lowered c = true) -> norm_base t = t.
Proof.
  intros Ht Hl. rewrite norm_base_core.
  rewrite splitext_no_dot.
  - cbn [fst]. rewrite tidy_core_fixed by exact Ht. now apply lower_from_fixed.
  - apply tidy_no_punctuation; [exact Ht|]. unfold Re.punctuation, FULL_STOP.
    cbn [In]. tauto.
Qed.

(** ** Path separators and hyphens *)

Ltac separator := first [assumption | left; reflexivity | right; reflexivity].

Lemma decomposition_rows_free :
  forallb row_free_of_separators (PositiveMap.elements UCD.decomposition_index) = true.
Proof. vm_compute. reflexivity. Qed.

Lemma lowercase_rows_free :
  forallb row_free_of_separators (PositiveMap.elements UCD.lowercase_index) = true.
Proof. vm_compute. reflexivity. Qed.

Lemma row_free_not_In (r : positive * list N) (x : N) :
  row_free_of_separators r = true -> is_separator_or_hyphen x -> ~ In x (snd r).
Proof.
  unfold row_free_of_separators. intros H Hx Hin.
  rewrite forallb_forall in H. specialize (H x Hin).
  destruct Hx as [E|[E|E]]; subst x; discriminate H.
Qed.

Lemma decomposition_keeps (x c : N) :
  is_separator_or_hyphen x -> In x (UCD.decomposition c) -> c = x.
Proof.
  intros Hx. unfold UCD.decomposition.
  destruct (UCD.is_hangul_syllable c) eqn:Hh.
  - intro Hd. apply hangul_decomposition_jamo in Hd; [|exact Hh].
    exfalso. destruct Hx as [E|[E|E]]; subst x;
      unfold SLASH, BACKSLASH, HYPHEN in Hd; lia.
  - destruct (PositiveMap.find (UCD.key c) UCD.decomposition_index) as [l|] eqn:Hf.
    + intro Hd. apply find_elements in Hf.
      pose proof decomposition_rows_free as R. rewrite forallb_forall in R.
      specialize (R _ Hf). exfalso. exact (row_free_not_In _ x R Hx Hd).
    + intros [Hd|[]]. exact Hd.
Qed.

Lemma to_lower_full_keeps (x c : N) :
  is_separator_or_hyphen x -> In x (UCD.to_lower_full c) -> c = x.
Proof.
  intros Hx. unfold UCD.to_lower_full.
  destruct (PositiveMap.find (UCD.key c) UCD.lowercase_index) as [l|] eqn:Hf.
  - intro Hd. apply find_elements in Hf.
    pose proof lowercase_rows_free as R. rewrite forallb_forall in R.
    specialize (R _ Hf). exfalso. exact (row_free_not_In _ x R Hx Hd).
  - intros [Hd|[]]. exact Hd.
Qed.

Lemma separator_fixed (x : N) :
  is_separator_or_hyphen x ->
  UCD.decomposition x = [x] /\ UCD.to_lower_full x = [x] /\ UCD.is_Mn x = false
  /\ Str.isspace x = false /\ x <> CAPITAL_SIGMA /\ x <> SMALL_SIGMA /\ x <> FINAL_SIGMA
  /\ x <> CYR_io /\ x <> CYR_IO /\ x <> CYR_ie /\ x <> CYR_IE.
Proof.
  intros [E|[E|E]]; subst x; repeat split; try reflexivity; discriminate.
Qed.

Lemma absent_by_test (x : N) (s : ustr) : existsb (N.eqb x) s = false -> ~ In x s.
Proof.
  intros H Hin. assert (E : existsb (N.eqb x) s = true).
  { apply existsb_exists. exists x. split; [exact Hin|apply N.eqb_refl]. }
  congruence.
Qed.

(** *** Counting *)

Lemma count_app (x : N) (a b : ustr) : count x (a ++ b) = (count x a + count x b)%nat.
Proof. apply count_occ_app. Qed.

Lemma count_absent (x : N) (a : ustr) : ~ In x a -> count x a = 0%nat.
Proof. intro H. now apply count_occ_not_In. Qed.

Lemma count_flat_map (f : N -> list N) (x : N) (l : ustr) :
  (forall c, In x (f c) -> c = x) -> f x = [x] ->
  count x (flat_map f l) = count x l.
Proof.
  intros Hk Hx. induction l as [|c l IH]; [reflexivity|].
  cbn [flat_map]. rewrite count_app, IH. unfold count at 3. cbn [count_occ].
  destruct (N.eq_dec c x) as [E|E].
  - subst c. rewrite Hx. unfold count at 1. cbn [count_occ].
    destruct (N.eq_dec x x); [reflexivity|congruence].
  - rewrite count_absent; [reflexivity|]. intro H. apply Hk in H. congruence.
Qed.

Lemma count_normalize_NFD (x : N) (s : ustr) :
  is_separator_or_hyphen x -> count x (Unicodedata.normalize_NFD s) = count x s.
Proof.
  intro Hx. unfold Unicodedata.normalize_NFD, count.
  rewrite (proj1 (Permutation_count_occ N.eq_dec _ _)
                  (canonical_order_perm (flat_map UCD.decomposition s)) x).
  apply count_flat_map.
  - intro c. now apply decomposition_keeps.
  - now apply separator_fixed.
Qed.

Lemma count_filter (f : N -> bool) (x : N) (l : ustr) :
  f x = true -> count x (filter f l) = count x l.
Proof.
  intro H. induction l as [|c l IH]; [reflexivity|].
  cbn [filter]. unfold count in *. destruct (f c) eqn:E; cbn [count_occ].
  - destruct (N.eq_dec c x); now rewrite IH.
  - destruct (N.eq_dec c x) as [E'|E']; [congruence|exact IH].
Qed.

Lemma count_replace_other (old : N) (new : ustr) (x : N) (l : ustr) :
  x <> old -> ~ In x new -> count x (Str.replace old new l) = count x l.
Proof.
  intros H1 H2. unfold Str.replace. apply count_flat_map.
  - intros c Hc. destruct (c =? old); [contradiction|].
    destruct Hc as [Hc|[]]. exact Hc.
  - apply N.eqb_neq in H1. now rewrite H1.
Qed.

Lemma count_replace_new (old new : N) (l : ustr) :
  old <> new ->
  count new (Str.replace old [new] l) = (count new l + count old l)%nat.
Proof.
  intro H. induction l as [|c l IH]; [reflexivity|].
  unfold Str.replace in *. cbn [flat_map]. rewrite count_app, IH.
  unfold count. cbn [count_occ]. destruct (c =? old) eqn:E.
  - apply N.eqb_eq in E. subst c. cbn [count_occ].
    destruct (N.eq_dec new new); [|congruence].
    destruct (N.eq_dec old new); [congruence|].
    destruct (N.eq_dec old old); [|congruence]. lia.
  - apply N.eqb_neq in E. cbn [count_occ].
    destruct (N.eq_dec c new); destruct (N.eq_dec c old); try congruence; lia.
Qed.

Lemma count_sub_spaces_from (b : bool) (x : N) (l : ustr) :
  Str.isspace x = false -> count x (Re.sub_spaces_from b l) = count x l.
Proof.
  intro H. revert b. induction l as [|c l IH]; intro b; [reflexivity|].
  cbn [Re.sub_spaces_from]. unfold count in *. destruct (Str.isspace c) eqn:E.
  - rewrite count_occ_app, IH. cbn [count_occ].
    destruct (N.eq_dec c x) as [E'|E']; [congruence|].
    destruct b; cbn [count_occ]; [reflexivity|].
    destruct (N.eq_dec SPACE x) as [E2|E2]; [|reflexivity].
    subst x. discriminate H.
  - cbn [count_occ]. destruct (N.eq_dec c x); now rewrite IH.
Qed.

Lemma count_strip (x : N) (l : ustr) :
  Str.isspace x = false -> count x (Str.strip l) = count x l.
Proof.
  intro H. unfold Str.strip.
  destruct (lstrip_split l) as [ws [E Hw]].
  destruct (rstrip_split (Str.lstrip l)) as [ws' [E' Hw']].
  rewrite E at 2. rewrite E' at 2. rewrite !count_app.
  rewrite (count_absent x ws), (count_absent x ws'); [lia| |];
    intro Hin; [apply Hw' in Hin|apply Hw in Hin]; congruence.
Qed.

Lemma count_cons (x c : N) (l : ustr) :
  count x (c :: l) = ((if N.eq_dec c x then 1 else 0) + count x l)%nat.
Proof. unfold count. cbn [count_occ]. destruct (N.eq_dec c x); reflexivity. Qed.

Lemma count_cons_ne (x c : N) (l : ustr) : c <> x -> count x (c :: l) = count x l.
Proof. intro H. rewrite count_cons. destruct (N.eq_dec c x); [congruence|reflexivity]. Qed.

Lemma count_cons_eq (x : N) (l : ustr) : count x (x :: l) = S (count x l).
Proof. rewrite count_cons. destruct (N.eq_dec x x); [reflexivity|congruence]. Qed.

Lemma count_lower_from (b : ustr) (x : N) (l : ustr) :
  is_separator_or_hyphen x -> count x (Str.lower_from b l) = count x l.
Proof.
  intro Hx. revert b. induction l as [|c l IH]; intro b; [reflexivity|].
  cbn [Str.lower_from]. rewrite count_app, IH.
  destruct (separator_fixed x Hx) as [_ [Hl [_ [_ [N1 [N2 [N3 _]]]]]]].
  destruct (c =? CAPITAL_SIGMA) eqn:E.
  - apply N.eqb_eq in E. subst c.
    rewrite (count_cons_ne x CAPITAL_SIGMA) by congruence.
    destruct (Str.final_sigma b l); rewrite count_cons_ne by congruence; reflexivity.
  - destruct (N.eq_dec c x) as [E'|E'].
    + subst c. rewrite Hl, !count_cons_eq. reflexivity.
    + rewrite count_cons_ne by exact E'. rewrite count_absent; [reflexivity|].
      intro Hin. apply to_lower_full_keeps in Hin; congruence.
Qed.

(** The separators of a string survive up to the end of the punctuation step. *)
Lemma count_cleaned (x : N) (s : ustr) :
  x = SLASH \/ x = BACKSLASH ->
  count x (Re.sub_class_empty Re.punctuation
             (Str.replace CYR_IO [CYR_IE] (Str.replace CYR_io [CYR_ie]
                (filter Unicodedata.not_Mn (Unicodedata.normalize_NFD s)))))
  = count x s.
Proof.
  intro Hx.
  assert (Hs : is_separator_or_hyphen x) by (unfold is_separator_or_hyphen; tauto).
  destruct (separator_fixed x Hs) as [_ [_ [Hm [_ [_ [_ [_ [N1 [N2 [N3 N4]]]]]]]]]].
  unfold Re.sub_class_empty.
  rewrite count_filter by (destruct Hx; subst x; reflexivity).
  rewrite count_replace_other; [|exact N2|intros [H|[]]; congruence].
  rewrite count_replace_other; [|exact N1|intros [H|[]]; congruence].
  rewrite count_filter by (unfold Unicodedata.not_Mn; now rewrite Hm).
  now apply count_normalize_NFD.
Qed.

Lemma count_core (x : N) (s : ustr) :
  x = SLASH \/ x = BACKSLASH -> count x (core s) = count x s.
Proof.
  intro Hx. unfold core, Re.sub_spaces.
  rewrite count_strip, count_sub_spaces_from by (destruct Hx; subst x; reflexivity).
  now apply count_cleaned.
Qed.

Lemma sanitize_filename_hyphens (s : ustr) :
  count HYPHEN (sanitize_filename s) = (count SLASH s + count BACKSLASH s)%nat.
Proof.
  unfold sanitize_filename, Re.sub_spaces.
  rewrite count_strip, count_sub_spaces_from by reflexivity.
  rewrite count_replace_new by discriminate.
  rewrite count_replace_new by discriminate.
  rewrite (count_replace_other SLASH [HYPHEN] BACKSLASH);
    [|discriminate|intros [H|[]]; discriminate].
  rewrite (count_cleaned SLASH), (count_cleaned BACKSLASH) by separator.
  rewrite (count_absent HYPHEN); [lia|].
  intro H. apply sub_class_empty_In in H as [_ H]. discriminate H.
Qed.

Lemma sanitize_filename_In (s : ustr) (x : N) :
  In x (sanitize_filename s) ->
  x <> SLASH /\ x <> BACKSLASH /\
  (x = SPACE \/ x = HYPHEN \/ Re.in_class Re.punctuation x = false).
Proof.
  unfold sanitize_filename. intro H. apply strip_In in H.
  apply sub_spaces_from_In in H as [H|[H _]].
  { subst x. repeat split; try discriminate. now left. }
  apply replace_In in H as [[N1 H]|[H|[]]];
    [|subst x; repeat split; try discriminate; right; now left].
  apply replace_In in H as [[N2 H]|[H|[]]];
    [|subst x; repeat split; try discriminate; right; now left].
  apply sub_class_empty_In in H as [_ H]. tauto.
Qed.

Lemma spaced_no_run (p : bool) (l1 : ustr) (a b : N) (l2 : ustr) :
  spaced p (l1 ++ a :: b :: l2) = true ->
  Str.isspace a = true -> Str.isspace b = true -> False.
Proof.
  revert p. induction l1 as [|c l1 IH]; intros p H Ha Hb.
  - cbn [app spaced] in H. rewrite Ha, Hb in H. cbn [negb] in H.
    rewrite andb_false_r in H. cbn [andb] in H. rewrite andb_false_r in H. discriminate.
  - cbn [app spaced] in H. destruct (Str.isspace c).
    + apply andb_true_iff in H as [_ H]. exact (IH _ H Ha Hb).
    + exact (IH _ H Ha Hb).
Qed.

Lemma sanitize_filename_spaced (s : ustr) :
  spaced false (sanitize_filename s) = true.
Proof. unfold sanitize_filename. apply strip_spaced, sub_spaces_from_spaced. Qed.

Lemma sanitize_filename_clean (s : ustr) :
  starts_clean (sanitize_filename s) /\ ends_clean (sanitize_filename s).
Proof. unfold sanitize_filename. apply strip_clean. Qed.

Lemma no_separator_cleaned (x : N) (s : ustr) :
  x = SLASH \/ x = BACKSLASH -> ~ In x s ->
  ~ In x (Re.sub_class_empty Re.punctuation
            (Str.replace CYR_IO [CYR_IE] (Str.replace CYR_io [CYR_ie]
               (filter Unicodedata.not_Mn (Unicodedata.normalize_NFD s))))).
Proof.
  intros Hx Hn Hin. apply (count_occ_In N.eq_dec) in Hin.
  fold (count x (Re.sub_class_empty Re.punctuation
            (Str.replace CYR_IO [CYR_IE] (Str.replace CYR_io [CYR_ie]
               (filter Unicodedata.not_Mn (Unicodedata.normalize_NFD s)))))) in Hin.
  rewrite count_cleaned in Hin by exact Hx.
  rewrite count_absent in Hin by exact Hn. lia.
Qed.

(** Without separators in the input, [sanitize_filename] is the core. *)
Lemma sanitize_filename_core (s : ustr) :
  ~ In SLASH s -> ~ In BACKSLASH s -> sanitize_filename s = core s.
Proof.
  intros H1 H2. unfold sanitize_filename, core.
  rewrite (replace_absent SLASH) by (apply no_separator_cleaned; separator).
  rewrite (replace_absent BACKSLASH) by (apply no_separator_cleaned; separator).
  reflexivity.
Qed.

Lemma core_no_separator (x : N) (s : ustr) :
  x = SLASH \/ x = BACKSLASH -> ~ In x s -> ~ In x (core s).
Proof.
  intros Hx Hn Hin. apply (count_occ_In N.eq_dec) in Hin. fold (count x (core s)) in Hin.
  rewrite count_core in Hin by exact Hx. rewrite count_absent in Hin by exact Hn. lia.
Qed.

Lemma nonspacing_marks_only_stem (s : ustr) :
  nonspacing_marks_only s = true ->
  forall c d, In c (fst (Posixpath.splitext s)) -> In d (UCD.decomposition c) ->
              UCD.is_Mn d = false -> UCD.ccc d = 0.
Proof.
  intros H c d Hc. apply nonspacing_marks_only_In with (s := s); [exact H|].
  now apply splitext_prefix.
Qed.

(** The hyphen that [sanitize_filename] writes for a slash is deleted by a
    second pass. *)
Example sanitize_filename_twice :
  sanitize_filename (u8 "a/b") = u8 "a-b" /\ sanitize_filename (u8 "a-b") = u8 "ab".
Proof. vm_compute. split; reflexivity. Qed.

(** Once the nonspacing mark U+034F between them is gone, the two spacing
    marks U+1D16D (class 226) and U+1D165 (class 216) are put in canonical
    order by the next decomposition. *)
Example norm_base_reorders_spacing_marks :
  norm_base [0x1D16D; 0x34F; 0x1D165] = [0x1D16D; 0x1D165] /\
  norm_base [0x1D16D; 0x1D165] = [0x1D165; 0x1D16D].
Proof. vm_compute. split; reflexivity. Qed.

(** C1, as stated, fails: [sanitize_filename] is not idempotent on a string
    with a path separator, and neither normaliser is idempotent on a string
    whose spacing marks are kept apart by a nonspacing mark. *)
Lemma C1_counterexample :
  sanitize_filename (sanitize_filename (u8 "a/b")) <> sanitize_filename (u8 "a/b")
  /\ norm_base (norm_base [0x1D16D; 0x34F; 0x1D165])
     <> norm_base [0x1D16D; 0x34F; 0x1D165].
Proof. split; vm_compute; discriminate. Qed.

(** C1, amended.  For every string whose canonical decomposition has no
    spacing mark of a non-zero combining class, [norm_base] is idempotent, and
    [sanitize_filename] is idempotent when the string has no slash and no
    backslash. *)
Theorem normalisation_idempotent (s : ustr) :
  nonspacing_marks_only s = true ->
  norm_base (norm_base s) = norm_base s /\
  (~ In SLASH s -> ~ In BACKSLASH s ->
   sanitize_filename (sanitize_filename s) = sanitize_filename s).
Proof.
  intro H. split.
  - rewrite (norm_base_core s).
    destruct (lower_tidy (core (fst (Posixpath.splitext s)))) as [Ht Hl].
    { apply core_tidy. now apply nonspacing_marks_only_stem. }
    now apply norm_base_fixed.
  - intros H1 H2. rewrite (sanitize_filename_core s H1 H2).
    rewrite sanitize_filename_core by (apply core_no_separator; separator).
    apply tidy_core_fixed, core_tidy.
    intros c d. now apply nonspacing_marks_only_In.
Qed.

(** Witness of C1: a Cyrillic file name with both letter variants, a dash and
    a question mark. *)
Lemma normalisation_idempotent_witness :
  norm_base (norm_base sample_name) = norm_base sample_name /\
  sanitize_filename (sanitize_filename sample_name) = sanitize_filename sample_name.
Proof.
  destruct (normalisation_idempotent sample_name) as [H1 H2].
  - vm_compute. reflexivity.
  - split; [exact H1|]. apply H2; apply absent_by_test; vm_compute; reflexivity.
Defined.

(** C4, as stated, fails: [norm_base] leaves a slash where it is and writes
    no hyphen for it. *)
Lemma C4_counterexample :
  In SLASH (norm_base (u8 "a/b")) /\ ~ In HYPHEN (norm_base (u8 "a/b")).
Proof.
  split.
  - vm_compute. tauto.
  - apply absent_by_test. vm_compute. reflexivity.
Qed.

Lemma norm_base_no_hyphen (s : ustr) : ~ In HYPHEN (norm_base s).
Proof.
  intro H. apply (count_occ_In N.eq_dec) in H. fold (count HYPHEN (norm_base s)) in H.
  rewrite norm_base_core in H. unfold Str.lower in H.
  rewrite count_lower_from in H by (right; right; reflexivity).
  rewrite count_absent in H; [lia|].
  intro Hin. apply core_In in Hin as [E|[E|[E|[E _]]]]; discriminate E.
Qed.

Lemma norm_base_keeps (x : N) (s : ustr) :
  x = SLASH \/ x = BACKSLASH ->
  count x (norm_base s) = count x (fst (Posixpath.splitext s)).
Proof.
  intro Hx. rewrite norm_base_core. unfold Str.lower.
  rewrite count_lower_from by (destruct Hx; [left|right; left]; assumption).
  now apply count_core.
Qed.

Lemma sanitize_filename_copies (s : ustr) :
  GenerateAudio.sanitize_filename s = sanitize_filename s.
Proof. reflexivity. Qed.

(** C4, amended.  The replacement of path separators is a step of
    [sanitize_filename], in both files: the result has no slash and no
    backslash, and exactly one hyphen for each slash and backslash of the
    input.  [norm_base] has no such step: it keeps every slash and backslash
    of the stem and its result has no hyphen. *)
Theorem separator_replacement (s : ustr) :
  GenerateAudio.sanitize_filename s = sanitize_filename s
  /\ ~ In SLASH (sanitize_filename s) /\ ~ In BACKSLASH (sanitize_filename s)
  /\ count HYPHEN (sanitize_filename s) = (count SLASH s + count BACKSLASH s)%nat
  /\ count SLASH (norm_base s) = count SLASH (fst (Posixpath.splitext s))
  /\ count BACKSLASH (norm_base s) = count BACKSLASH (fst (Posixpath.splitext s))
  /\ ~ In HYPHEN (norm_base s).
Proof.
  split; [apply sanitize_filename_copies|].
  split; [intro H; apply sanitize_filename_In in H; tauto|].
  split; [intro H; apply sanitize_filename_In in H; tauto|].
  split; [apply sanitize_filename_hyphens|].
  split; [apply norm_base_keeps; now left|].
  split; [apply norm_base_keeps; now right|].
  apply norm_base_no_hyphen.
Qed.

(** C8, as stated, fails: a hyphen, one of the stripped punctuation
    characters, is in the output whenever the input has a path separator. *)
Lemma C8_counterexample : In HYPHEN (sanitize_filename (u8 "a/b")).
Proof. vm_compute. tauto. Qed.

(** C8, amended.  The output of [sanitize_filename], in both files, has no
    slash, no backslash and none of the stripped punctuation characters other
    than the hyphen; it has one hyphen for each slash and backslash of the
    input; no two white-space code points are adjacent, and it neither starts
    nor ends with white space. *)
Theorem sanitize_filename_invariant (s : ustr) :
  GenerateAudio.sanitize_filename s = sanitize_filename s
  /\ ~ In SLASH (sanitize_filename s) /\ ~ In BACKSLASH (sanitize_filename s)
  /\ (forall x, In x Re.punctuation -> x <> HYPHEN -> ~ In x (sanitize_filename s))
  /\ count HYPHEN (sanitize_filename s) = (count SLASH s + count BACKSLASH s)%nat
  /\ (forall l1 a b l2, sanitize_filename s = l1 ++ a :: b :: l2 ->
                        Str.isspace a && Str.isspace b = false)
  /\ (forall c r, sanitize_filename s = c :: r -> Str.isspace c = false)
  /\ (forall r c, sanitize_filename s = r ++ [c] -> Str.isspace c = false).
Proof.
  split; [apply sanitize_filename_copies|].
  split; [intro H; apply sanitize_filename_In in H; tauto|].
  split; [intro H; apply sanitize_filename_In in H; tauto|].
  split.
  { intros x Hp Hn Hin. apply sanitize_filename_In in Hin as [_ [_ [E|[E|E]]]].
    - subst x. apply in_class_In in Hp. discriminate Hp.
    - contradiction.
    - apply in_class_In in Hp. congruence. }
  split; [apply sanitize_filename_hyphens|].
  pose proof (sanitize_filename_spaced s) as Hsp.
  destruct (sanitize_filename_clean s) as [Hst He].
  split; [|split].
  - intros l1 a b l2 E. rewrite E in Hsp.
    destruct (Str.isspace a) eqn:Ea; [|reflexivity].
    destruct (Str.isspace b) eqn:Eb; [|reflexivity].
    exfalso. exact (spaced_no_run _ _ _ _ _ Hsp Ea Eb).
  - intros c r E. rewrite E in Hst. exact Hst.
  - intros r c E. rewrite E in He. now apply ends_clean_snoc in He.
Qed.

(** ** Paths *)

Lemma join_nonempty (a b : ustr) : b <> [] -> Posixpath.join a b <> [].
Proof.
  intro H. unfold Posixpath.join.
  destruct (Str.startswith b [SLASH]); [exact H|].
  destruct a as [|x a]; [exact H|].
  destruct (Str.endswith (x :: a) [SLASH]); discriminate.
Qed.

Lemma mp3_name_nonempty (stem : ustr) : stem ++ u8 ".mp3" <> [].
Proof. intro H. apply app_eq_nil in H as [_ H]. discriminate H. Qed.

Lemma startswith_app_nonempty (s t : ustr) (p : N) :
  s <> [] -> Str.startswith (s ++ t) [p] = Str.startswith s [p].
Proof.
  intro Hn. destruct s as [|c s]; [congruence|]. cbn [app Str.startswith].
  destruct (s ++ t); destruct s; reflexivity.
Qed.

Lemma join_extension (d stem ext : ustr) :
  stem <> [] -> Posixpath.join d (stem ++ ext) = Posixpath.join d stem ++ ext.
Proof.
  intro Hn. unfold Posixpath.join. rewrite (startswith_app_nonempty stem ext SLASH Hn).
  destruct (Str.startswith stem [SLASH]); [reflexivity|].
  destruct d as [|x d]; [reflexivity|].
  destruct (Str.endswith (x :: d) [SLASH]).
  - now rewrite app_assoc.
  - now rewrite <- app_assoc.
Qed.

Lemma play_audio_resolved (fs : FileSystem) (display_word filename_hint path : ustr) :
  resolved_path fs display_word filename_hint = Some path ->
  path <> [] -> path_exists fs path = true ->
  play_audio fs display_word filename_hint = Playing path.
Proof.
  intros R Hne He. unfold play_audio. rewrite R.
  destruct path as [|x p]; [congruence|]. now rewrite He.
Qed.

(** ** The hint block *)

Lemma hint_path_exact (fs : FileSystem) (filename_hint : ustr) :
  filename_hint <> [] ->
  hint_path fs filename_hint
    = Some (Posixpath.join AUDIO_FOLDER (filename_hint ++ u8 ".mp3"))
  <-> path_exists fs (Posixpath.join AUDIO_FOLDER (filename_hint ++ u8 ".mp3")) = true.
Proof.
  intro Hn. destruct filename_hint as [|c h]; [congruence|].
  unfold hint_path.
  destruct (path_exists fs (Posixpath.join AUDIO_FOLDER ((c :: h) ++ u8 ".mp3"))) eqn:E.
  - tauto.
  - split; [|discriminate].
    destruct (path_exists fs (Posixpath.join AUDIO_FOLDER
                (sanitize_filename (c :: h) ++ u8 ".mp3"))) eqn:E2; [|discriminate].
    intro H. inversion H as [H1]. rewrite H1 in E2. congruence.
Qed.

Lemma hint_path_exists (fs : FileSystem) (filename_hint path : ustr) :
  hint_path fs filename_hint = Some path -> path_exists fs path = true.
Proof.
  unfold hint_path. destruct filename_hint as [|c h]; [discriminate|].
  destruct (path_exists fs (Posixpath.join AUDIO_FOLDER ((c :: h) ++ u8 ".mp3"))) eqn:E.
  - intro H. inversion H. now subst.
  - destruct (path_exists fs (Posixpath.join AUDIO_FOLDER
                (sanitize_filename (c :: h) ++ u8 ".mp3"))) eqn:E2; [|discriminate].
    intro H. inversion H. now subst.
Qed.

Lemma hint_exact_plays (fs : FileSystem) (display_word filename_hint : ustr) :
  filename_hint <> [] ->
  path_exists fs (Posixpath.join AUDIO_FOLDER (filename_hint ++ u8 ".mp3")) = true ->
  resolved_path fs display_word filename_hint
    = Some (Posixpath.join AUDIO_FOLDER (filename_hint ++ u8 ".mp3"))
  /\ play_audio fs display_word filename_hint
     = Playing (Posixpath.join AUDIO_FOLDER (filename_hint ++ u8 ".mp3")).
Proof.
  intros Hn He.
  assert (R : resolved_path fs display_word filename_hint
              = Some (Posixpath.join AUDIO_FOLDER (filename_hint ++ u8 ".mp3"))).
  { unfold resolved_path. rewrite (proj2 (hint_path_exact fs filename_hint Hn) He).
    now rewrite He. }
  split; [exact R|]. apply play_audio_resolved; [exact R| |exact He].
  apply join_nonempty, mp3_name_nonempty.
Qed.

Lemma hint_path_cases (fs : FileSystem) (filename_hint : ustr) :
  filename_hint <> [] ->
  hint_path fs filename_hint
  = if path_exists fs (Posixpath.join AUDIO_FOLDER (filename_hint ++ u8 ".mp3"))
    then Some (Posixpath.join AUDIO_FOLDER (filename_hint ++ u8 ".mp3"))
    else if path_exists fs (Posixpath.join AUDIO_FOLDER
                              (sanitize_filename filename_hint ++ u8 ".mp3"))
         then Some (Posixpath.join AUDIO_FOLDER
                      (sanitize_filename filename_hint ++ u8 ".mp3"))
         else None.
Proof. intro Hn. destruct filename_hint as [|c h]; [congruence|reflexivity]. Qed.

Lemma resolved_path_no_hint (fs : FileSystem) (display_word : ustr) :
  resolved_path fs display_word [] = find_audio_path fs display_word.
Proof. reflexivity. Qed.

Lemma play_audio_same (fs : FileSystem) (w h h' : ustr) :
  resolved_path fs w h = resolved_path fs w h' -> play_audio fs w h = play_audio fs w h'.
Proof. intro E. unfold play_audio. now rewrite E. Qed.

Lemma hint_sanitized_plays (fs : FileSystem) (display_word filename_hint : ustr) :
  filename_hint <> [] ->
  path_exists fs (Posixpath.join AUDIO_FOLDER (filename_hint ++ u8 ".mp3")) = false ->
  path_exists fs (Posixpath.join AUDIO_FOLDER
                    (sanitize_filename filename_hint ++ u8 ".mp3")) = true ->
  resolved_path fs display_word filename_hint
    = Some (Posixpath.join AUDIO_FOLDER (sanitize_filename filename_hint ++ u8 ".mp3"))
  /\ play_audio fs display_word filename_hint
     = Playing (Posixpath.join AUDIO_FOLDER
                  (sanitize_filename filename_hint ++ u8 ".mp3")).
Proof.
  intros Hn H1 H2.
  assert (R : resolved_path fs display_word filename_hint
              = Some (Posixpath.join AUDIO_FOLDER
                        (sanitize_filename filename_hint ++ u8 ".mp3"))).
  { unfold resolved_path. rewrite (hint_path_cases fs filename_hint Hn), H1, H2.
    now rewrite H2. }
  split; [exact R|]. apply play_audio_resolved; [exact R| |exact H2].
  apply join_nonempty, mp3_name_nonempty.
Qed.

Lemma hint_without_effect (fs : FileSystem) (display_word filename_hint : ustr) :
  filename_hint <> [] ->
  path_exists fs (Posixpath.join AUDIO_FOLDER (filename_hint ++ u8 ".mp3")) = false ->
  path_exists fs (Posixpath.join AUDIO_FOLDER
                    (sanitize_filename filename_hint ++ u8 ".mp3")) = false ->
  resolved_path fs display_word filename_hint = find_audio_path fs display_word
  /\ play_audio fs display_word filename_hint = play_audio fs display_word [].
Proof.
  intros Hn H1 H2.
  assert (R : resolved_path fs display_word filename_hint
              = find_audio_path fs display_word).
  { unfold resolved_path. now rewrite (hint_path_cases fs filename_hint Hn), H1, H2. }
  split; [exact R|]. apply play_audio_same. now rewrite resolved_path_no_hint.
Qed.

(** C3, as stated, fails: the listed name chetyre.MP3 passes the filter of
    the candidates and its stem is the hint, yet the file of the display word
    is played. *)
Lemma C3_counterexample :
  listdir capitals_fs AUDIO_FOLDER = Some [u8 "четыре.mp3"; u8 "chetyre.MP3"]
  /\ In (u8 "chetyre.MP3") (mp3_candidates [u8 "четыре.mp3"; u8 "chetyre.MP3"])
  /\ fst (Posixpath.splitext (u8 "chetyre.MP3")) = u8 "chetyre"
  /\ path_exists capitals_fs (u8 "audio_native/chetyre.MP3") = true
  /\ play_audio capitals_fs (u8 "четы́ре") (u8 "chetyre")
     = Playing (u8 "audio_native/четыре.mp3")
  /\ play_audio capitals_fs (u8 "четы́ре") (u8 "chetyre")
     <> Playing (u8 "audio_native/chetyre.MP3").
Proof.
  split; [vm_compute; reflexivity|].
  split; [vm_compute; tauto|].
  split; [vm_compute; reflexivity|].
  split; [vm_compute; reflexivity|].
  split; [vm_compute; reflexivity|].
  vm_compute. discriminate.
Qed.

(** C3, amended.  For a hint that is not empty the hint block of [play_audio]
    decides before any lookup of the display word.  When the file hint +
    ".mp3" exists below the audio folder, it is resolved and played, whatever
    the display word and whatever the folder lists.  When it does not exist
    and the file of the sanitized hint does, that one is played.  Only when
    both are missing is the hint without effect: the display word is looked
    up as if no hint were given. *)
Theorem hint_wins (fs : FileSystem) (display_word filename_hint : ustr) :
  filename_hint <> [] ->
  (path_exists fs (Posixpath.join AUDIO_FOLDER (filename_hint ++ u8 ".mp3")) = true ->
   resolved_path fs display_word filename_hint
     = Some (Posixpath.join AUDIO_FOLDER (filename_hint ++ u8 ".mp3"))
   /\ play_audio fs display_word filename_hint
      = Playing (Posixpath.join AUDIO_FOLDER (filename_hint ++ u8 ".mp3")))
  /\ (path_exists fs (Posixpath.join AUDIO_FOLDER (filename_hint ++ u8 ".mp3")) = false ->
      path_exists fs (Posixpath.join AUDIO_FOLDER
                        (sanitize_filename filename_hint ++ u8 ".mp3")) = true ->
      resolved_path fs display_word filename_hint
        = Some (Posixpath.join AUDIO_FOLDER (sanitize_filename filename_hint ++ u8 ".mp3"))
      /\ play_audio fs display_word filename_hint
         = Playing (Posixpath.join AUDIO_FOLDER
                      (sanitize_filename filename_hint ++ u8 ".mp3")))
  /\ (path_exists fs (Posixpath.join AUDIO_FOLDER (filename_hint ++ u8 ".mp3")) = false ->
      path_exists fs (Posixpath.join AUDIO_FOLDER
                        (sanitize_filename filename_hint ++ u8 ".mp3")) = false ->
      resolved_path fs display_word filename_hint = find_audio_path fs display_word
      /\ play_audio fs display_word filename_hint = play_audio fs display_word []).
Proof.
  intro Hn. split; [|split].
  - now apply hint_exact_plays.
  - now apply hint_sanitized_plays.
  - now apply hint_without_effect.
Qed.

(** C10, as stated, fails: with the hint "./четыре" the first probe succeeds
    and its path is played, though the listing has no name "./четыре.mp3". *)
Lemma C10_counterexample :
  listdir dot_fs AUDIO_FOLDER = Some [u8 "четыре.mp3"]
  /\ ~ In (u8 "./четыре" ++ u8 ".mp3") [u8 "четыре.mp3"]
  /\ hint_path dot_fs (u8 "./четыре")
     = Some (Posixpath.join AUDIO_FOLDER (u8 "./четыре" ++ u8 ".mp3"))
  /\ play_audio dot_fs (u8 "другое") (u8 "./четыре")
     = Playing (u8 "audio_native/./четыре.mp3").
Proof.
  split; [vm_compute; reflexivity|].
  split; [intros [E|[]]; vm_compute in E; discriminate E|].
  split; vm_compute; reflexivity.
Qed.

(** C10, amended.  The first probe of the hint block is for the path of the
    hint with ".mp3" appended, whatever the hint ends in, and it selects that
    path if and only if the path exists; so a hint that already ends in
    ".mp3" is selected by the first probe if and only if the file ending in
    ".mp3.mp3" exists. *)
Theorem hint_is_a_stem (fs : FileSystem) (filename_hint : ustr) :
  filename_hint <> [] ->
  Posixpath.join AUDIO_FOLDER (filename_hint ++ u8 ".mp3")
    = Posixpath.join AUDIO_FOLDER filename_hint ++ u8 ".mp3"
  /\ (hint_path fs filename_hint
        = Some (Posixpath.join AUDIO_FOLDER (filename_hint ++ u8 ".mp3"))
      <-> path_exists fs (Posixpath.join AUDIO_FOLDER (filename_hint ++ u8 ".mp3")) = true)
  /\ (forall stem, filename_hint = stem ++ u8 ".mp3" ->
        (hint_path fs filename_hint
           = Some (Posixpath.join AUDIO_FOLDER (filename_hint ++ u8 ".mp3"))
         <-> path_exists fs (Posixpath.join AUDIO_FOLDER (stem ++ u8 ".mp3.mp3")) = true)).
Proof.
  intro Hn. split; [|split].
  - now apply join_extension.
  - now apply hint_path_exact.
  - intros stem E. rewrite (hint_path_exact fs filename_hint Hn).
    rewrite E, <- app_assoc. reflexivity.
Qed.

(** ** find_audio_path *)

(** C5, as stated, fails: with a folder that lists nothing the hint "../x"
    makes [play_audio] play a file, and with the folder missing the same call
    reports the missing audio. *)
Lemma C5_counterexample :
  listdir beside_fs AUDIO_FOLDER = Some []
  /\ find_audio_path beside_fs (u8 "четы́ре") = None
  /\ play_audio beside_fs (u8 "четы́ре") (u8 "../x")
     = Playing (u8 "audio_native/../x.mp3")
  /\ isdir no_folder_fs AUDIO_FOLDER = false
  /\ find_audio_path no_folder_fs (u8 "четы́ре") = None
  /\ play_audio no_folder_fs (u8 "четы́ре") (u8 "../x")
     = MissingAudio (u8 "четы́ре") (u8 "четыре").
Proof. repeat split; vm_compute; reflexivity. Qed.

(** C5, amended.  When the audio folder is missing, cannot be listed, or
    lists nothing and the direct file is not there, [find_audio_path] returns
    [None] for every display word, the same value in the three cases, and
    [play_audio] without a hint reports the missing audio.  With a hint it
    reports the missing audio if and only if neither file of the hint
    exists. *)
Theorem empty_or_missing_no_match (fs : FileSystem) (display_word : ustr) :
  isdir fs AUDIO_FOLDER = false \/ listdir fs AUDIO_FOLDER = None
  \/ (listdir fs AUDIO_FOLDER = Some []
      /\ path_exists fs (Posixpath.join AUDIO_FOLDER
                           (sanitize_filename display_word ++ u8 ".mp3")) = false) ->
  find_audio_path fs display_word = None
  /\ play_audio fs display_word []
     = MissingAudio display_word (sanitize_filename display_word)
  /\ (forall filename_hint, filename_hint <> [] ->
        (play_audio fs display_word filename_hint
           = MissingAudio display_word (sanitize_filename display_word)
         <-> path_exists fs (Posixpath.join AUDIO_FOLDER (filename_hint ++ u8 ".mp3"))
               = false
             /\ path_exists fs (Posixpath.join AUDIO_FOLDER
                                  (sanitize_filename filename_hint ++ u8 ".mp3"))
                = false)).
Proof.
  intro H.
  assert (F : find_audio_path fs display_word = None).
  { unfold find_audio_path.
    destruct (isdir fs AUDIO_FOLDER); [|reflexivity]. cbn [negb].
    destruct H as [H|[H|[H He]]]; [discriminate| |]; rewrite H; [reflexivity|].
    now rewrite He. }
  assert (P : play_audio fs display_word []
              = MissingAudio display_word (sanitize_filename display_word)).
  { unfold play_audio. now rewrite resolved_path_no_hint, F. }
  split; [exact F|]. split; [exact P|].
  intros filename_hint Hn.
  destruct (path_exists fs (Posixpath.join AUDIO_FOLDER (filename_hint ++ u8 ".mp3")))
    eqn:E1.
  - destruct (hint_exact_plays fs display_word filename_hint Hn E1) as [_ W].
    rewrite W. split; [discriminate|]. intros [D _]. discriminate D.
  - destruct (path_exists fs (Posixpath.join AUDIO_FOLDER
                                (sanitize_filename filename_hint ++ u8 ".mp3"))) eqn:E2.
    + destruct (hint_sanitized_plays fs display_word filename_hint Hn E1 E2) as [_ W].
      rewrite W. split; [discriminate|]. intros [_ D]. discriminate D.
    + destruct (hint_without_effect fs display_word filename_hint Hn E1 E2) as [_ W].
      rewrite W, P. tauto.
Qed.

Lemma mp3_candidates_In (names : list ustr) (fname : ustr) :
  In fname (mp3_candidates names) <->
  In fname names /\ Str.endswith (Str.lower fname) (u8 ".mp3") = true.
Proof. unfold mp3_candidates. rewrite filter_In. reflexivity. Qed.

Lemma scans_pick_candidates (candidates : list ustr) (target fname : ustr) :
  scan_normalized candidates target = Some fname
  \/ scan_loose candidates target = Some fname ->
  In fname candidates.
Proof.
  unfold scan_normalized, scan_loose.
  intros [H|H]; apply find_some in H; tauto.
Qed.

(** C9.  The two scans of [find_audio_path] run over the names that end in
    ".mp3" once lowered, and a path that [find_audio_path] returns is the
    direct path or the path of such a name of the listing. *)
Theorem scans_only_mp3 (fs : FileSystem) (display_word : ustr) :
  (forall names target fname,
      scan_normalized (mp3_candidates names) target = Some fname
      \/ scan_loose (mp3_candidates names) target = Some fname ->
      In fname names /\ Str.endswith (Str.lower fname) (u8 ".mp3") = true)
  /\ (forall path,
        find_audio_path fs display_word = Some path ->
        path = Posixpath.join AUDIO_FOLDER (sanitize_filename display_word ++ u8 ".mp3")
        \/ exists names fname,
            listdir fs AUDIO_FOLDER = Some names /\ In fname names
            /\ Str.endswith (Str.lower fname) (u8 ".mp3") = true
            /\ path = Posixpath.join AUDIO_FOLDER fname).
Proof.
  assert (A : forall names target fname,
      scan_normalized (mp3_candidates names) target = Some fname
      \/ scan_loose (mp3_candidates names) target = Some fname ->
      In fname names /\ Str.endswith (Str.lower fname) (u8 ".mp3") = true).
  { intros names target fname H. apply scans_pick_candidates in H.
    now apply mp3_candidates_In. }
  split; [exact A|].
  intros path. unfold find_audio_path.
  destruct (isdir fs AUDIO_FOLDER); [|discriminate]. cbn [negb].
  destruct (listdir fs AUDIO_FOLDER) as [names|]; [|discriminate].
  destruct (path_exists fs _).
  { intro H. inversion H. now left. }
  destruct (scan_normalized (mp3_candidates names) (norm_base display_word))
    as [fname|] eqn:E1.
  { intro H. inversion H. right. exists names, fname.
    destruct (A names _ fname (or_introl E1)) as [A1 A2]. repeat split; assumption. }
  destruct (scan_loose (mp3_candidates names) (norm_base display_word))
    as [fname|] eqn:E2; [|discriminate].
  intro H. inversion H. right. exists names, fname.
  destruct (A names _ fname (or_intror E2)) as [A1 A2]. repeat split; assumption.
Qed.

(** C7.  With the display word "четы́ре" (stress mark U+0301), no hint,
    and a folder listing of "четыре.mp3" and "другое.mp3" in either order,
    the resolver returns the path of "четыре.mp3". *)
Theorem stress_mark_scenario (fs : FileSystem) (names : list ustr) :
  isdir fs AUDIO_FOLDER = true ->
  listdir fs AUDIO_FOLDER = Some names ->
  names = [u8 "четыре.mp3"; u8 "другое.mp3"]
  \/ names = [u8 "другое.mp3"; u8 "четыре.mp3"] ->
  find_audio_path fs (u8 "четы́ре") = Some (u8 "audio_native/четыре.mp3")
  /\ resolved_path fs (u8 "четы́ре") [] = Some (u8 "audio_native/четыре.mp3")
  /\ (path_exists fs (u8 "audio_native/четыре.mp3") = true ->
      play_audio fs (u8 "четы́ре") [] = Playing (u8 "audio_native/четыре.mp3")).
Proof.
  intros Hd Hl Hn.
  assert (F : find_audio_path fs (u8 "четы́ре") = Some (u8 "audio_native/четыре.mp3")).
  { unfold find_audio_path. rewrite Hd, Hl. cbn [negb].
    assert (E : Posixpath.join AUDIO_FOLDER (sanitize_filename (u8 "четы́ре") ++ u8 ".mp3")
                = u8 "audio_native/четыре.mp3") by (vm_compute; reflexivity).
    rewrite E. destruct (path_exists fs (u8 "audio_native/четыре.mp3")); [reflexivity|].
    destruct Hn as [Hn|Hn]; subst names; vm_compute; reflexivity. }
  split; [exact F|]. split; [exact F|].
  intro He. apply play_audio_resolved; [exact F| |exact He].
  intro E. vm_compute in E. discriminate E.
Qed.

(** ** The loop of find_latest_user_recording *)

Section LatestLoop.

Variable fs : FileSystem.
Variable base : ustr.

Lemma eligible_time (fname : ustr) (m m' : Q) :
  eligible fs base fname m -> eligible fs base fname m' -> m = m'.
Proof. intros [_ [_ H]] [_ [_ H']]. congruence. Qed.

Lemma latest_step_invariant (seen : list ustr) (st : option ustr * Q) (x : ustr) :
  latest_invariant fs base seen st ->
  latest_invariant fs base (seen ++ [x]) (latest_step fs base st x).
Proof.
  intros [Hall Hst].
  assert (Skip : (forall m, eligible fs base x m -> (m <= snd st)%Q) ->
                 latest_invariant fs base (seen ++ [x]) st).
  { intro Hx. split.
    - intros f m Hin He. apply in_app_or in Hin as [Hin|[Hin|[]]].
      + now apply Hall with (f := f).
      + subst f. now apply Hx.
    - destruct (fst st) as [path|]; [|exact Hst].
      destruct Hst as [before [fname [after [E [Hp [He Hb]]]]]].
      exists before, fname, (after ++ [x]). split; [|tauto].
      rewrite E, <- app_assoc. reflexivity. }
  unfold latest_step.
  destruct (Str.endswith (Str.lower x) (u8 ".wav")) eqn:E1; cbn [negb];
    [|apply Skip; intros m [H _]; congruence].
  destruct (Str.startswith (fst (Posixpath.splitext x)) base) eqn:E2; cbn [negb];
    [|apply Skip; intros m [_ [H _]]; congruence].
  destruct (getmtime fs (Posixpath.join RECORDINGS_FOLDER x)) as [mtime|] eqn:E3;
    [|apply Skip; intros m [_ [_ H]]; congruence].
  assert (Hx : eligible fs base x mtime) by (unfold eligible; tauto).
  destruct (Qle_bool mtime (snd st)) eqn:E4; cbn [negb].
  - apply Skip. intros m Hm. rewrite (eligible_time x m mtime Hm Hx).
    now apply Qle_bool_iff.
  - assert (Hlt : (snd st < mtime)%Q).
    { apply Qnot_le_lt. intro H. apply Qle_bool_iff in H. congruence. }
    split; cbn [fst snd].
    + intros f m Hin He. apply in_app_or in Hin as [Hin|[Hin|[]]].
      * apply Qlt_le_weak. apply Qle_lt_trans with (y := snd st); [|exact Hlt].
        now apply Hall with (f := f).
      * subst f. rewrite (eligible_time x m mtime He Hx). apply Qle_refl.
    + exists seen, x, []. split; [reflexivity|]. split; [reflexivity|].
      split; [exact Hx|].
      intros f m Hin He. apply Qle_lt_trans with (y := snd st); [|exact Hlt].
      now apply Hall with (f := f).
Qed.

Lemma latest_loop_invariant (names : list ustr) :
  latest_invariant fs base names
    (fold_left (latest_step fs base) names (None, (- (1))%Q)).
Proof.
  induction names as [|x names IH] using rev_ind.
  - split; [intros f m []|reflexivity].
  - rewrite fold_left_app. cbn [fold_left]. now apply latest_step_invariant.
Qed.

End LatestLoop.

Lemma latest_found (fs : FileSystem) (display_word : ustr) (names : list ustr)
      (path : ustr) :
  listdir fs RECORDINGS_FOLDER = Some names ->
  find_latest_user_recording fs display_word = Some path ->
  exists before fname after mtime,
    names = before ++ fname :: after
    /\ path = Posixpath.join RECORDINGS_FOLDER fname
    /\ eligible fs (sanitize_filename display_word) fname mtime
    /\ (forall f m, In f before ->
                    eligible fs (sanitize_filename display_word) f m -> (m < mtime)%Q)
    /\ (forall f m, In f after ->
                    eligible fs (sanitize_filename display_word) f m -> (m <= mtime)%Q).
Proof.
  intros Hl. unfold find_latest_user_recording.
  destruct (isdir fs RECORDINGS_FOLDER); cbn [negb]; [|discriminate].
  rewrite Hl.
  destruct (latest_loop_invariant fs (sanitize_filename display_word) names)
    as [Hall Hst].
  destruct (fold_left _ names _) as [[p|] lm]; cbn [fst snd] in *; [|discriminate].
  intro H. inversion H. subst p.
  destruct Hst as [before [fname [after [E [Hp [He Hb]]]]]].
  exists before, fname, after, lm.
  split; [exact E|]. split; [exact Hp|]. split; [exact He|]. split; [exact Hb|].
  intros f m Hin. apply Hall. rewrite E. apply in_or_app. right. now right.
Qed.

Lemma latest_some (fs : FileSystem) (display_word : ustr) (names : list ustr) :
  isdir fs RECORDINGS_FOLDER = true ->
  listdir fs RECORDINGS_FOLDER = Some names ->
  (exists f m, In f names /\ eligible fs (sanitize_filename display_word) f m
               /\ (- (1) < m)%Q) ->
  exists path, find_latest_user_recording fs display_word = Some path.
Proof.
  intros Hd Hl [f [m [Hin [He Hm]]]]. unfold find_latest_user_recording.
  rewrite Hd, Hl. cbn [negb].
  destruct (latest_loop_invariant fs (sanitize_filename display_word) names)
    as [Hall Hst].
  destruct (fold_left _ names _) as [[p|] lm]; cbn [fst snd] in *.
  - now exists p.
  - subst lm. exfalso. apply (Qlt_not_le _ _ Hm). now apply Hall with (f := f).
Qed.

(** C2, amended.  A matching recording of a time above -1 makes
    [find_latest_user_recording] return a path, and the recording it returns
    has a modification time that is strictly greater than that of every
    matching name listed before it and at least that of every matching name
    listed after it: of two matching names with the greatest time, the one
    listed first is returned. *)
Theorem latest_keeps_first_of_greatest (fs : FileSystem) (display_word : ustr)
        (names : list ustr) :
  isdir fs RECORDINGS_FOLDER = true ->
  listdir fs RECORDINGS_FOLDER = Some names ->
  ((exists f m, In f names /\ eligible fs (sanitize_filename display_word) f m
                /\ (- (1) < m)%Q) ->
   exists path, find_latest_user_recording fs display_word = Some path)
  /\ (forall path,
        find_latest_user_recording fs display_word = Some path ->
        exists before fname after mtime,
          names = before ++ fname :: after
          /\ path = Posixpath.join RECORDINGS_FOLDER fname
          /\ eligible fs (sanitize_filename display_word) fname mtime
          /\ (forall f m, In f before ->
                eligible fs (sanitize_filename display_word) f m -> (m < mtime)%Q)
          /\ (forall f m, In f after ->
                eligible fs (sanitize_filename display_word) f m -> (m <= mtime)%Q)).
Proof.
  intros Hd Hl. split.
  - now apply latest_some.
  - intro path. now apply latest_found.
Qed.

Lemma latest_none (fs : FileSystem) (display_word : ustr) :
  isdir fs RECORDINGS_FOLDER = false \/ listdir fs RECORDINGS_FOLDER = None
  \/ listdir fs RECORDINGS_FOLDER = Some [] ->
  find_latest_user_recording fs display_word = None.
Proof.
  intro H. unfold find_latest_user_recording.
  destruct (isdir fs RECORDINGS_FOLDER); [|reflexivity]. cbn [negb].
  destruct H as [H|[H|H]]; [discriminate| |]; now rewrite H.
Qed.

(** C6.  [find_latest_user_recording] sanitizes the display word only and
    tests the stem of every listed name as it is listed.  A listed ".wav"
    name whose stem starts with the sanitized word, and whose time can be
    read and is above -1, is found: the query returns a path, of a time no
    earlier, and it returns the path of that name when no other listed name
    passes the tests.  A returned path is that of a listed ".wav" name whose
    stem, as listed, starts with the sanitized word.  The result is [None]
    when no listed stem starts with the sanitized word, and when the folder
    is missing, unreadable or lists nothing.  Two display words of the same
    sanitized form get the same result. *)
Theorem latest_prefix_test (fs : FileSystem) (display_word : ustr) :
  (forall names fname mtime,
      isdir fs RECORDINGS_FOLDER = true ->
      listdir fs RECORDINGS_FOLDER = Some names ->
      In fname names ->
      Str.endswith (Str.lower fname) (u8 ".wav") = true ->
      Str.startswith (fst (Posixpath.splitext fname))
                     (sanitize_filename display_word) = true ->
      getmtime fs (Posixpath.join RECORDINGS_FOLDER fname) = Some mtime ->
      (- (1) < mtime)%Q ->
      (exists path m,
          find_latest_user_recording fs display_word = Some path
          /\ getmtime fs path = Some m /\ (mtime <= m)%Q)
      /\ ((forall f, In f names ->
             Str.endswith (Str.lower f) (u8 ".wav") = true ->
             Str.startswith (fst (Posixpath.splitext f))
                            (sanitize_filename display_word) = true ->
             f = fname) ->
          find_latest_user_recording fs display_word
          = Some (Posixpath.join RECORDINGS_FOLDER fname)))
  /\ (forall path,
        find_latest_user_recording fs display_word = Some path ->
        exists names fname,
          listdir fs RECORDINGS_FOLDER = Some names /\ In fname names
          /\ path = Posixpath.join RECORDINGS_FOLDER fname
          /\ Str.endswith (Str.lower fname) (u8 ".wav") = true
          /\ Str.startswith (fst (Posixpath.splitext fname))
                            (sanitize_filename display_word) = true)
  /\ (forall names,
        listdir fs RECORDINGS_FOLDER = Some names ->
        (forall fname, In fname names ->
                       Str.startswith (fst (Posixpath.splitext fname))
                                      (sanitize_filename display_word) = false) ->
        find_latest_user_recording fs display_word = None)
  /\ (isdir fs RECORDINGS_FOLDER = false \/ listdir fs RECORDINGS_FOLDER = None
      \/ listdir fs RECORDINGS_FOLDER = Some [] ->
      find_latest_user_recording fs display_word = None)
  /\ (forall other_word,
        sanitize_filename other_word = sanitize_filename display_word ->
        find_latest_user_recording fs other_word
        = find_latest_user_recording fs display_word).
Proof.
  assert (A : forall names path,
             listdir fs RECORDINGS_FOLDER = Some names ->
             find_latest_user_recording fs display_word = Some path ->
             exists fname, In fname names
               /\ path = Posixpath.join RECORDINGS_FOLDER fname
               /\ Str.endswith (Str.lower fname) (u8 ".wav") = true
               /\ Str.startswith (fst (Posixpath.splitext fname))
                                 (sanitize_filename display_word) = true).
  { intros names path Hl H.
    destruct (latest_found fs display_word names path Hl H)
      as [before [fname [after [mtime [E [Hp [[Hw [Hs _]] _]]]]]]].
    exists fname. split; [|tauto]. rewrite E. apply in_or_app. right. now left. }
  split; [|split; [|split; [|split]]].
  - intros names fname mtime Hd Hl Hin Hw Hs Hm Hpos.
    assert (He : eligible fs (sanitize_filename display_word) fname mtime)
      by (unfold eligible; tauto).
    destruct (latest_some fs display_word names Hd Hl) as [path Hp].
    { exists fname, mtime. tauto. }
    split.
    + destruct (latest_found fs display_word names path Hl Hp)
        as [before [f [after [m [E [Ep [Ef [Hb Ha]]]]]]]].
      exists path, m. split; [exact Hp|]. split.
      * rewrite Ep. apply Ef.
      * rewrite E in Hin. apply in_app_or in Hin as [Hin|[Hin|Hin]].
        -- apply Qlt_le_weak. now apply (Hb fname).
        -- subst f. rewrite (eligible_time fs _ fname mtime m He Ef). apply Qle_refl.
        -- now apply (Ha fname).
    + intro Hu. destruct (A names path Hl Hp) as [f [Hf [Ep [Hfw Hfs]]]].
      rewrite Hp, Ep, (Hu f Hf Hfw Hfs). reflexivity.
  - intros path H.
    destruct (listdir fs RECORDINGS_FOLDER) as [names|] eqn:Hl.
    + destruct (A names path eq_refl H) as [fname Hf]. exists names, fname. tauto.
    + rewrite latest_none in H by tauto. discriminate H.
  - intros names Hl Hno.
    destruct (find_latest_user_recording fs display_word) as [path|] eqn:E;
      [|reflexivity].
    destruct (A names path Hl eq_refl) as [fname [Hin [_ [_ Hs]]]].
    rewrite (Hno fname Hin) in Hs. discriminate Hs.
  - apply latest_none.
  - intros other_word E. unfold find_latest_user_recording. now rewrite E.
Qed.

(** ** The sample file systems *)

Lemma join_audio (n : ustr) :
  Posixpath.join AUDIO_FOLDER n
  = if Str.startswith n [SLASH] then n else AUDIO_FOLDER ++ SLASH :: n.
Proof.
  unfold Posixpath.join. destruct (Str.startswith n [SLASH]); [reflexivity|].
  vm_compute. reflexivity.
Qed.

(** C2, as stated, fails: of two recordings with the same, greatest time the
    first of the listing is returned, not the last. *)
Lemma C2_counterexample :
  listdir ties_fs RECORDINGS_FOLDER = Some [u8 "да_1.wav"; u8 "да_2.wav"]
  /\ getmtime ties_fs (u8 "audio_user/да_1.wav") = Some 5%Q
  /\ getmtime ties_fs (u8 "audio_user/да_2.wav") = Some 5%Q
  /\ find_latest_user_recording ties_fs (u8 "да") = Some (u8 "audio_user/да_1.wav")
  /\ find_latest_user_recording ties_fs (u8 "да") <> Some (u8 "audio_user/да_2.wav").
Proof.
  repeat split; try (vm_compute; reflexivity).
  vm_compute. discriminate.
Qed.

(** Witness of C2: two takes of the same time. *)
Lemma latest_keeps_first_of_greatest_witness :
  (exists path, find_latest_user_recording ties_fs (u8 "да") = Some path)
  /\ exists before fname after mtime,
       [u8 "да_1.wav"; u8 "да_2.wav"] = before ++ fname :: after
       /\ u8 "audio_user/да_1.wav" = Posixpath.join RECORDINGS_FOLDER fname
       /\ eligible ties_fs (sanitize_filename (u8 "да")) fname mtime
       /\ (forall f m, In f before ->
             eligible ties_fs (sanitize_filename (u8 "да")) f m -> (m < mtime)%Q)
       /\ (forall f m, In f after ->
             eligible ties_fs (sanitize_filename (u8 "да")) f m -> (m <= mtime)%Q).
Proof.
  destruct (latest_keeps_first_of_greatest ties_fs (u8 "да")
              [u8 "да_1.wav"; u8 "да_2.wav"]) as [H1 H2].
  - vm_compute. reflexivity.
  - vm_compute. reflexivity.
  - split.
    + apply H1. exists (u8 "да_2.wav"), 5%Q.
      split; [right; left; reflexivity|].
      split; [|vm_compute; reflexivity].
      unfold eligible. repeat split; vm_compute; reflexivity.
    + apply H2. vm_compute. reflexivity.
Defined.

(** Witness of C3: the hinted file is played although a file matches the
    display word; where neither hint file exists the hint is without effect. *)
Lemma hint_wins_witness :
  find_audio_path words_fs (u8 "четы́ре") = Some (u8 "audio_native/четыре.mp3")
  /\ play_audio words_fs (u8 "четы́ре") (u8 "chetyre")
     = Playing (Posixpath.join AUDIO_FOLDER (u8 "chetyre" ++ u8 ".mp3"))
  /\ play_audio capitals_fs (u8 "четы́ре") (u8 "chetyre")
     = play_audio capitals_fs (u8 "четы́ре") [].
Proof.
  split; [vm_compute; reflexivity|]. split.
  - destruct (hint_wins words_fs (u8 "четы́ре") (u8 "chetyre")) as [W _].
    + intro E. vm_compute in E. discriminate E.
    + apply W. vm_compute. reflexivity.
  - destruct (hint_wins capitals_fs (u8 "четы́ре") (u8 "chetyre")) as [_ [_ W]].
    + intro E. vm_compute in E. discriminate E.
    + apply W; vm_compute; reflexivity.
Defined.

(** Witness of C5: a missing folder and a folder that lists nothing. *)
Lemma empty_or_missing_no_match_witness :
  (find_audio_path (snapshot None None) (u8 "четы́ре") = None
   /\ play_audio (snapshot None None) (u8 "четы́ре") []
      = MissingAudio (u8 "четы́ре") (sanitize_filename (u8 "четы́ре"))
   /\ play_audio (snapshot None None) (u8 "четы́ре") (u8 "chetyre")
      = MissingAudio (u8 "четы́ре") (sanitize_filename (u8 "четы́ре")))
  /\ (find_audio_path (snapshot (Some []) None) (u8 "четы́ре") = None
      /\ play_audio (snapshot (Some []) None) (u8 "четы́ре") []
         = MissingAudio (u8 "четы́ре") (sanitize_filename (u8 "четы́ре"))
      /\ play_audio (snapshot (Some []) None) (u8 "четы́ре") (u8 "chetyre")
         = MissingAudio (u8 "четы́ре") (sanitize_filename (u8 "четы́ре"))).
Proof.
  split.
  - destruct (empty_or_missing_no_match (snapshot None None) (u8 "четы́ре"))
      as [H1 [H2 H3]].
    + left. vm_compute. reflexivity.
    + split; [exact H1|]. split; [exact H2|].
      apply (H3 (u8 "chetyre")).
      * intro E. vm_compute in E. discriminate E.
      * split; vm_compute; reflexivity.
  - destruct (empty_or_missing_no_match (snapshot (Some []) None) (u8 "четы́ре"))
      as [H1 [H2 H3]].
    + right. right. split; vm_compute; reflexivity.
    + split; [exact H1|]. split; [exact H2|].
      apply (H3 (u8 "chetyre")).
      * intro E. vm_compute in E. discriminate E.
      * split; vm_compute; reflexivity.
Defined.

(** Witness of C10: the hint with and without the extension. *)
Lemma hint_is_a_stem_witness :
  hint_path two_words_fs (u8 "четыре")
    = Some (Posixpath.join AUDIO_FOLDER (u8 "четыре" ++ u8 ".mp3"))
  /\ hint_path two_words_fs (u8 "четыре.mp3")
     <> Some (Posixpath.join AUDIO_FOLDER (u8 "четыре.mp3" ++ u8 ".mp3")).
Proof.
  split.
  - apply (hint_is_a_stem two_words_fs (u8 "четыре")).
    + intro E. vm_compute in E. discriminate E.
    + vm_compute. reflexivity.
  - intro H.
    apply (proj2 (proj2 (hint_is_a_stem two_words_fs (u8 "четыре.mp3")
                    ltac:(intro E; vm_compute in E; discriminate E))) (u8 "четыре")) in H.
    + vm_compute in H. discriminate H.
    + vm_compute. reflexivity.
Defined.

(** Witness of C7. *)
Lemma stress_mark_scenario_witness :
  find_audio_path two_words_fs (u8 "четы́ре") = Some (u8 "audio_native/четыре.mp3")
  /\ play_audio two_words_fs (u8 "четы́ре") [] = Playing (u8 "audio_native/четыре.mp3").
Proof.
  destruct (stress_mark_scenario two_words_fs [u8 "четыре.mp3"; u8 "другое.mp3"])
    as [H1 [_ H3]].
  - vm_compute. reflexivity.
  - vm_compute. reflexivity.
  - left. reflexivity.
  - split; [exact H1|]. apply H3. vm_compute. reflexivity.
Defined.

(** Witness of C9: the name ending in ".wav" is passed over although its stem matches. *)
Lemma scans_only_mp3_witness :
  find_audio_path mixed_fs (u8 "четы́ре") = Some (u8 "audio_native/ЧЕТЫРЕ.MP3")
  /\ (u8 "audio_native/ЧЕТЫРЕ.MP3"
      = Posixpath.join AUDIO_FOLDER (sanitize_filename (u8 "четы́ре") ++ u8 ".mp3")
      \/ exists names fname,
          listdir mixed_fs AUDIO_FOLDER = Some names /\ In fname names
          /\ Str.endswith (Str.lower fname) (u8 ".mp3") = true
          /\ u8 "audio_native/ЧЕТЫРЕ.MP3" = Posixpath.join AUDIO_FOLDER fname).
Proof.
  split; [vm_compute; reflexivity|].
  apply (proj2 (scans_only_mp3 mixed_fs (u8 "четы́ре"))). vm_compute. reflexivity.
Defined.

(** Witness of C6: for "Привет!" the take whose stem starts with the capital
    letter is returned although the other take is newer, and nothing is found
    for a word that starts no listed stem. *)
Lemma latest_prefix_test_witness :
  find_latest_user_recording takes_fs (u8 "Привет!")
    = Some (Posixpath.join RECORDINGS_FOLDER (u8 "Привет_your_voice.wav"))
  /\ find_latest_user_recording takes_fs (u8 "Пока") = None
  /\ find_latest_user_recording takes_fs (u8 "Привет")
     = find_latest_user_recording takes_fs (u8 "Привет!").
Proof.
  destruct (latest_prefix_test takes_fs (u8 "Привет!")) as [H1 [_ [_ [_ H5]]]].
  destruct (latest_prefix_test takes_fs (u8 "Пока")) as [_ [_ [H3 _]]].
  split; [|split].
  - apply (H1 [u8 "привет_your_voice.wav"; u8 "Привет_your_voice.wav"]
              (u8 "Привет_your_voice.wav") 5%Q).
    + vm_compute. reflexivity.
    + vm_compute. reflexivity.
    + right. left. reflexivity.
    + vm_compute. reflexivity.
    + vm_compute. reflexivity.
    + vm_compute. reflexivity.
    + vm_compute. reflexivity.
    + intros f [E|[E|[]]] _ Hs; subst f; [|reflexivity].
      vm_compute in Hs. discriminate Hs.
  - apply (H3 [u8 "привет_your_voice.wav"; u8 "Привет_your_voice.wav"]).
    + vm_compute. reflexivity.
    + intros fname [E|[E|[]]]; subst fname; vm_compute; reflexivity.
  - apply H5. vm_compute. reflexivity.
Defined.

(** * Further properties of the program *)

(** ** Marks, letter variants and punctuation in the input *)

Lemma insert_mark_starters (c : N) (acc : list N) :
  filter starter (Unicodedata.insert_mark c acc) = filter starter (c :: acc).
Proof.
  induction acc as [|p r IH]; [reflexivity|]. cbn [Unicodedata.insert_mark].
  destruct (negb (UCD.ccc c =? 0) && (UCD.ccc c <? UCD.ccc p)) eqn:E; [|reflexivity].
  apply andb_true_iff in E as [E1 E2].
  apply negb_true_iff in E1. apply N.ltb_lt in E2.
  assert (Hp : starter p = false).
  { unfold starter. apply N.eqb_neq. apply N.eqb_neq in E1. lia. }
  assert (Hc : starter c = false) by exact E1.
  cbn [filter]. rewrite IH. cbn [filter]. rewrite Hp, Hc. reflexivity.
Qed.

Lemma order_loop_starters_kept (l acc : list N) :
  filter starter (fold_left (fun b c => Unicodedata.insert_mark c b) l acc)
  = filter starter (rev l ++ acc).
Proof.
  revert acc; induction l as [|c l IH]; intros acc; [reflexivity|].
  cbn [fold_left rev]. rewrite IH, <- app_assoc. cbn [app].
  rewrite !filter_app, insert_mark_starters. reflexivity.
Qed.

(** Canonical ordering leaves the starters in the order they have. *)
Lemma canonical_order_starters_kept (l : list N) :
  filter starter (Unicodedata.canonical_order l) = filter starter l.
Proof.
  unfold Unicodedata.canonical_order.
  rewrite filter_rev, order_loop_starters_kept, app_nil_r, filter_rev.
  apply rev_involutive.
Qed.

Lemma filter_implied (f g : N -> bool) (l : ustr) :
  (forall x, In x l -> f x = true -> g x = true) ->
  filter f (filter g l) = filter f l.
Proof.
  induction l as [|x l IH]; intro H; [reflexivity|]. cbn [filter].
  assert (IH' : filter f (filter g l) = filter f l)
    by (apply IH; intros y Hy; apply H; now right).
  destruct (g x) eqn:Eg; cbn [filter].
  - now rewrite IH'.
  - destruct (f x) eqn:Ef; [|exact IH'].
    rewrite (H x (or_introl eq_refl) Ef) in Eg. discriminate Eg.
Qed.

Lemma nonspacing_marks_only_starters (s : ustr) (x : N) :
  nonspacing_marks_only s = true ->
  In x (flat_map UCD.decomposition s) ->
  Unicodedata.not_Mn x = true -> starter x = true.
Proof.
  intros H Hin Hm. apply in_flat_map in Hin as [c [Hc Hx]].
  unfold Unicodedata.not_Mn in Hm. apply negb_true_iff in Hm.
  unfold starter. apply N.eqb_eq.
  exact (nonspacing_marks_only_In s c x H Hc Hx Hm).
Qed.

(** Without spacing marks the canonical ordering does not show after the
    marks are dropped. *)
Lemma nonspacing_letters (s : ustr) :
  nonspacing_marks_only s = true ->
  filter Unicodedata.not_Mn (Unicodedata.normalize_NFD s) = letters s.
Proof.
  intro H. unfold Unicodedata.normalize_NFD, letters.
  rewrite <- (filter_implied Unicodedata.not_Mn starter
                (Unicodedata.canonical_order (flat_map UCD.decomposition s))).
  - rewrite canonical_order_starters_kept. apply filter_implied.
    intros x. now apply nonspacing_marks_only_starters.
  - intros x Hx. apply nonspacing_marks_only_starters with (s := s); [exact H|].
    eapply Permutation_in; [apply canonical_order_perm|exact Hx].
Qed.

Lemma replace_app (old : N) (new a b : ustr) :
  Str.replace old new (a ++ b) = Str.replace old new a ++ Str.replace old new b.
Proof. unfold Str.replace. apply flat_map_app. Qed.

Lemma letters_app (a b : ustr) : letters (a ++ b) = letters a ++ letters b.
Proof. unfold letters. now rewrite flat_map_app, filter_app. Qed.

Lemma cleaned_app (a b : ustr) : cleaned (a ++ b) = cleaned a ++ cleaned b.
Proof.
  unfold cleaned, Re.sub_class_empty.
  now rewrite letters_app, !replace_app, filter_app.
Qed.

Lemma cleaned_cons (c : N) (s : ustr) : cleaned (c :: s) = cleaned [c] ++ cleaned s.
Proof. apply (cleaned_app [c] s). Qed.

Lemma nonspacing_marks_only_app (a b : ustr) :
  nonspacing_marks_only (a ++ b) = nonspacing_marks_only a && nonspacing_marks_only b.
Proof. unfold nonspacing_marks_only. apply forallb_app. Qed.

Lemma core_cleaned (s : ustr) :
  nonspacing_marks_only s = true -> core s = Str.strip (Re.sub_spaces (cleaned s)).
Proof. intro H. unfold core, cleaned. now rewrite nonspacing_letters. Qed.

Lemma sanitize_filename_cleaned (s : ustr) :
  nonspacing_marks_only s = true ->
  sanitize_filename s
  = Str.strip (Re.sub_spaces
      (Str.replace BACKSLASH [HYPHEN] (Str.replace SLASH [HYPHEN] (cleaned s)))).
Proof. intro H. unfold sanitize_filename, cleaned. now rewrite nonspacing_letters. Qed.

Lemma norm_base_cleaned (s : ustr) :
  nonspacing_marks_only s = true -> ~ In FULL_STOP s ->
  norm_base s = Str.lower (Str.strip (Re.sub_spaces (cleaned s))).
Proof.
  intros H Hd. rewrite norm_base_core, splitext_no_dot by exact Hd.
  cbn [fst]. now rewrite core_cleaned.
Qed.

Lemma cleaned_mark (m : N) : only_marks m = true -> cleaned [m] = [].
Proof.
  unfold only_marks, cleaned, letters. intro H. cbn [flat_map]. rewrite app_nil_r.
  assert (E : filter Unicodedata.not_Mn (UCD.decomposition m) = []).
  { induction (UCD.decomposition m) as [|d l IH]; [reflexivity|].
    cbn [forallb] in H. apply andb_true_iff in H as [H1 H2].
    cbn [filter]. unfold Unicodedata.not_Mn at 1. rewrite H1. cbn [negb].
    now apply IH. }
  rewrite E. reflexivity.
Qed.

Lemma only_marks_nonspacing (m : N) :
  only_marks m = true -> nonspacing_marks_only [m] = true.
Proof.
  unfold only_marks, nonspacing_marks_only. intro H. cbn [forallb].
  rewrite andb_true_r. rewrite forallb_forall in *. intros d Hd.
  rewrite (H d Hd). apply orb_true_r.
Qed.

Lemma only_marks_not_dot (m : N) : only_marks m = true -> m <> FULL_STOP.
Proof. intros H E. subst m. discriminate H. Qed.

Lemma nonspacing_marks_only_insert (s1 s2 : ustr) (c : N) :
  nonspacing_marks_only [c] = true ->
  nonspacing_marks_only (s1 ++ s2) = true ->
  nonspacing_marks_only (s1 ++ c :: s2) = true.
Proof.
  intros Hc H. rewrite nonspacing_marks_only_app in *.
  apply andb_true_iff in H as [H1 H2]. rewrite H1. cbn [andb].
  change (c :: s2) with ([c] ++ s2). rewrite nonspacing_marks_only_app, Hc, H2.
  reflexivity.
Qed.

Lemma cleaned_insert (s1 s2 : ustr) (c : N) :
  cleaned [c] = [] -> cleaned (s1 ++ c :: s2) = cleaned (s1 ++ s2).
Proof.
  intro H. rewrite !cleaned_app, cleaned_cons, H. reflexivity.
Qed.

Lemma not_In_insert (x c : N) (s1 s2 : ustr) :
  c <> x -> ~ In x (s1 ++ s2) -> ~ In x (s1 ++ c :: s2).
Proof.
  intros Hc H Hin. apply H. apply in_app_or in Hin as [Hin|[Hin|Hin]].
  - apply in_or_app. now left.
  - contradiction.
  - apply in_or_app. now right.
Qed.

(** X1.  A code point that decomposes into nonspacing marks, such as the
    stress mark U+0301, is ignored wherever it stands: inserting it changes
    neither the result of [sanitize_filename] nor, in a name without a full
    stop, the result of [norm_base] (the string has no spacing mark of a
    non-zero combining class). *)
Theorem marks_ignored (m : N) (s1 s2 : ustr) :
  only_marks m = true ->
  nonspacing_marks_only (s1 ++ s2) = true ->
  sanitize_filename (s1 ++ m :: s2) = sanitize_filename (s1 ++ s2)
  /\ (~ In FULL_STOP (s1 ++ s2) -> norm_base (s1 ++ m :: s2) = norm_base (s1 ++ s2)).
Proof.
  intros Hm H.
  assert (H' : nonspacing_marks_only (s1 ++ m :: s2) = true)
    by (apply nonspacing_marks_only_insert; [now apply only_marks_nonspacing|exact H]).
  assert (E : cleaned (s1 ++ m :: s2) = cleaned (s1 ++ s2))
    by (apply cleaned_insert; now apply cleaned_mark).
  split.
  - now rewrite !sanitize_filename_cleaned, E.
  - intro Hd. rewrite !norm_base_cleaned, E; try assumption; [reflexivity|].
    apply not_In_insert; [now apply only_marks_not_dot|exact Hd].
Qed.

(** Witness of X1: the stress mark of the fifth word of the generator. *)
Lemma marks_ignored_witness :
  sanitize_filename (u8 "четы" ++ 0x301 :: u8 "ре") = sanitize_filename (u8 "четы" ++ u8 "ре")
  /\ norm_base (u8 "четы" ++ 0x301 :: u8 "ре") = norm_base (u8 "четы" ++ u8 "ре").
Proof.
  destruct (marks_ignored 0x301 (u8 "четы") (u8 "ре")) as [H1 H2].
  - vm_compute. reflexivity.
  - vm_compute. reflexivity.
  - split; [exact H1|]. apply H2. apply absent_by_test. vm_compute. reflexivity.
Defined.

Lemma cleaned_punctuation (p : N) :
  In p Re.punctuation -> cleaned [p] = [] /\ nonspacing_marks_only [p] = true.
Proof.
  unfold Re.punctuation. cbn [In]. intro Hp.
  repeat (destruct Hp as [Hp|Hp]; [subst p; split; vm_compute; reflexivity|]).
  destruct Hp.
Qed.

(** X2.  A punctuation character of the class is ignored by
    [sanitize_filename] wherever it stands (the string has no spacing mark of
    a non-zero combining class). *)
Theorem punctuation_ignored (p : N) (s1 s2 : ustr) :
  In p Re.punctuation ->
  nonspacing_marks_only (s1 ++ s2) = true ->
  sanitize_filename (s1 ++ p :: s2) = sanitize_filename (s1 ++ s2).
Proof.
  intros Hp H.
  destruct (cleaned_punctuation p Hp) as [Hc Hn].
  rewrite !sanitize_filename_cleaned, cleaned_insert; try assumption; [reflexivity|].
  now apply nonspacing_marks_only_insert.
Qed.

(** Witness of X2. *)
Lemma punctuation_ignored_witness :
  sanitize_filename (u8 "слово" ++ 0x3F :: u8 "!") = sanitize_filename (u8 "слово" ++ u8 "!").
Proof.
  apply punctuation_ignored.
  - left. reflexivity.
  - vm_compute. reflexivity.
Defined.

Lemma yo_absent (s : ustr) (x : N) :
  x = CYR_io \/ x = CYR_IO ->
  ~ In x (filter Unicodedata.not_Mn (Unicodedata.normalize_NFD s)).
Proof.
  intros Hx Hin. apply filter_In in Hin as [Hin _].
  apply normalize_NFD_In in Hin as [c [_ Hd]].
  apply decomposition_settled in Hd.
  destruct Hx; subst x; vm_compute in Hd; discriminate Hd.
Qed.

(** X3.  The two [replace] calls for the letter variants never change the
    string they are given: the decomposition has already split the letter
    into U+0435 or U+0415 and the mark U+0308, and the mark is gone.  Both
    normalisers compute the same without that step. *)
Theorem yo_replacement_idle (s : ustr) :
  Str.replace CYR_IO [CYR_IE]
    (Str.replace CYR_io [CYR_ie]
       (filter Unicodedata.not_Mn (Unicodedata.normalize_NFD s)))
  = filter Unicodedata.not_Mn (Unicodedata.normalize_NFD s)
  /\ sanitize_filename s
     = Str.strip (Re.sub_spaces
         (Str.replace BACKSLASH [HYPHEN] (Str.replace SLASH [HYPHEN]
            (Re.sub_class_empty Re.punctuation
               (filter Unicodedata.not_Mn (Unicodedata.normalize_NFD s))))))
  /\ norm_base s
     = Str.lower (Str.strip (Re.sub_spaces
         (Re.sub_class_empty Re.punctuation
            (filter Unicodedata.not_Mn
               (Unicodedata.normalize_NFD (fst (Posixpath.splitext s))))))).
Proof.
  assert (A : forall t, Str.replace CYR_IO [CYR_IE]
    (Str.replace CYR_io [CYR_ie]
       (filter Unicodedata.not_Mn (Unicodedata.normalize_NFD t)))
  = filter Unicodedata.not_Mn (Unicodedata.normalize_NFD t)).
  { intro t. rewrite (replace_absent CYR_io) by (apply yo_absent; now left).
    apply replace_absent. apply yo_absent. now right. }
  split; [apply A|]. split.
  - unfold sanitize_filename. now rewrite A.
  - unfold norm_base. now rewrite A.
Qed.

(** ** Letter variants *)

Lemma unify_yo_cons (c : N) (s : ustr) : unify_yo (c :: s) = unify_yo [c] ++ unify_yo s.
Proof. unfold unify_yo. now rewrite <- !replace_app. Qed.

Lemma unify_yo_one (c : N) :
  cleaned (unify_yo [c]) = cleaned [c]
  /\ (nonspacing_marks_only [c] = true -> nonspacing_marks_only (unify_yo [c]) = true)
  /\ (c <> FULL_STOP -> ~ In FULL_STOP (unify_yo [c])).
Proof.
  destruct (N.eq_dec c CYR_io) as [E|E1]; [subst c; repeat split; try intro; try reflexivity;
    apply absent_by_test; reflexivity|].
  destruct (N.eq_dec c CYR_IO) as [E|E2]; [subst c; repeat split; try intro; try reflexivity;
    apply absent_by_test; reflexivity|].
  assert (U : unify_yo [c] = [c]).
  { unfold unify_yo, Str.replace. cbn [flat_map app].
    apply N.eqb_neq in E1, E2. rewrite E1. cbn [flat_map app]. now rewrite E2. }
  rewrite U. repeat split; try tauto. intros Hc [H|[]]. congruence.
Qed.

Lemma unify_yo_cleaned (s : ustr) : cleaned (unify_yo s) = cleaned s.
Proof.
  induction s as [|c s IH]; [reflexivity|].
  rewrite unify_yo_cons.
  etransitivity; [apply cleaned_app|].
  rewrite IH, (proj1 (unify_yo_one c)). symmetry. apply cleaned_cons.
Qed.

Lemma unify_yo_nonspacing (s : ustr) :
  nonspacing_marks_only s = true -> nonspacing_marks_only (unify_yo s) = true.
Proof.
  induction s as [|c s IH]; [reflexivity|]. intro H.
  change (c :: s) with ([c] ++ s) in H. rewrite nonspacing_marks_only_app in H.
  apply andb_true_iff in H as [H1 H2].
  rewrite unify_yo_cons, nonspacing_marks_only_app.
  rewrite (proj1 (proj2 (unify_yo_one c)) H1). now rewrite IH.
Qed.

Lemma unify_yo_no_dot (s : ustr) : ~ In FULL_STOP s -> ~ In FULL_STOP (unify_yo s).
Proof.
  induction s as [|c s IH]; intro H; [exact H|].
  rewrite unify_yo_cons. intro Hin. apply in_app_or in Hin as [Hin|Hin].
  - apply (proj2 (proj2 (unify_yo_one c))) in Hin; [exact Hin|].
    intro E. apply H. now left.
  - apply IH in Hin; [exact Hin|]. intro Hs. apply H. now right.
Qed.

(** X4.  Writing U+0435 for U+0451 and U+0415 for U+0401 throughout the
    input changes neither the result of [sanitize_filename] nor, in a name
    without a full stop, the result of [norm_base] (the string has no spacing
    mark of a non-zero combining class). *)
Theorem letter_variants_unified (s : ustr) :
  nonspacing_marks_only s = true ->
  sanitize_filename (unify_yo s) = sanitize_filename s
  /\ (~ In FULL_STOP s -> norm_base (unify_yo s) = norm_base s).
Proof.
  intro H. pose proof (unify_yo_nonspacing s H) as H'. split.
  - now rewrite !sanitize_filename_cleaned, unify_yo_cleaned.
  - intro Hd. rewrite !norm_base_cleaned, unify_yo_cleaned; try assumption; [reflexivity|].
    now apply unify_yo_no_dot.
Qed.

(** Witness of X4. *)
Lemma letter_variants_unified_witness :
  sanitize_filename (unify_yo (u8 "Ёлка и ёж")) = sanitize_filename (u8 "Ёлка и ёж")
  /\ norm_base (unify_yo (u8 "Ёлка и ёж")) = norm_base (u8 "Ёлка и ёж").
Proof.
  destruct (letter_variants_unified (u8 "Ёлка и ёж")) as [H1 H2].
  - vm_compute. reflexivity.
  - split; [exact H1|]. apply H2. apply absent_by_test. vm_compute. reflexivity.
Defined.

(** ** The comparison key *)

(** X5.  On a string without full stop, slash and backslash, the comparison
    key [norm_base] is the lowered result of [sanitize_filename]. *)
Theorem norm_base_lower_sanitize (s : ustr) :
  ~ In FULL_STOP s -> ~ In SLASH s -> ~ In BACKSLASH s ->
  norm_base s = Str.lower (sanitize_filename s).
Proof.
  intros Hd H1 H2. rewrite norm_base_core, splitext_no_dot by exact Hd.
  cbn [fst]. now rewrite sanitize_filename_core.
Qed.

(** Witness of X5. *)
Lemma norm_base_lower_sanitize_witness :
  norm_base (u8 "Привет, Мир") = Str.lower (sanitize_filename (u8 "Привет, Мир")).
Proof.
  apply norm_base_lower_sanitize; apply absent_by_test; vm_compute; reflexivity.
Defined.

Lemma lowercase_rows_plain :
  forallb lowercase_row_plain (PositiveMap.elements UCD.lowercase_index) = true.
Proof. vm_compute. reflexivity. Qed.

Lemma to_lower_full_plain (c : N) :
  c <> CAPITAL_SIGMA -> Str.isspace c = false -> Re.in_class Re.punctuation c = false ->
  UCD.to_lower_full c <> [] /\
  forall x, In x (UCD.to_lower_full c) ->
            Str.isspace x = false /\ Re.in_class Re.punctuation x = false
            /\ lowered x = true.
Proof.
  intros Hc Hs Hp. unfold UCD.to_lower_full at 1 2.
  destruct (PositiveMap.find (UCD.key c) UCD.lowercase_index) as [l|] eqn:Hf.
  - apply find_elements in Hf.
    pose proof lowercase_rows_plain as R. rewrite forallb_forall in R.
    specialize (R _ Hf). unfold lowercase_row_plain in R. cbn [snd] in R.
    apply andb_true_iff in R as [Rn Ra]. split.
    + intro E. subst l. discriminate Rn.
    + intros x Hx. rewrite forallb_forall in Ra. specialize (Ra x Hx).
      apply andb_true_iff in Ra as [Ra Rl]. apply andb_true_iff in Ra as [R1 R2].
      apply negb_true_iff in R1, R2. tauto.
  - split; [discriminate|]. intros x [Hx|[]]. subst x.
    split; [exact Hs|]. split; [exact Hp|].
    unfold lowered. apply andb_true_iff. split.
    + unfold UCD.to_lower_full. rewrite Hf. apply ustr_eqb_refl.
    + now apply negb_true_iff, N.eqb_neq.
Qed.

Lemma core_plain (s : ustr) (x : N) :
  In x (core s) ->
  Re.in_class Re.punctuation x = false /\ (Str.isspace x = true -> x = SPACE).
Proof.
  intro H. apply core_In in H as [E|[E|[E|H]]];
    try (subst x; split; [reflexivity|]; first [reflexivity|discriminate]).
  destruct H as [Hp [_ [_ [_ [Hs _]]]]]. split; [exact Hp|congruence].
Qed.

Lemma lower_image_plain (c : N) (img : ustr) :
  lower_image c img ->
  Re.in_class Re.punctuation c = false -> (Str.isspace c = true -> c = SPACE) ->
  keeps_spacing c img /\
  forall x, In x img ->
            Re.in_class Re.punctuation x = false /\ lowered x = true.
Proof.
  intros [[Ec Hi]|[Nc Hi]] Hp Hs.
  - subst c. split.
    + right. split; [reflexivity|]. split.
      * destruct Hi as [Hi|Hi]; subst img; discriminate.
      * intros x Hx. destruct Hi as [Hi|Hi]; subst img;
          destruct Hx as [Hx|[]]; subst x; reflexivity.
    + intros x Hx. destruct Hi as [Hi|Hi]; subst img;
        destruct Hx as [Hx|[]]; subst x; split; reflexivity.
  - destruct (Str.isspace c) eqn:E.
    + specialize (Hs eq_refl). subst c img. split.
      * left. split; reflexivity.
      * intros x [Hx|[]]. subst x. split; reflexivity.
    + destruct (to_lower_full_plain c Nc E Hp) as [Hn Ha]. subst img. split.
      * right. split; [exact E|]. split; [exact Hn|]. intros x Hx. apply Ha, Hx.
      * intros x Hx. destruct (Ha x Hx) as [_ [H2 H3]]. tauto.
Qed.

(** X6.  The result of [norm_base] has no punctuation character of the
    class, the hyphen and the full stop included; no two white-space code
    points are adjacent, it neither starts nor ends with white space, and
    [str.lower] leaves it as it is. *)
Theorem norm_base_invariant (s : ustr) :
  (forall x, In x Re.punctuation -> ~ In x (norm_base s))
  /\ (forall l1 a b l2, norm_base s = l1 ++ a :: b :: l2 ->
                        Str.isspace a && Str.isspace b = false)
  /\ (forall c r, norm_base s = c :: r -> Str.isspace c = false)
  /\ (forall r c, norm_base s = r ++ [c] -> Str.isspace c = false)
  /\ Str.lower (norm_base s) = norm_base s.
Proof.
  rewrite norm_base_core. set (w := core (fst (Posixpath.splitext s))).
  assert (Hsp : spaced false w = true)
    by (unfold w, core; apply strip_spaced, sub_spaces_from_spaced).
  assert (Hcl : starts_clean w /\ ends_clean w) by (unfold w, core; apply strip_clean).
  destruct Hcl as [Hst He].
  destruct (lower_from_images [] w) as [imgs [HF HE]].
  change (Str.lower_from [] w) with (Str.lower w) in HE. rewrite HE.
  assert (HK : Forall2 keeps_spacing w imgs).
  { apply Forall2_weaken with (R := lower_image); [|exact HF]. intros c img Hin Hi.
    destruct (core_plain _ c Hin) as [H1 H2].
    exact (proj1 (lower_image_plain c img Hi H1 H2)). }
  assert (HG : forall x, In x (List.concat imgs) ->
                         Re.in_class Re.punctuation x = false /\ lowered x = true).
  { intros x Hx. destruct (Forall2_concat_In _ _ _ _ HF Hx) as [c [img [Hin [Hi Hxi]]]].
    destruct (core_plain _ c Hin) as [H1 H2].
    exact (proj2 (lower_image_plain c img Hi H1 H2) x Hxi). }
  pose proof (spaced_concat false w imgs HK Hsp) as Hsp'.
  pose proof (starts_clean_concat w imgs HK Hst) as Hst'.
  pose proof (ends_clean_concat w imgs HK He) as He'.
  split; [|split; [|split; [|split]]].
  - intros x Hp Hin. apply in_class_In in Hp. destruct (HG x Hin) as [H _]. congruence.
  - intros l1 a b l2 E. rewrite E in Hsp'.
    destruct (Str.isspace a) eqn:Ea; [|reflexivity].
    destruct (Str.isspace b) eqn:Eb; [|reflexivity].
    exfalso. exact (spaced_no_run _ _ _ _ _ Hsp' Ea Eb).
  - intros c r E. rewrite E in Hst'. exact Hst'.
  - intros r c E. rewrite E in He'. now apply ends_clean_snoc in He'.
  - unfold Str.lower. apply lower_from_fixed. intros c Hc. apply HG, Hc.
Qed.

(** ** Extensions *)

Lemma rfind_from_last (i : Z) (c : N) (a b : ustr) :
  (0 <= i)%Z -> ~ In c b ->
  Posixpath.rfind_from i c (a ++ c :: b) = (i + Z.of_nat (List.length a))%Z.
Proof.
  revert i; induction a as [|x a IH]; intros i Hi Hb.
  - cbn [app Posixpath.rfind_from List.length]. rewrite rfind_from_absent by exact Hb.
    cbn. rewrite N.eqb_refl. lia.
  - cbn [app Posixpath.rfind_from]. rewrite IH by (try lia; exact Hb).
    destruct (0 <=? i + 1 + Z.of_nat (List.length a))%Z eqn:E.
    + cbn [List.length]. lia.
    + apply Z.leb_gt in E. lia.
Qed.

Lemma splitext_extension (stem ext : ustr) :
  ~ In SLASH stem -> ~ In SLASH ext -> ~ In FULL_STOP ext ->
  existsb (fun c => negb (c =? FULL_STOP)) stem = true ->
  Posixpath.splitext (stem ++ FULL_STOP :: ext) = (stem, FULL_STOP :: ext).
Proof.
  intros H1 H2 H3 H4. unfold Posixpath.splitext, Posixpath.rfind.
  rewrite (rfind_from_last 0 FULL_STOP stem ext (Z.le_refl 0) H3).
  rewrite (rfind_from_absent 0 SLASH).
  2:{ intro Hin. apply in_app_or in Hin as [Hin|[Hin|Hin]];
        [contradiction|discriminate Hin|contradiction]. }
  assert (E1 : Z.to_nat (0 + Z.of_nat (List.length stem)) = List.length stem) by lia.
  assert (E2 : (0 + Z.of_nat (List.length stem) >? -1)%Z = true) by (apply Z.gtb_lt; lia).
  unfold Posixpath.slice.
  replace (Z.to_nat (0 + Z.of_nat (List.length stem) - (-1 + 1))) with (List.length stem) by lia.
  replace (Z.to_nat (-1 + 1)) with 0%nat by lia.
  rewrite E1, E2. cbn [skipn].
  rewrite firstn_app, Nat.sub_diag, firstn_all, skipn_app, skipn_all, Nat.sub_diag.
  cbn [firstn skipn app]. rewrite app_nil_r, H4. reflexivity.
Qed.

(** X7.  [norm_base] forgets one extension: for a non-empty stem without
    full stop and slash, and an extension without them, the key of
    stem + "." + extension is the key of the stem. *)
Theorem norm_base_forgets_extension (stem ext : ustr) :
  stem <> [] -> ~ In FULL_STOP stem -> ~ In SLASH stem ->
  ~ In FULL_STOP ext -> ~ In SLASH ext ->
  norm_base (stem ++ FULL_STOP :: ext) = norm_base stem.
Proof.
  intros Hn Hd Hs Hde Hse. rewrite !norm_base_core.
  rewrite splitext_extension, splitext_no_dot; try assumption; [reflexivity|].
  destruct stem as [|c stem]; [congruence|]. cbn [existsb].
  destruct (c =? FULL_STOP) eqn:E; [|reflexivity].
  apply N.eqb_eq in E. exfalso. apply Hd. now left.
Qed.

(** Witness of X7. *)
Lemma norm_base_forgets_extension_witness :
  norm_base (u8 "Четыре" ++ FULL_STOP :: u8 "MP3") = norm_base (u8 "Четыре").
Proof.
  apply norm_base_forgets_extension;
    first [ intro E; vm_compute in E; discriminate E
          | apply absent_by_test; vm_compute; reflexivity ].
Defined.

(** ** White space in the input *)

Lemma whitespace_all_kept : forallb whitespace_kept UCD.whitespace = true.
Proof. vm_compute. reflexivity. Qed.

Lemma isspace_In (c : N) : Str.isspace c = true -> In c UCD.whitespace.
Proof.
  unfold Str.isspace. intro H. apply existsb_exists in H as [x [Hx E]].
  apply N.eqb_eq in E. now subst.
Qed.

Lemma cleaned_space (c : N) :
  Str.isspace c = true ->
  nonspacing_marks_only [c] = true
  /\ exists c', cleaned [c] = [c'] /\ Str.isspace c' = true.
Proof.
  intro H. apply isspace_In in H.
  pose proof whitespace_all_kept as K. rewrite forallb_forall in K.
  specialize (K c H). unfold whitespace_kept in K.
  destruct (cleaned [c]) as [|c' [|d l]]; try discriminate K.
  apply andb_true_iff in K as [K1 K2]. split; [exact K2|]. now exists c'.
Qed.

Lemma cleaned_run (ws : ustr) :
  ws <> [] -> (forall c, In c ws -> Str.isspace c = true) ->
  nonspacing_marks_only ws = true
  /\ cleaned ws <> [] /\ (forall x, In x (cleaned ws) -> Str.isspace x = true).
Proof.
  induction ws as [|c ws IH]; intros Hn Ha; [congruence|].
  unfold codepoint in *.
  destruct (cleaned_space c (Ha c (or_introl eq_refl))) as [N1 [c' [E Hc']]].
  change (c :: ws) with ([c] ++ ws).
  rewrite nonspacing_marks_only_app, N1, cleaned_app, E. cbn [andb app].
  destruct ws as [|d ws].
  - split; [reflexivity|]. split; [discriminate|].
    intros x [Hx|[]]. now subst.
  - destruct IH as [I1 [I2 I3]]; [discriminate|intros y Hy; apply Ha; now right|].
    split; [exact I1|]. split; [discriminate|].
    intros x [Hx|Hx]; [now subst|now apply I3].
Qed.

Lemma sub_spaces_run (b : bool) (w rest : ustr) :
  w <> [] -> (forall c, In c w -> Str.isspace c = true) ->
  Re.sub_spaces_from b (w ++ rest)
  = (if b then [] else [SPACE]) ++ Re.sub_spaces_from true rest.
Proof.
  revert b; induction w as [|c w IH]; intros b Hn Ha; [congruence|].
  cbn [app Re.sub_spaces_from]. rewrite (Ha c (or_introl eq_refl)).
  destruct w as [|d w]; [reflexivity|].
  rewrite IH; [reflexivity|discriminate|intros y Hy; apply Ha; now right].
Qed.

Lemma sub_spaces_runs (b : bool) (a w w' rest : ustr) :
  w <> [] -> (forall c, In c w -> Str.isspace c = true) ->
  w' <> [] -> (forall c, In c w' -> Str.isspace c = true) ->
  Re.sub_spaces_from b (a ++ w ++ rest) = Re.sub_spaces_from b (a ++ w' ++ rest).
Proof.
  intros H1 H2 H3 H4. revert b; induction a as [|c a IH]; intro b.
  - cbn [app]. now rewrite !sub_spaces_run.
  - cbn [app Re.sub_spaces_from]. now rewrite !IH.
Qed.

Lemma replace_run (old : N) (new w : ustr) :
  (forall c, In c w -> Str.isspace c = true) -> Str.isspace old = false ->
  Str.replace old new w = w.
Proof.
  intros Ha Ho. apply replace_absent. intro Hin. apply Ha in Hin. congruence.
Qed.

(** X8.  A run of white space of any kind (tab, no-break space, several
    spaces) counts as one space: replacing it by a single space changes
    neither the result of [sanitize_filename] nor, in a name without a full
    stop, the result of [norm_base] (the rest of the string has no spacing
    mark of a non-zero combining class). *)
Theorem whitespace_collapsed (ws s1 s2 : ustr) :
  ws <> [] -> (forall c, In c ws -> Str.isspace c = true) ->
  nonspacing_marks_only (s1 ++ s2) = true ->
  sanitize_filename (s1 ++ ws ++ s2) = sanitize_filename (s1 ++ SPACE :: s2)
  /\ (~ In FULL_STOP (s1 ++ s2) ->
      norm_base (s1 ++ ws ++ s2) = norm_base (s1 ++ SPACE :: s2)).
Proof.
  intros Hn Ha H.
  destruct (cleaned_run ws Hn Ha) as [N1 [C1 C2]].
  assert (Hsp : forall c, In c [SPACE] -> Str.isspace c = true)
    by (intros c [E|[]]; now subst).
  destruct (cleaned_run [SPACE] ltac:(discriminate) Hsp) as [N2 [D1 D2]].
  rewrite nonspacing_marks_only_app in H. apply andb_true_iff in H as [Hs1 Hs2].
  assert (A1 : nonspacing_marks_only (s1 ++ ws ++ s2) = true)
    by (rewrite !nonspacing_marks_only_app, Hs1, N1, Hs2; reflexivity).
  assert (A2 : nonspacing_marks_only (s1 ++ SPACE :: s2) = true).
  { change (SPACE :: s2) with ([SPACE] ++ s2).
    rewrite !nonspacing_marks_only_app, Hs1, N2, Hs2. reflexivity. }
  split.
  - rewrite !sanitize_filename_cleaned by assumption.
    change (SPACE :: s2) with ([SPACE] ++ s2).
    rewrite !cleaned_app, !replace_app.
    rewrite !(replace_run SLASH [HYPHEN] (cleaned ws)) by (assumption || reflexivity).
    rewrite !(replace_run BACKSLASH [HYPHEN] (cleaned ws)) by (assumption || reflexivity).
    rewrite !(replace_run SLASH [HYPHEN] (cleaned [SPACE])) by (assumption || reflexivity).
    rewrite !(replace_run BACKSLASH [HYPHEN] (cleaned [SPACE]))
      by (assumption || reflexivity).
    unfold Re.sub_spaces. f_equal. now apply sub_spaces_runs.
  - intro Hd.
    assert (B1 : ~ In FULL_STOP (s1 ++ ws ++ s2)).
    { intro Hin. apply in_app_or in Hin as [Hin|Hin];
        [apply Hd, in_or_app; now left|].
      apply in_app_or in Hin as [Hin|Hin];
        [apply Ha in Hin; discriminate Hin|apply Hd, in_or_app; now right]. }
    assert (B2 : ~ In FULL_STOP (s1 ++ SPACE :: s2))
      by (apply not_In_insert; [discriminate|exact Hd]).
    rewrite !norm_base_cleaned by assumption.
    change (SPACE :: s2) with ([SPACE] ++ s2). rewrite !cleaned_app.
    unfold Re.sub_spaces. do 2 f_equal. now apply sub_spaces_runs.
Qed.

(** Witness of X8: a tab, a no-break space and a space. *)
Lemma whitespace_collapsed_witness :
  sanitize_filename (u8 "добрый" ++ [0x9; 0xA0; 0x20] ++ u8 "день")
    = sanitize_filename (u8 "добрый" ++ SPACE :: u8 "день")
  /\ norm_base (u8 "добрый" ++ [0x9; 0xA0; 0x20] ++ u8 "день")
     = norm_base (u8 "добрый" ++ SPACE :: u8 "день").
Proof.
  destruct (whitespace_collapsed [0x9; 0xA0; 0x20] (u8 "добрый") (u8 "день"))
    as [H1 H2].
  - discriminate.
  - intros c [E|[E|[E|[]]]]; subst c; reflexivity.
  - vm_compute. reflexivity.
  - split; [exact H1|]. apply H2. apply absent_by_test. vm_compute. reflexivity.
Defined.

(** ** The scans of find_audio_path *)

Lemma find_first {A : Type} (f : A -> bool) (before after : list A) (x : A) :
  (forall y, In y before -> f y = false) -> f x = true ->
  find f (before ++ x :: after) = Some x.
Proof.
  intros Hb Hx. induction before as [|y before IH]; cbn [app find].
  - now rewrite Hx.
  - rewrite (Hb y (or_introl eq_refl)). apply IH. intros z Hz. apply Hb. now right.
Qed.

Lemma find_exists {A : Type} (f : A -> bool) (l : list A) (x : A) :
  In x l -> f x = true -> exists y, find f l = Some y.
Proof.
  intros Hin Hx. destruct (find f l) as [y|] eqn:E; [now exists y|].
  rewrite (find_none f l E x Hin) in Hx. discriminate Hx.
Qed.

Lemma scan_normalized_loose (candidates : list ustr) (target fname : ustr) :
  scan_normalized candidates target = Some fname ->
  In fname candidates /\ norm_base fname = target.
Proof.
  unfold scan_normalized. intro H. apply find_some in H as [H1 H2].
  apply ustr_eqb_eq in H2. tauto.
Qed.

Lemma scan_loose_key (candidates : list ustr) (target fname : ustr) :
  scan_loose candidates target = Some fname ->
  In fname candidates /\ loose_key fname = Str.replace SPACE [] target.
Proof.
  unfold scan_loose. intro H. apply find_some in H as [H1 H2].
  apply ustr_eqb_eq in H2. tauto.
Qed.

(** X9.  When the folder is listed and the direct file is missing,
    [find_audio_path] returns the path of a listed ".mp3" name whose key
    equals the key of the display word once the spaces are removed, and it
    returns a path whenever the listing has such a name. *)
Theorem find_audio_path_matches (fs : FileSystem) (display_word : ustr)
        (names : list ustr) :
  isdir fs AUDIO_FOLDER = true ->
  listdir fs AUDIO_FOLDER = Some names ->
  path_exists fs (Posixpath.join AUDIO_FOLDER
                    (sanitize_filename display_word ++ u8 ".mp3")) = false ->
  (forall path, find_audio_path fs display_word = Some path ->
     exists fname, In fname names /\ is_mp3 fname = true
       /\ path = Posixpath.join AUDIO_FOLDER fname
       /\ loose_key fname = loose_key display_word)
  /\ ((exists fname, In fname names /\ is_mp3 fname = true
         /\ loose_key fname = loose_key display_word) ->
      exists path, find_audio_path fs display_word = Some path).
Proof.
  intros Hd Hl He. unfold find_audio_path. rewrite Hd, Hl, He. cbn [negb]. split.
  - intro path.
    destruct (scan_normalized (mp3_candidates names) (norm_base display_word))
      as [fname|] eqn:E1.
    { intro H. inversion H. apply scan_normalized_loose in E1 as [E1 E2].
      apply mp3_candidates_In in E1 as [E1 E3].
      exists fname. unfold loose_key. rewrite E2. tauto. }
    destruct (scan_loose (mp3_candidates names) (norm_base display_word))
      as [fname|] eqn:E2; [|discriminate].
    intro H. inversion H. apply scan_loose_key in E2 as [E2 E3].
    apply mp3_candidates_In in E2 as [E2 E4]. exists fname. tauto.
  - intros [fname [Hin [Hm Hk]]].
    destruct (scan_normalized (mp3_candidates names) (norm_base display_word))
      as [f|] eqn:E1; [now eexists|].
    assert (Hc : In fname (mp3_candidates names)) by (apply mp3_candidates_In; tauto).
    destruct (find_exists
                (fun f => ustr_eqb (Str.replace SPACE [] (norm_base f))
                                   (Str.replace SPACE [] (norm_base display_word)))
                (mp3_candidates names) fname Hc) as [y Hy].
    { apply ustr_eqb_eq. exact Hk. }
    unfold scan_loose. rewrite Hy. now eexists.
Qed.

(** Witness of X9: the listed name differs in case and in the number of spaces. *)
Lemma find_audio_path_matches_witness :
  exists fname,
    In fname [u8 "Доброе  утро.MP3"; u8 "другое.mp3"] /\ is_mp3 fname = true
    /\ u8 "audio_native/Доброе  утро.MP3" = Posixpath.join AUDIO_FOLDER fname
    /\ loose_key fname = loose_key (u8 "доброе утро").
Proof.
  apply (proj1 (find_audio_path_matches
                  (snapshot (Some [u8 "Доброе  утро.MP3"; u8 "другое.mp3"]) None)
                  (u8 "доброе утро") [u8 "Доброе  утро.MP3"; u8 "другое.mp3"]
                  ltac:(vm_compute; reflexivity) ltac:(vm_compute; reflexivity)
                  ltac:(vm_compute; reflexivity))).
  vm_compute. reflexivity.
Defined.

(** X10.  When the direct file is missing, the first listed ".mp3" name with
    the key of the display word is returned, also when a name listed before
    it matches once the spaces are removed. *)
Theorem first_normalized_match (fs : FileSystem) (display_word : ustr)
        (before after : list ustr) (fname : ustr) :
  isdir fs AUDIO_FOLDER = true ->
  listdir fs AUDIO_FOLDER = Some (before ++ fname :: after) ->
  path_exists fs (Posixpath.join AUDIO_FOLDER
                    (sanitize_filename display_word ++ u8 ".mp3")) = false ->
  is_mp3 fname = true -> norm_base fname = norm_base display_word ->
  (forall f, In f before -> is_mp3 f = true -> norm_base f <> norm_base display_word) ->
  find_audio_path fs display_word = Some (Posixpath.join AUDIO_FOLDER fname).
Proof.
  intros Hd Hl He Hm Hn Hb. unfold find_audio_path. rewrite Hd, Hl, He. cbn [negb].
  unfold scan_normalized, mp3_candidates. rewrite filter_app. cbn [filter].
  fold (is_mp3 fname). rewrite Hm. rewrite find_first; [reflexivity| |].
  - intros y Hy. apply filter_In in Hy as [Hy1 Hy2].
    destruct (ustr_eqb (norm_base y) (norm_base display_word)) eqn:E; [|reflexivity].
    apply ustr_eqb_eq in E. exfalso. exact (Hb y Hy1 Hy2 E).
  - apply ustr_eqb_eq. exact Hn.
Qed.

(** Witness of X10: the first name matches only without the space. *)
Lemma first_normalized_match_witness :
  find_audio_path (snapshot (Some [u8 "доброеутро.mp3"; u8 "Доброе утро.MP3"]) None)
                  (u8 "Доброе утро!")
  = Some (Posixpath.join AUDIO_FOLDER (u8 "Доброе утро.MP3")).
Proof.
  apply (first_normalized_match _ _ [u8 "доброеутро.mp3"] []).
  - vm_compute. reflexivity.
  - vm_compute. reflexivity.
  - vm_compute. reflexivity.
  - vm_compute. reflexivity.
  - vm_compute. reflexivity.
  - intros f [E|[]] _. subst f. vm_compute. discriminate.
Defined.

(** ** play_audio *)

Lemma resolved_path_origin (fs : FileSystem) (display_word filename_hint path : ustr) :
  resolved_path fs display_word filename_hint = Some path ->
  hint_path fs filename_hint = Some path \/ find_audio_path fs display_word = Some path.
Proof.
  unfold resolved_path. destruct (hint_path fs filename_hint) as [p|]; [|tauto].
  destruct (negb (path_exists fs p)); [tauto|]. intro H. now left.
Qed.

(** X11.  [play_audio] starts the playback of an existing path only, and
    that path is the exact hint file, the sanitized hint file, or the result
    of [find_audio_path] for the display word. *)
Theorem play_audio_sound (fs : FileSystem) (display_word filename_hint path : ustr) :
  play_audio fs display_word filename_hint = Playing path ->
  path_exists fs path = true
  /\ (path = Posixpath.join AUDIO_FOLDER (filename_hint ++ u8 ".mp3")
      \/ path = Posixpath.join AUDIO_FOLDER
                  (sanitize_filename filename_hint ++ u8 ".mp3")
      \/ find_audio_path fs display_word = Some path).
Proof.
  unfold play_audio.
  destruct (resolved_path fs display_word filename_hint) as [[|x p]|] eqn:R;
    try discriminate.
  destruct (path_exists fs (x :: p)) eqn:E; [|discriminate].
  intro H. inversion H. subst path. split; [exact E|].
  apply resolved_path_origin in R as [R|R]; [|tauto].
  unfold hint_path in R. destruct filename_hint as [|c h]; [discriminate|].
  destruct (path_exists fs (Posixpath.join AUDIO_FOLDER ((c :: h) ++ u8 ".mp3"))).
  - inversion R. now left.
  - destruct (path_exists fs _); [|discriminate]. inversion R. right. now left.
Qed.

(** Witness of X11. *)
Lemma play_audio_sound_witness :
  path_exists words_fs (u8 "audio_native/chetyre.mp3") = true
  /\ (u8 "audio_native/chetyre.mp3" = Posixpath.join AUDIO_FOLDER (u8 "chetyre" ++ u8 ".mp3")
      \/ u8 "audio_native/chetyre.mp3"
         = Posixpath.join AUDIO_FOLDER (sanitize_filename (u8 "chetyre") ++ u8 ".mp3")
      \/ find_audio_path words_fs (u8 "четы́ре") = Some (u8 "audio_native/chetyre.mp3")).
Proof.
  apply (play_audio_sound words_fs (u8 "четы́ре") (u8 "chetyre")).
  vm_compute. reflexivity.
Defined.

(** ** The files of the generator *)

Lemma generator_direct (rus : ustr) :
  Generator.out_path rus
  = Posixpath.join AUDIO_FOLDER (sanitize_filename rus ++ u8 ".mp3").
Proof. reflexivity. Qed.

(** X12.  The file that the loop of generate_audio.py writes for a word is
    the one the player resolves for that word: [find_audio_path] returns it,
    [play_audio] plays it without a hint, and also with the word itself as
    the hint unless word + ".mp3" exists. *)
Theorem generated_file_played (fs : FileSystem) (spoken : ustr -> bool)
        (words : list (ustr * ustr)) (rus eng : ustr) (names : list ustr) :
  In (rus, eng) words -> spoken rus = true ->
  isdir fs AUDIO_FOLDER = true -> listdir fs AUDIO_FOLDER = Some names ->
  path_exists fs (Generator.out_path rus) = true ->
  In (Generator.out_path rus) (Generator.generate spoken words)
  /\ find_audio_path fs rus = Some (Generator.out_path rus)
  /\ play_audio fs rus [] = Playing (Generator.out_path rus)
  /\ (path_exists fs (Posixpath.join AUDIO_FOLDER (rus ++ u8 ".mp3")) = false ->
      play_audio fs rus rus = Playing (Generator.out_path rus)).
Proof.
  intros Hin Hs Hd Hl He.
  assert (F : find_audio_path fs rus = Some (Generator.out_path rus)).
  { unfold find_audio_path. rewrite Hd, Hl. cbn [negb].
    rewrite <- generator_direct. now rewrite He. }
  assert (Hne : Generator.out_path rus <> []).
  { rewrite generator_direct. apply join_nonempty, mp3_name_nonempty. }
  split; [|split; [exact F|split]].
  - unfold Generator.generate. apply in_map_iff. exists (rus, eng).
    split; [reflexivity|]. apply filter_In. tauto.
  - apply play_audio_resolved; [exact F|exact Hne|exact He].
  - intro Hx. apply play_audio_resolved; [|exact Hne|exact He].
    unfold resolved_path, hint_path. destruct rus as [|c r]; [exact F|].
    rewrite Hx. rewrite <- generator_direct. now rewrite He, He.
Qed.

(** Witness of X12. *)
Lemma generated_file_played_witness :
  In (Generator.out_path (u8 "четы́ре"))
     (Generator.generate (fun _ => true) Generator.WORDS)
  /\ find_audio_path two_words_fs (u8 "четы́ре") = Some (Generator.out_path (u8 "четы́ре"))
  /\ play_audio two_words_fs (u8 "четы́ре") [] = Playing (Generator.out_path (u8 "четы́ре"))
  /\ play_audio two_words_fs (u8 "четы́ре") (u8 "четы́ре")
     = Playing (Generator.out_path (u8 "четы́ре")).
Proof.
  destruct (generated_file_played two_words_fs (fun _ => true) Generator.WORDS
              (u8 "четы́ре") (u8 "four") [u8 "четыре.mp3"; u8 "другое.mp3"])
    as [H1 [H2 [H3 H4]]].
  - do 4 right. left. reflexivity.
  - reflexivity.
  - vm_compute. reflexivity.
  - vm_compute. reflexivity.
  - vm_compute. reflexivity.
  - split; [exact H1|]. split; [exact H2|]. split; [exact H3|].
    apply H4. vm_compute. reflexivity.
Defined.

(** ** Where the written files are *)

Lemma startswith_slash (s : ustr) :
  Str.startswith s [SLASH] = true -> exists r, s = SLASH :: r.
Proof.
  destruct s as [|c r]; [discriminate|]. cbn [Str.startswith].
  intro H. apply andb_true_iff in H as [H _]. apply N.eqb_eq in H.
  exists r. now subst.
Qed.

Lemma startswith_slash_cons (r : ustr) : Str.startswith (SLASH :: r) [SLASH] = true.
Proof. cbn [Str.startswith]. rewrite N.eqb_refl. destruct r; reflexivity. Qed.

Lemma sanitized_name_relative (w ext : ustr) :
  Str.startswith ext [SLASH] = false ->
  Str.startswith (sanitize_filename w ++ ext) [SLASH] = false.
Proof.
  intro He. destruct (Str.startswith (sanitize_filename w ++ ext) [SLASH]) eqn:E;
    [|reflexivity].
  apply startswith_slash in E as [r E].
  destruct (sanitize_filename w) as [|c s] eqn:Es.
  - cbn [app] in E. subst ext. rewrite startswith_slash_cons in He. discriminate He.
  - cbn [app] in E. inversion E. subst c.
    assert (Hin : In SLASH (sanitize_filename w)) by (rewrite Es; now left).
    apply sanitize_filename_In in Hin. exfalso. tauto.
Qed.

Lemma join_recordings (n : ustr) :
  Posixpath.join RECORDINGS_FOLDER n
  = if Str.startswith n [SLASH] then n else RECORDINGS_FOLDER ++ SLASH :: n.
Proof.
  unfold Posixpath.join. destruct (Str.startswith n [SLASH]); [reflexivity|].
  vm_compute. reflexivity.
Qed.

(** X13.  The files written for a word, the speech file of the generator and
    the recording of [record_audio], are direct children of their folders:
    the file name has no slash and is not "..", whatever the word. *)
Theorem written_files_are_children (w : ustr) :
  Generator.out_path w = AUDIO_FOLDER ++ SLASH :: sanitize_filename w ++ u8 ".mp3"
  /\ out_wav w = RECORDINGS_FOLDER ++ SLASH :: sanitize_filename w ++ u8 "_your_voice.wav"
  /\ ~ In SLASH (sanitize_filename w ++ u8 ".mp3")
  /\ ~ In SLASH (sanitize_filename w ++ u8 "_your_voice.wav")
  /\ sanitize_filename w ++ u8 ".mp3" <> u8 ".."
  /\ sanitize_filename w ++ u8 "_your_voice.wav" <> u8 "..".
Proof.
  assert (S : forall ext, ~ In SLASH ext -> ~ In SLASH (sanitize_filename w ++ ext)).
  { intros ext He Hin. apply in_app_or in Hin as [Hin|Hin]; [|contradiction].
    apply sanitize_filename_In in Hin. tauto. }
  assert (D : forall ext, In 0x33 ext \/ In 0x76 ext ->
                sanitize_filename w ++ ext <> u8 "..").
  { intros ext Hc E.
    assert (Hin : forall x, In x ext -> In x (u8 ".."))
      by (intros x Hx; rewrite <- E; apply in_or_app; now right).
    destruct Hc as [Hc|Hc]; apply Hin in Hc; vm_compute in Hc;
      destruct Hc as [Hc|[Hc|[]]]; discriminate Hc. }
  split; [|split; [|split; [|split; [|split]]]].
  - rewrite generator_direct, join_audio, sanitized_name_relative; reflexivity.
  - unfold out_wav. rewrite join_recordings, sanitized_name_relative; reflexivity.
  - apply S. apply absent_by_test. reflexivity.
  - apply S. apply absent_by_test. reflexivity.
  - apply D. left. vm_compute. tauto.
  - apply D. right. vm_compute. tauto.
Qed.

(** X14.  A hint that starts with a slash is not confined to the audio
    folder: [play_audio] probes hint + ".mp3" as an absolute path and plays it
    when it exists. *)
Theorem absolute_hint_is_probed_as_it_is (fs : FileSystem)
        (display_word hint : ustr) :
  path_exists fs (SLASH :: hint ++ u8 ".mp3") = true ->
  play_audio fs display_word (SLASH :: hint) = Playing (SLASH :: hint ++ u8 ".mp3").
Proof.
  intro H.
  assert (E : Posixpath.join AUDIO_FOLDER ((SLASH :: hint) ++ u8 ".mp3")
              = SLASH :: hint ++ u8 ".mp3").
  { unfold Posixpath.join. cbn [app]. now rewrite startswith_slash_cons. }
  rewrite <- E. apply hint_exact_plays; [discriminate|].
  unfold codepoint. now rewrite E.
Qed.

(** Witness of X14. *)
Lemma absolute_hint_is_probed_as_it_is_witness :
  play_audio {| isdir := fun _ => false;
                path_exists := fun p => ustr_eqb p (u8 "/tmp/x.mp3");
                listdir := fun _ => None;
                getmtime := fun _ => None |}
             (u8 "четы́ре") (SLASH :: u8 "tmp/x")
  = Playing (SLASH :: u8 "tmp/x" ++ u8 ".mp3").
Proof.
  apply absolute_hint_is_probed_as_it_is. vm_compute. reflexivity.
Defined.

(** ** Recordings *)

Lemma startswith_app_l (a b p : ustr) :
  Str.startswith a p = true -> Str.startswith (a ++ b) p = true.
Proof.
  revert a; induction p as [|x p IH]; intros a H.
  - destruct (a ++ b); reflexivity.
  - destruct a as [|y a]; [discriminate H|]. cbn [app Str.startswith] in *.
    apply andb_true_iff in H as [H1 H2]. rewrite H1. now apply IH.
Qed.

Lemma startswith_refl (p : ustr) : Str.startswith p p = true.
Proof.
  induction p as [|x p IH]; [reflexivity|]. cbn [Str.startswith].
  now rewrite N.eqb_refl.
Qed.

Lemma endswith_suffix (x p : ustr) : Str.endswith (x ++ p) p = true.
Proof.
  unfold Str.endswith. rewrite rev_app_distr.
  apply startswith_app_l, startswith_refl.
Qed.

Lemma lower_from_suffix (acc a b : ustr) :
  (forall c, In c b -> lowered c = true) ->
  exists x, Str.lower_from acc (a ++ b) = x ++ b.
Proof.
  intro Hb. revert acc; induction a as [|c a IH]; intro acc.
  - exists []. cbn [app]. now apply lower_from_fixed.
  - cbn [app Str.lower_from]. destruct (IH (c :: acc)) as [x Hx]. rewrite Hx.
    eexists. apply app_assoc.
Qed.

Lemma recording_stem (w : ustr) :
  Posixpath.splitext (sanitize_filename w ++ u8 "_your_voice.wav")
  = (sanitize_filename w ++ u8 "_your_voice", u8 ".wav").
Proof.
  change (u8 "_your_voice.wav") with (u8 "_your_voice" ++ FULL_STOP :: u8 "wav").
  rewrite app_assoc. apply splitext_extension.
  - intro Hin. apply in_app_or in Hin as [Hin|Hin].
    + apply sanitize_filename_In in Hin. tauto.
    + revert Hin. apply absent_by_test. reflexivity.
  - apply absent_by_test. reflexivity.
  - apply absent_by_test. reflexivity.
  - rewrite existsb_app. apply orb_true_iff. right. reflexivity.
Qed.

(** The recording of [w'] passes the tests for every word [w] whose sanitized
    form starts the sanitized form of [w']. *)
Lemma recording_eligible (fs : FileSystem) (w w' : ustr) (m : Q) :
  Str.startswith (sanitize_filename w') (sanitize_filename w) = true ->
  getmtime fs (out_wav w') = Some m ->
  eligible fs (sanitize_filename w) (sanitize_filename w' ++ u8 "_your_voice.wav") m.
Proof.
  intros Hs Hm. unfold eligible. split; [|split].
  - unfold Str.lower.
    destruct (lower_from_suffix [] (sanitize_filename w' ++ u8 "_your_voice")
                                (u8 ".wav")) as [x Hx].
    { intros c Hc. vm_compute in Hc.
      repeat (destruct Hc as [Hc|Hc]; [subst c; reflexivity|]). destruct Hc. }
    change (u8 "_your_voice.wav") with (u8 "_your_voice" ++ u8 ".wav").
    rewrite app_assoc, Hx. apply endswith_suffix.
  - rewrite recording_stem. cbn [fst]. now apply startswith_app_l.
  - exact Hm.
Qed.

(** X15.  The recording file of a word [w'], the file named by [out_wav], is
    found for every word [w] whose sanitized form starts the sanitized form
    of [w']: when it is listed, newer than every other matching recording and
    of a time above -1, [find_latest_user_recording] returns it and
    [play_user_recording] plays it, for [w = w'] and for a shorter word [w]
    alike. *)
Theorem newest_matching_recording_played (fs : FileSystem) (w w' : ustr)
        (names : list ustr) (m' : Q) :
  isdir fs RECORDINGS_FOLDER = true ->
  listdir fs RECORDINGS_FOLDER = Some names ->
  In (sanitize_filename w' ++ u8 "_your_voice.wav") names ->
  Str.startswith (sanitize_filename w') (sanitize_filename w) = true ->
  getmtime fs (out_wav w') = Some m' -> (- (1) < m')%Q ->
  (forall fname m, In fname names ->
                   fname <> sanitize_filename w' ++ u8 "_your_voice.wav" ->
                   eligible fs (sanitize_filename w) fname m -> (m < m')%Q) ->
  find_latest_user_recording fs w = Some (out_wav w')
  /\ play_user_recording fs w = PlayingRecording (out_wav w').
Proof.
  intros Hd Hl Hin Hs Hm Hpos Hothers.
  pose proof (recording_eligible fs w w' m' Hs Hm) as He.
  assert (F : find_latest_user_recording fs w = Some (out_wav w')).
  { destruct (latest_some fs w names Hd Hl) as [path Hp].
    { exists (sanitize_filename w' ++ u8 "_your_voice.wav"), m'. tauto. }
    destruct (latest_found fs w names path Hl Hp)
      as [before [fname [after [mtime [E [Ep [Ef [Hb Ha]]]]]]]].
    destruct (list_eq_dec N.eq_dec fname
                (sanitize_filename w' ++ u8 "_your_voice.wav")) as [Eq|Ne].
    - rewrite Hp, Ep, Eq. reflexivity.
    - exfalso.
      assert (Hlt : (mtime < m')%Q).
      { apply (Hothers fname mtime); [|exact Ne|exact Ef].
        rewrite E. apply in_or_app. right. now left. }
      assert (Hle : (m' <= mtime)%Q).
      { rewrite E in Hin. apply in_app_or in Hin as [Hin|[Hin|Hin]].
        - apply Qlt_le_weak. now apply (Hb _ m' Hin).
        - congruence.
        - now apply (Ha _ m' Hin). }
      exact (Qlt_not_le _ _ Hlt Hle). }
  split; [exact F|].
  unfold play_user_recording. rewrite F.
  assert (Hne : out_wav w' <> []).
  { unfold out_wav. apply join_nonempty. intro E.
    apply app_eq_nil in E as [_ E]. discriminate E. }
  destruct (out_wav w') as [|c p]; [congruence|reflexivity].
Qed.

(** Witness of X15: the newer recording of a longer word is played for the shorter word. *)
Lemma newest_matching_recording_played_witness :
  find_latest_user_recording
    (snapshot None (Some [(u8 "да_your_voice.wav", Some 3%Q);
                          (u8 "дата_your_voice.wav", Some 7%Q)])) (u8 "да")
  = Some (out_wav (u8 "дата"))
  /\ play_user_recording
       (snapshot None (Some [(u8 "да_your_voice.wav", Some 3%Q);
                             (u8 "дата_your_voice.wav", Some 7%Q)])) (u8 "да")
     = PlayingRecording (out_wav (u8 "дата")).
Proof.
  apply (newest_matching_recording_played _ (u8 "да") (u8 "дата")
           [u8 "да_your_voice.wav"; u8 "дата_your_voice.wav"] 7%Q).
  - vm_compute. reflexivity.
  - vm_compute. reflexivity.
  - right. left. vm_compute. reflexivity.
  - vm_compute. reflexivity.
  - vm_compute. reflexivity.
  - vm_compute. reflexivity.
  - intros fname m [E|[E|[]]] Hn [_ [_ Hm]].
    + subst fname. vm_compute in Hm. inversion Hm. reflexivity.
    + exfalso. apply Hn. subst fname. vm_compute. reflexivity.
Defined.

(** ** Times at or below -1 *)

Lemma latest_step_above (fs : FileSystem) (base : ustr) (st : option ustr * Q)
      (x : ustr) :
  latest_above fs st -> latest_above fs (latest_step fs base st x).
Proof.
  intros [H1 H2]. unfold latest_step.
  destruct (negb (Str.endswith (Str.lower x) (u8 ".wav"))); [now split|].
  destruct (negb (Str.startswith (fst (Posixpath.splitext x)) base)); [now split|].
  destruct (getmtime fs (Posixpath.join RECORDINGS_FOLDER x)) as [mtime|] eqn:E;
    [|now split].
  destruct (Qle_bool mtime (snd st)) eqn:E4; cbn [negb]; [now split|].
  assert (Hlt : (snd st < mtime)%Q).
  { apply Qnot_le_lt. intro H. apply Qle_bool_iff in H. congruence. }
  assert (Hpos : (- (1) < mtime)%Q) by (eapply Qle_lt_trans; eassumption).
  split; cbn [fst snd].
  - now apply Qlt_le_weak.
  - split; [exact E|exact Hpos].
Qed.

Lemma latest_loop_above (fs : FileSystem) (base : ustr) (names : list ustr) :
  latest_above fs (fold_left (latest_step fs base) names (None, (- (1))%Q)).
Proof.
  induction names as [|x names IH] using rev_ind.
  - split; [apply Qle_refl|exact I].
  - rewrite fold_left_app. cbn [fold_left]. now apply latest_step_above.
Qed.

(** X16.  The recording that [find_latest_user_recording] returns has a
    modification time above -1; when every listed file has a time of at most
    -1 the result is [None]. *)
Theorem early_times_never_returned (fs : FileSystem) (display_word : ustr) :
  (forall path, find_latest_user_recording fs display_word = Some path ->
                exists m, getmtime fs path = Some m /\ (- (1) < m)%Q)
  /\ (forall names,
        listdir fs RECORDINGS_FOLDER = Some names ->
        (forall fname m, In fname names ->
                         getmtime fs (Posixpath.join RECORDINGS_FOLDER fname) = Some m ->
                         (m <= - (1))%Q) ->
        find_latest_user_recording fs display_word = None).
Proof.
  assert (A : forall path, find_latest_user_recording fs display_word = Some path ->
                exists m, getmtime fs path = Some m /\ (- (1) < m)%Q).
  { intros path. unfold find_latest_user_recording.
    destruct (isdir fs RECORDINGS_FOLDER); cbn [negb]; [|discriminate].
    destruct (listdir fs RECORDINGS_FOLDER) as [names|]; [|discriminate].
    destruct (latest_loop_above fs (sanitize_filename display_word) names) as [_ H].
    destruct (fold_left _ names _) as [[p|] lm]; cbn [fst snd] in *; [|discriminate].
    intro E. inversion E. subst p. now exists lm. }
  split; [exact A|].
  intros names Hl Hold.
  destruct (find_latest_user_recording fs display_word) as [path|] eqn:E;
    [|reflexivity].
  destruct (A path eq_refl) as [m [Hm Hpos]].
  assert (E' : find_latest_user_recording fs display_word = Some path).
  { exact E. }
  destruct (latest_found fs display_word names path Hl E')
    as [before [fname [after [mtime [En [Ep _]]]]]].
  subst path. exfalso. apply (Qlt_not_le _ _ Hpos).
  apply (Hold fname m); [|exact Hm]. rewrite En. apply in_or_app. right. now left.
Qed.

(** Witness of X16. *)
Lemma early_times_never_returned_witness :
  find_latest_user_recording
    (snapshot None (Some [(u8 "да_your_voice.wav", Some (- (5))%Q)])) (u8 "да") = None.
Proof.
  apply (proj2 (early_times_never_returned _ (u8 "да")) [u8 "да_your_voice.wav"]).
  - vm_compute. reflexivity.
  - intros fname m [E|[]] Hm. subst fname. vm_compute in Hm. inversion Hm.
    vm_compute. discriminate.
Defined.

(** ** Words without letters *)

Lemma blank_cleaned (s : ustr) :
  (forall c, In c s -> blank_code c = true) ->
  nonspacing_marks_only s = true
  /\ forall x, In x (cleaned s) -> Str.isspace x = true.
Proof.
  induction s as [|c s IH]; intro H.
  - split; [reflexivity|intros x []].
  - unfold codepoint in *.
    destruct IH as [I1 I2]; [intros d Hd; apply H; now right|].
    change (c :: s) with ([c] ++ s).
    rewrite nonspacing_marks_only_app, cleaned_app, I1, andb_true_r.
    assert (Hc : nonspacing_marks_only [c] = true
                 /\ forall x, In x (cleaned [c]) -> Str.isspace x = true).
    { specialize (H c (or_introl eq_refl)). unfold blank_code in H.
      apply orb_true_iff in H as [H|H]; [apply orb_true_iff in H as [H|H]|].
      - destruct (cleaned_space c H) as [N1 [c' [E Hc']]]. split; [exact N1|].
        rewrite E. intros x [Hx|[]]. now subst.
      - apply in_class_In in H. destruct (cleaned_punctuation c H) as [E N1].
        split; [exact N1|]. rewrite E. intros x [].
      - split; [now apply only_marks_nonspacing|].
        rewrite (cleaned_mark c H). intros x []. }
    destruct Hc as [C1 C2]. split; [exact C1|].
    intros x Hx. apply in_app_or in Hx as [Hx|Hx]; [now apply C2|now apply I2].
Qed.

Lemma strip_blank (x : ustr) :
  (forall c, In c x -> Str.isspace c = true) -> Str.strip x = [].
Proof.
  intro H. unfold Str.strip, Str.lstrip.
  assert (E : Str.dropwhile Str.isspace x = []).
  { induction x as [|c x IH]; [reflexivity|]. cbn [Str.dropwhile].
    rewrite (H c (or_introl eq_refl)). apply IH. intros d Hd. apply H. now right. }
  rewrite E. reflexivity.
Qed.

Lemma sub_spaces_blank (x : ustr) :
  (forall c, In c x -> Str.isspace c = true) ->
  forall y, In y (Re.sub_spaces x) -> Str.isspace y = true.
Proof.
  intros H y Hy. unfold Re.sub_spaces in Hy.
  apply sub_spaces_from_In in Hy as [Hy|[Hy1 Hy2]]; [now subst|].
  apply H in Hy1. congruence.
Qed.

Lemma blank_core (s : ustr) :
  (forall c, In c s -> blank_code c = true) -> core s = [].
Proof.
  intro H. destruct (blank_cleaned s H) as [N1 C].
  rewrite core_cleaned by exact N1. apply strip_blank. now apply sub_spaces_blank.
Qed.

(** X17.  A word made of white space, punctuation of the class and
    nonspacing marks only has the empty string as its sanitized form and as
    its key, so all such words share the speech file ".mp3" and the recording
    "_your_voice.wav". *)
Theorem blank_words_collide (s : ustr) :
  (forall c, In c s -> blank_code c = true) ->
  sanitize_filename s = [] /\ norm_base s = []
  /\ Generator.out_path s = u8 "audio_native/.mp3"
  /\ out_wav s = u8 "audio_user/_your_voice.wav".
Proof.
  intro H. destruct (blank_cleaned s H) as [N1 C].
  assert (S : sanitize_filename s = []).
  { rewrite sanitize_filename_cleaned by exact N1.
    rewrite !replace_run; try reflexivity; try exact C.
    - apply strip_blank. now apply sub_spaces_blank.
    - rewrite replace_run; [exact C|exact C|reflexivity]. }
  split; [exact S|]. split; [|split].
  - rewrite norm_base_core, blank_core; [reflexivity|].
    intros c Hc. apply H. now apply splitext_prefix.
  - rewrite generator_direct, S. vm_compute. reflexivity.
  - unfold out_wav. rewrite S. vm_compute. reflexivity.
Qed.

(** Witness of X17. *)
Lemma blank_words_collide_witness :
  sanitize_filename (u8 "?!") = [] /\ norm_base (u8 " … ") = []
  /\ Generator.out_path (0x301 :: u8 "—") = u8 "audio_native/.mp3"
  /\ out_wav (u8 "...") = u8 "audio_user/_your_voice.wav".
Proof.
  split; [|split; [|split]].
  - apply (blank_words_collide (u8 "?!")).
    intros c Hc. vm_compute in Hc.
    repeat (destruct Hc as [Hc|Hc]; [subst c; vm_compute; reflexivity|]). destruct Hc.
  - apply (blank_words_collide (u8 " … ")).
    intros c Hc. vm_compute in Hc.
    repeat (destruct Hc as [Hc|Hc]; [subst c; vm_compute; reflexivity|]). destruct Hc.
  - apply (blank_words_collide (0x301 :: u8 "—")).
    intros c Hc. vm_compute in Hc.
    repeat (destruct Hc as [Hc|Hc]; [subst c; vm_compute; reflexivity|]). destruct Hc.
  - apply (blank_words_collide (u8 "...")).
    intros c Hc. vm_compute in Hc.
    repeat (destruct Hc as [Hc|Hc]; [subst c; vm_compute; reflexivity|]). destruct Hc.
Defined.
